(** * The okteto.remote-kubernetes extension: commands and polling loop

    A shallow embedding of [src/extension.ts].  The commands of the
    extension ([installCmd], [upCommand], [downCommand]) and the polling
    loop [waitForFinalState] are written in a small command monad that
    threads the module-level variable [activeManifest], records every call
    into a collaborator ([vscode], [okteto], [manifest], [reporter],
    [console]) as an effect, and propagates JavaScript exceptions.

    The collaborators themselves ([./okteto], [./manifest], [./kubernetes],
    the editor) are not part of the file: their answers are fields of a
    [World], and the constants [okteto.state.ready] and
    [okteto.state.failed] are section variables.  [activate] (the
    registration of the commands) and [createCmd] are left out. *)

From stdpp Require Import base strings gmap list.
From Stdlib Require Import Ascii Lia.

Local Open Scope nat_scope.

(** ** Values *)

(** The double quote and the line feed, which occur inside template
    literals of the source. *)
Definition dquote : string :=
  String (Ascii.Ascii false true false false false true false false) EmptyString.
Definition newline : string :=
  String (Ascii.Ascii false true false true false false false false) EmptyString.

(** Truthiness of a [string | undefined | null] value: [if (x)]. *)
Definition truthy (x : option string) : bool :=
  match x with
  | Some s => negb (String.eqb s "")
  | None => false
  end.

(** A value of type [string | null] inside a template literal. *)
Definition template (x : option string) : string :=
  match x with
  | Some s => s
  | None => "null"
  end.

(** [s.split('/')]: always at least one element. *)
Fixpoint split_slash (s : string) : list string :=
  match s with
  | EmptyString => [EmptyString]
  | String c rest =>
      if Ascii.eqb c "/"%char then EmptyString :: split_slash rest
      else match split_slash rest with
           | seg :: segs => String c seg :: segs
           | [] => [String c EmptyString]
           end
  end.

(** [vscode.Uri], as far as the extension reads it. *)
Record Uri := { fsPath : string; path : string }.

(** [manifest.Manifest]: [namespace] is optional at load time. *)
Record Manifest := { name : string; namespace : option string }.

(** What [okteto.getState] resolves to. *)
Record StateResult := { state : string; message : string }.

(** What [waitForFinalState] resolves to: [{result, message}]. *)
Record FinalState := { result : bool; final_message : string }.

(** The telemetry [events] the commands track. *)
Module events.
Inductive t :=
  | activated | install | oktetoInstallFailed
  | manifestDismissed | manifestSelected | manifestLoadFailed
  | upCancelled | oktetoUpFailed | upReady | upFinished
  | down | downFinished | oktetoDownFailed.
End events.

(** ** Effects: every call into a collaborator, in program order *)
Inductive Effect :=
| console_log (s : string)
| console_error (s : string)
| reporter_track (e : events.t)
| reporter_captureError (msg : string)
| showErrorMessage (msg : string)
| showInformationMessage (msg : string)
| withProgress_start (title : option string) (cancellable : bool)
| progress_report (msg : option string)
| showQuickPick (labels : list string) (placeHolder : string)
| showOpenDialog
| updateWorkspaceFolders (start : nat) (folder : string) (uri : Uri)
| findFiles (include : string)
| setTimeout (ms : nat)
| executeCommand (command : string)
| manifest_getManifest (manifestPath : string)
| okteto_install
| okteto_up (manifestPath ns nm kubeconfig : string)
| okteto_down (manifestPath ns kubeconfig : string)
| okteto_getState (ns nm : string)
| okteto_notifyIfFailed (ns nm : string)
| okteto_showTerminal
(** a call made by the command that [executeCommand(command)] started,
    not by the running command's own code *)
| in_command (command : string) (e : Effect).

(** ** The world: what the collaborators answer *)
Record World := {
  (** [vscode.workspace.name] *)
  workspace_name : option string;
  (** [vscode.workspace.workspaceFolders] *)
  workspaceFolders : option (list Uri);
  (** [vscode.workspace.findFiles(include)] *)
  findFiles_result : string -> list Uri;
  (** [vscode.workspace.asRelativePath(file, true)] *)
  asRelativePath : Uri -> string;
  (** index of the item the user picks in the workspace quick pick, if any *)
  quickPick_workspace : option nat;
  (** index of the item the user picks in the manifest quick pick, if any *)
  quickPick_manifest : option nat;
  (** [vscode.window.showOpenDialog] *)
  showOpenDialog_result : option (list Uri);
  (** [vscode.workspace.updateWorkspaceFolders] *)
  updateWorkspaceFolders_result : bool;
  (** [okteto.needsInstall()]: [{install, upgrade}] *)
  needsInstall : bool * bool;
  (** [okteto.install()]: [Some msg] when it rejects with [err.message = msg] *)
  install_error : option string;
  (** [manifest.getManifest(path)]: [inl msg] when it rejects *)
  getManifest : string -> string + Manifest;
  (** [kubernetes.getKubeconfig()] *)
  getKubeconfig : string;
  (** [kubernetes.getCurrentNamespace(kubeconfig)] *)
  getCurrentNamespace : string -> option string;
  (** the answer of the [n]-th call of [okteto.getState] of the session
      (counted from 0): [inl msg] when the call itself rejects *)
  getState : nat -> string + StateResult;
  (** [okteto.getStateMessages().get(tag)] *)
  getStateMessages : string -> option string;
  (** [okteto.down(...)]: [Some msg] when it rejects *)
  down_error : option string
}.

(** The host's side of an attempt: the world, and the cancellation the user
    may raise.  [Some (k, w')]: the user cancels the progress notification
    after the [k]-th query of the session and before the next one; the
    command that the handler starts runs in world [w']. *)
Record Env := { world : World; cancellation : option (nat * World) }.

(** The mutable state of the extension session. *)
Record Session := {
  (** [let activeManifest: string], [None] while still undefined *)
  activeManifest : option string;
  (** number of [okteto.getState] calls made so far *)
  polls : nat;
  (** a handler is registered on the cancellation token of a running
      cancellable progress *)
  cancelListener : bool
}.

(** ** The command monad *)
Inductive Outcome (A : Type) :=
| Return (a : A)
| Throw (err : string)
| OutOfFuel.
Arguments Return {A} a.
Arguments Throw {A} err.
Arguments OutOfFuel {A}.

Definition Cmd (A : Type) : Type := Env -> Session -> Outcome A * Session * list Effect.

Definition ret {A} (a : A) : Cmd A := fun _ s => (Return a, s, []).

Definition throw {A} (err : string) : Cmd A := fun _ s => (Throw err, s, []).

Definition bind {A B} (m : Cmd A) (k : A -> Cmd B) : Cmd B :=
  fun env s =>
    match m env s with
    | (Return a, s1, t1) =>
        match k a env s1 with
        | (o, s2, t2) => (o, s2, t1 ++ t2)
        end
    | (Throw err, s1, t1) => (Throw err, s1, t1)
    | (OutOfFuel, s1, t1) => (OutOfFuel, s1, t1)
    end.

(** [try { m } catch (err) { h err.message }] *)
Definition try_catch {A} (m : Cmd A) (h : string -> Cmd A) : Cmd A :=
  fun env s =>
    match m env s with
    | (Throw err, s1, t1) =>
        match h err env s1 with
        | (o, s2, t2) => (o, s2, t1 ++ t2)
        end
    | r => r
    end.

Definition emit (e : Effect) : Cmd unit := fun _ s => (Return tt, s, [e]).

Definition ask : Cmd World := fun env s => (Return (world env), s, []).

Definition get_activeManifest : Cmd (option string) :=
  fun _ s => (Return (activeManifest s), s, []).

Definition set_activeManifest (v : string) : Cmd unit :=
  fun _ s => (Return tt,
              {| activeManifest := Some v; polls := polls s;
                 cancelListener := cancelListener s |}, []).

Definition set_cancelListener (b : bool) : Cmd unit :=
  fun _ s => (Return tt,
              {| activeManifest := activeManifest s; polls := polls s;
                 cancelListener := b |}, []).

(** [vscode.commands.executeCommand(command)] with a promise that nobody
    awaits: the registered command [m] runs in the world [w], its rejection
    is lost. *)
Definition spawn {A} (command : string) (m : Cmd A) (w : World) : Cmd unit :=
  fun _ s =>
    match m {| world := w; cancellation := None |} s with
    | (_, s1, t1) => (Return tt, s1, executeCommand command :: map (in_command command) t1)
    end.

Declare Scope cmd_scope.
Delimit Scope cmd_scope with cmd.
Notation "x <- m ;; k" := (bind m (fun x => k))
  (at level 100, m at next level, right associativity) : cmd_scope.
Notation "m ;; k" := (bind m (fun _ => k))
  (at level 100, right associativity) : cmd_scope.
Local Open Scope cmd_scope.

(** The trace a command leaves, and its other two components. *)
Definition outcome_of {A} (r : Outcome A * Session * list Effect) : Outcome A := r.1.1.
Definition session_of {A} (r : Outcome A * Session * list Effect) : Session := r.1.2.
Definition trace_of {A} (r : Outcome A * Session * list Effect) : list Effect := r.2.

(** ** Calls into the collaborators *)

Definition console_log2 (a b : string) : Cmd unit :=
  emit (console_log (a +:+ " " +:+ b)).

Definition track (e : events.t) : Cmd unit := emit (reporter_track e).

(** [reporter.captureError(message, err)] *)
Definition captureError (msg : string) : Cmd unit := emit (reporter_captureError msg).

(** [await okteto.install()] *)
Definition okteto_install_call : Cmd unit :=
  emit okteto_install ;;
  w <- ask ;;
  match install_error w with
  | Some err => throw err
  | None => ret tt
  end.

(** [await okteto.down(manifestPath, namespace, kubeconfig)] *)
Definition okteto_down_call (manifestPath ns kubeconfig : string) : Cmd unit :=
  emit (okteto_down manifestPath ns kubeconfig) ;;
  w <- ask ;;
  match down_error w with
  | Some err => throw err
  | None => ret tt
  end.

(** [await manifest.getManifest(manifestPath)] *)
Definition getManifest_call (manifestPath : string) : Cmd Manifest :=
  emit (manifest_getManifest manifestPath) ;;
  w <- ask ;;
  match getManifest w manifestPath with
  | inl err => throw err
  | inr m => ret m
  end.

(** [await okteto.getState(namespace, name)]: the next answer of the world. *)
Definition okteto_getState_call (ns nm : string) : Cmd StateResult :=
  fun env s =>
    let s' := {| activeManifest := activeManifest s; polls := S (polls s);
                 cancelListener := cancelListener s |} in
    match getState (world env) (polls s) with
    | inl err => (Throw err, s', [okteto_getState ns nm])
    | inr res => (Return res, s', [okteto_getState ns nm])
    end.

(** [vscode.window.withProgress(options, task)] *)
Definition withProgress {A} (title : option string) (cancellable : bool)
    (task : Cmd A) : Cmd A :=
  emit (withProgress_start title cancellable) ;; task.

(** [function onOktetoFailed(message)] *)
Definition onOktetoFailed (msg : string) : Cmd unit :=
  emit (showErrorMessage msg) ;;
  emit okteto_showTerminal.

(** ** [installCmd(upgrade, handleErr)] *)
Definition installCmd (upgrade handleErr : bool) : Cmd unit :=
  let title := if upgrade then "Okteto is out of date, upgrading" else "Installing Okteto" in
  let success :=
    if upgrade then "Okteto was successfully upgraded"
    else "Okteto was successfully installed" in
  emit (console_log "installing okteto") ;;
  track events.install ;;
  withProgress (Some title) false
    (try_catch okteto_install_call (fun err =>
       track events.oktetoInstallFailed ;;
       captureError ("okteto install failed: " +:+ err) ;;
       if handleErr
       then emit (showErrorMessage ("Okteto was not installed: " +:+ err))
       else throw ("Okteto was not installed: " +:+ err))) ;;
  emit (showInformationMessage success).

(** ** [showManifestPicker()] *)
Definition showManifestPicker : Cmd (option Uri) :=
  w <- ask ;;
  emit (findFiles "**/okteto.{yml,yaml}") ;;
  let files := findFiles_result w "**/okteto.{yml,yaml}" in
  if length files =? 0 then
    emit (showErrorMessage
            ("No manifests found in your workspace." +:+ newline +:+ newline +:+
             "Please run the 'Okteto: Create Manifest' command to create it and then try again.")) ;;
    ret None
  else
    let items := map (fun file => (asRelativePath w file, file)) files in
    emit (showQuickPick (map fst items) "Select your okteto manifest") ;;
    let manifestItem := i ← quickPick_manifest w; items !! i in
    ret (match manifestItem with
         | Some item => Some (snd item)
         | None => None
         end).

(** ** [getManifestOrAsk()] *)
Definition getManifestOrAsk : Cmd (option string) :=
  am <- get_activeManifest ;;
  if truthy am then ret am
  else
    manifestUri <- showManifestPicker ;;
    match manifestUri with
    | Some uri => track events.manifestSelected ;; ret (Some (fsPath uri))
    | None => track events.manifestDismissed ;; ret None
    end.

(** ** [downCommand()]

    An early [return] of the source ends the command with [ret tt]. *)
Definition downCommand : Cmd unit :=
  w <- ask ;;
  let '(install, upgrade) := needsInstall w in
  proceed <- (if install
              then try_catch (installCmd upgrade false ;; ret true)
                     (fun err => emit (showErrorMessage err) ;; ret false)
              else ret true) ;;
  if negb proceed then ret tt else
  track events.down ;;
  manifestPath <- getManifestOrAsk ;;
  if negb (truthy manifestPath) then ret tt else
  let manifestPath := default "" manifestPath in
  loaded <- try_catch (m <- getManifest_call manifestPath ;; ret (Some m))
              (fun err =>
                 track events.manifestLoadFailed ;;
                 captureError ("load manifest failed: " +:+ err) ;;
                 onOktetoFailed ("Okteto: Down failed to load your Okteto manifest: " +:+ err) ;;
                 ret None) ;;
  match loaded with
  | None => ret tt
  | Some m =>
      let kubeconfig := getKubeconfig w in
      resolved <- (if negb (truthy (namespace m)) then
                     let ns := getCurrentNamespace w kubeconfig in
                     if negb (truthy ns) then
                       emit (showErrorMessage "Couldn't detect your current Kubernetes context.") ;;
                       ret None
                     else ret ns
                   else ret (namespace m)) ;;
      match resolved with
      | None => ret tt
      | Some ns =>
          try_catch
            (okteto_down_call manifestPath ns kubeconfig ;;
             set_activeManifest "" ;;
             emit (showInformationMessage "Okteto environment deactivated") ;;
             track events.downFinished)
            (fun err =>
               track events.oktetoDownFailed ;;
               captureError ("okteto down failed: " +:+ err) ;;
               emit (showErrorMessage ("Okteto: Down failed: " +:+ err)))
      end
  end.

(** ** Cancellation and [sleep]

    The handler that [waitForUp] registers on the cancellation token:
    [reporter.track(events.upCancelled); executeCommand('okteto.down')].
    [activate] registers [downCommand] under ['okteto.down']; the promise of
    [executeCommand] is not awaited. *)
Definition onCancellationRequested_handler (w' : World) : Cmd unit :=
  track events.upCancelled ;;
  spawn "okteto.down" downCommand w'.

(** While a command is suspended between two ticks the host runs what is
    pending: here the cancellation handler, once, when the user cancels at
    this point and a handler is registered.  The command the handler starts
    is run to its end at that point. *)
Definition host_suspended : Cmd unit :=
  fun env s =>
    match cancellation env with
    | Some (k, w') =>
        if cancelListener s && (polls s =? k)
        then (set_cancelListener false ;; onCancellationRequested_handler w') env s
        else (Return tt, s, [])
    | None => (Return tt, s, [])
    end.

(** [token.onCancellationRequested(handler)] inside the task of a
    cancellable progress: the handler stays registered until the task
    settles. *)
Definition with_token {A} (task : Cmd A) : Cmd A :=
  fun env s =>
    match (set_cancelListener true ;; task) env s with
    | (o, s1, t1) =>
        match set_cancelListener false env s1 with
        | (_, s2, t2) => (o, s2, t1 ++ t2)
        end
    end.

(** [async function sleep(ms)]: the timer is 1000 whatever [ms] is. *)
Definition sleep (ms : nat) : Cmd unit :=
  emit (setTimeout 1000) ;;
  host_suspended.

(** ** [showWorkspacePicker(repository)] *)
Inductive WorkspaceOption := clone | open.

Definition showWorkspacePicker (repository : option string) : Cmd bool :=
  w <- ask ;;
  let items :=
    (if truthy repository
     then [("Clone repository " +:+ dquote +:+ template repository +:+ dquote +:+
            " and open folder...", clone)]
     else []) ++
    [("Open existing folder...", open)] in
  emit (showQuickPick (map fst items) "Choose your application's workspace") ;;
  let selectedItem := i ← quickPick_workspace w; items !! i in
  match snd <$> selectedItem with
  | Some clone =>
      withProgress
        (Some ("Cloning repository " +:+ dquote +:+ template repository +:+ dquote +:+ "..."))
        false (sleep 3000) ;;
      ret false
  | Some open =>
      emit showOpenDialog ;;
      match showOpenDialog_result w with
      | Some (uri0 :: _) =>
          let nm := default (path uri0) (last (split_slash (path uri0))) in
          console_log2 "Name: " nm ;;
          emit (updateWorkspaceFolders
                  (match workspaceFolders w with
                   | Some folders => length folders
                   | None => 0
                   end) nm uri0) ;;
          sleep 1000 ;;
          ret (updateWorkspaceFolders_result w)
      | _ => ret false
      end
  | None => ret false
  end.

Section Polling.

(** [okteto.state.ready] and [okteto.state.failed]: two raw state tags of
    the orchestrator, constants of [./okteto]. *)
Variables state_ready state_failed : string.

(** [var timeout = 5 * 60; // 5 minutes] *)
Definition timeout : nat := 5 * 60.

(** ** [waitForFinalState(namespace, name, progress)]

    The body of [while (true)], [fuel] bounding the number of iterations;
    [seen] is the [Map<string, boolean>] and [counter] the tick counter. *)
Fixpoint waitForFinalState_loop (fuel : nat) (ns nm : string)
    (seen : gmap string bool) (counter : nat) : Cmd FinalState :=
  match fuel with
  | 0 => fun _ s => (OutOfFuel, s, [])
  | S fuel' =>
      w <- ask ;;
      res <- okteto_getState_call ns nm ;;
      (if bool_decide (is_Some (seen !! state res)) then ret tt
       else
         emit (progress_report (getStateMessages w (state res))) ;;
         emit (console_log ("okteto is " +:+ state res))) ;;
      let seen := <[state res := true]> seen in
      if String.eqb state_ready (state res) then
        ret {| result := true; final_message := "" |}
      else if String.eqb state_failed (state res) then
        ret {| result := false; final_message := message res |}
      else
        let counter := counter + 1 in
        if counter =? timeout then
          ret {| result := false; final_message := "task didn't finish in 5 minutes" |}
        else
          sleep 1000 ;;
          waitForFinalState_loop fuel' ns nm seen counter
  end.

Definition waitForFinalState (fuel : nat) (ns nm : string) : Cmd FinalState :=
  emit (progress_report (Some "Launching your development environment...")) ;;
  waitForFinalState_loop fuel ns nm ∅ 0.

(** ** [waitForUp(namespace, name)]

    The task registers its handler on the token, which lives as long as
    the progress does. *)
Definition waitForUp (fuel : nat) (ns nm : string) : Cmd unit :=
  withProgress None true
    (with_token
       (res <- waitForFinalState fuel ns nm ;;
        if negb (result res) then
          track events.oktetoUpFailed ;;
          emit (console_error (final_message res)) ;;
          throw ("Okteto: Up command failed: " +:+ final_message res)
        else ret tt)).

(** ** [finalizeUp(namespace, name)] *)
Definition finalizeUp (ns nm : string) : Cmd unit :=
  track events.upReady ;;
  track events.upFinished ;;
  emit (okteto_notifyIfFailed ns nm) ;;
  emit (showInformationMessage "Your development container is ready!").

(** ** [upCommand(repository, path)]

    An early [return] of the source ends the command with [ret tt]. *)
Definition upCommand (fuel : nat) (repository path : option string) : Cmd unit :=
  w <- ask ;;
  (* 1. Select workspace. *)
  (if negb (truthy (workspace_name w)) then
     console_log2 "Select workspace. Repo: " (template repository) ;;
     showWorkspacePicker repository ;;
     ret tt
   else ret tt) ;;
  (* 2. Install or upgrade okteto cli. *)
  let '(install, upgrade) := needsInstall w in
  proceed <- (if install
              then try_catch (installCmd upgrade false ;; ret true)
                     (fun err => emit (showErrorMessage err) ;; ret false)
              else ret true) ;;
  if negb proceed then ret tt else
  (* 3. Select okteto manifest. *)
  manifestUri <- (if truthy path then
                    emit (findFiles (template path)) ;;
                    let files := findFiles_result w (template path) in
                    if length files =? 0 then showManifestPicker else ret None
                  else showManifestPicker) ;;
  match manifestUri with
  | None => track events.manifestDismissed
  | Some manifestUri =>
      track events.manifestSelected ;;
      let manifestPath := fsPath manifestUri in
      emit (console_log ("manifest selected: " +:+ manifestPath)) ;;
      loaded <- try_catch (m <- getManifest_call manifestPath ;; ret (Some m))
                  (fun err =>
                     track events.manifestLoadFailed ;;
                     captureError ("load manifest failed: " +:+ err) ;;
                     onOktetoFailed ("Okteto: Up failed to load your Okteto manifest: " +:+ err) ;;
                     ret None) ;;
      match loaded with
      | None => ret tt
      | Some m =>
          (* 4. Get kubernetes context. *)
          let kubeconfig := getKubeconfig w in
          resolved <- (if negb (truthy (namespace m)) then
                         let ns := getCurrentNamespace w kubeconfig in
                         if negb (truthy ns) then
                           emit (showErrorMessage "Couldn't detect your current Kubernetes context.") ;;
                           ret None
                         else ret ns
                       else ret (namespace m)) ;;
          match resolved with
          | None => ret tt
          | Some ns =>
              (* 5. Set up developer container. *)
              emit (okteto_up manifestPath ns (name m) kubeconfig) ;;
              set_activeManifest manifestPath ;;
              up <- try_catch (waitForUp fuel ns (name m) ;; ret true)
                      (fun err =>
                         captureError ("okteto up failed: " +:+ err) ;;
                         onOktetoFailed err ;;
                         ret false) ;;
              if up then finalizeUp ns (name m) else ret tt
          end
      end
  end.

End Polling.

(** ** Reading a trace *)

(** The call itself, whoever made it. *)
Fixpoint call_of (e : Effect) : Effect :=
  match e with
  | in_command _ e' => call_of e'
  | _ => e
  end.

Definition is_query (e : Effect) : bool :=
  match call_of e with okteto_getState _ _ => true | _ => false end.

Definition is_timer (e : Effect) : bool :=
  match call_of e with setTimeout _ => true | _ => false end.

Definition is_report (e : Effect) : bool :=
  match call_of e with progress_report _ => true | _ => false end.

Definition is_launch (e : Effect) : bool :=
  match call_of e with okteto_up _ _ _ _ => true | _ => false end.

Definition is_teardown (e : Effect) : bool :=
  match call_of e with okteto_down _ _ _ => true | _ => false end.

Definition is_load (e : Effect) : bool :=
  match e with manifest_getManifest _ => true | _ => false end.

Definition is_success_message (e : Effect) : bool :=
  match e with showInformationMessage _ => true | _ => false end.

(** What the polling loop does itself: queries, progress reports, timers. *)
Definition is_poll (e : Effect) : bool := is_query e || is_report e || is_timer e.

(** [count p t]: how many effects of [t] satisfy [p]. *)
Definition count (p : Effect -> bool) (t : list Effect) : nat :=
  length (List.filter p t).

(** The queries a trace holds. *)
Definition queries (t : list Effect) : nat := count is_query t.

(** A state that lets the loop go on: neither ready nor failed. *)
Definition pending (state_ready state_failed : string) (a : string + StateResult) : Prop :=
  match a with
  | inl _ => False
  | inr res => state res <> state_ready /\ state res <> state_failed
  end.

(** [reported_before poll k]: a tick before [k] answered the raw tag that
    tick [k] answers. *)
Definition reported_before (poll : nat -> string + StateResult) (k : nat) : bool :=
  existsb
    (fun j =>
       match poll j, poll k with
       | inr a, inr b => String.eqb (state a) (state b)
       | _, _ => false
       end)
    (seq 0 k).

(** The query and the progress report of tick [k], as the dedup rule gives
    them: the query, then the message of the tag when no earlier tick
    answered that tag. *)
Definition tick_reports (w : World) (ns nm : string) (poll : nat -> string + StateResult)
    (k : nat) : list Effect :=
  okteto_getState ns nm ::
  match poll k with
  | inl _ => []
  | inr res =>
      if reported_before poll k then []
      else [progress_report (getStateMessages w (state res))]
  end.

(** Queries and progress reports. *)
Definition is_query_or_report (e : Effect) : bool := is_query e || is_report e.

(** ** Invariants of commands

    [safe I P m]: from a session that satisfies [I], the command [m] ends in
    a session that satisfies [I], and every effect of its trace passes
    [P]. *)
Definition safe (I : Session -> Prop) (P : Effect -> bool) {A} (m : Cmd A) : Prop :=
  forall env s, I s ->
    I (session_of (m env s)) /\ Forall (fun e => P e = true) (trace_of (m env s)).

(** Effects that are no query, no progress report, no timer and no launch:
    all that [downCommand] and the pickers do. *)
Definition quiet (e : Effect) : bool := negb (is_poll e) && negb (is_launch e).

(** Quiet effects that are no teardown and no manifest load either. *)
Definition silent (e : Effect) : bool :=
  quiet e && negb (is_teardown e) && negb (is_load e).

(** Effects that are no launch, and no manifest load of the running
    command itself. *)
Definition before_load (e : Effect) : bool := negb (is_launch e) && negb (is_load e).

(** [executeCommand('okteto.down')], made by the running command. *)
Definition is_down_dispatch (e : Effect) : bool :=
  match e with
  | executeCommand c => String.eqb c "okteto.down"
  | _ => false
  end.

(** The session in which a command starts when no cancellable progress of
    an earlier command is still open. *)
Definition idle (am : option string) (n : nat) : Session :=
  {| activeManifest := am; polls := n; cancelListener := false |}.

(** The session after [activeManifest = '']. *)
Definition cleared (s : Session) : Session :=
  {| activeManifest := Some ""; polls := polls s; cancelListener := cancelListener s |}.

(** The session after one more query. *)
Definition polled (s : Session) : Session :=
  {| activeManifest := activeManifest s; polls := S (polls s);
     cancelListener := cancelListener s |}.

(** The host delivers the cancellation at this suspension. *)
Definition fires (env : Env) (s : Session) : bool :=
  match cancellation env with
  | Some (k, _) => cancelListener s && (polls s =? k)
  | None => false
  end.

(** Quiet effects that are no manifest load of the running command: what
    may happen around the loop's own effects while it is suspended. *)
Definition background (e : Effect) : bool := quiet e && negb (is_load e).

(** What tick [res] adds to the trace after its query: the report and the
    log line of a tag that [seen] does not hold. *)
Definition tick_effects (w : World) (seen : gmap string bool) (res : StateResult)
    : list Effect :=
  if bool_decide (is_Some (seen !! state res)) then []
  else [progress_report (getStateMessages w (state res));
        console_log ("okteto is " +:+ state res)].

(** The outcome of a loop that ran into its tick cap. *)
Definition timed_out : FinalState :=
  {| result := false; final_message := "task didn't finish in 5 minutes" |}.

(** The map [seen] holds the tags of the ticks before [i]. *)
Definition seen_upto (poll : nat -> string + StateResult) (i : nat)
    (seen : gmap string bool) : Prop :=
  forall tag, is_Some (seen !! tag) <-> exists j a, j < i /\ poll j = inr a /\ state a = tag.


(** The same host without the cancellation. *)
Definition uncancelled (env : Env) : Env :=
  {| world := world env; cancellation := None |}.

(** The session once the handler is registered on the token. *)
Definition listening (s : Session) : Session :=
  {| activeManifest := activeManifest s; polls := polls s; cancelListener := true |}.

(** The session once the token is gone. *)
Definition released (s : Session) : Session :=
  {| activeManifest := activeManifest s; polls := polls s; cancelListener := false |}.

(** The cancellation reaches a loop that starts in session [s] with a
    listening handler and that suspends [timers] times: it is raised after
    the [k]-th query of the session, and the loop is suspended there. *)
Definition delivered (env : Env) (s : Session) (timers : nat) : bool :=
  match cancellation env with
  | Some (k, _) => cancelListener s && (polls s <? k) && (k <=? polls s + timers)
  | None => false
  end.

(** The event the cancellation handler tracks, made by the running
    command. *)
Definition is_cancel_event (e : Effect) : bool :=
  match e with
  | reporter_track events.upCancelled => true
  | _ => false
  end.

(** The run of the down command that the cancellation handler starts for an
    attempt whose [activeManifest] is [am]: in the world of the
    cancellation, after the [k]-th query of the session, the handler having
    been taken off the token. *)
Definition dispatched_down (env : Env) (am : option string)
    : Outcome unit * Session * list Effect :=
  match cancellation env with
  | Some (k, w') => downCommand {| world := w'; cancellation := None |} (idle am k)
  | None => (Return tt, idle am 0, [])
  end.

(** [t1] is the trace of an attempt, started in session [s], up to the
    suspension at which the cancellation is raised: it ends with the timer
    of a [sleep], and the query before that timer is the [k]-th of the
    session. *)
Definition suspended_after (env : Env) (s : Session) (t1 : list Effect) : Prop :=
  last t1 = Some (setTimeout 1000) /\
  match cancellation env with
  | Some (k, _) => polls s + queries t1 = k
  | None => False
  end.

(** A call made by a command that [executeCommand] started. *)
Definition is_dispatched (e : Effect) : bool :=
  match e with
  | in_command _ _ => true
  | _ => false
  end.

(** The calls a command makes itself, in order. *)
Definition own_calls (t : list Effect) : list Effect :=
  List.filter (fun e => negb (is_dispatched e)) t.

(** The calls of the commands it dispatched, in order. *)
Definition dispatched_calls (t : list Effect) : list Effect :=
  List.filter is_dispatched t.

(** What [waitForUp] makes of the final state. *)
Definition waitForUp_settles (o : Outcome FinalState) : Outcome unit * list Effect :=
  match o with
  | Return res =>
      if negb (result res)
      then (Throw ("Okteto: Up command failed: " +:+ final_message res),
            [reporter_track events.oktetoUpFailed; console_error (final_message res)])
      else (Return tt, [])
  | Throw err => (Throw err, [])
  | OutOfFuel => (OutOfFuel, [])
  end.


(** The namespace [upCommand] and [downCommand] go on with after step 4:
    the manifest's own when it is set, else the one of the cluster
    context, if any. *)
Definition resolve_namespace (w : World) (m : Manifest) : option string :=
  if truthy (namespace m) then namespace m
  else if truthy (getCurrentNamespace w (getKubeconfig w))
       then getCurrentNamespace w (getKubeconfig w)
       else None.

(** The shapes of an up command's trace: it ends before any manifest is
    loaded, or it loads one manifest [p] after a prefix without load and
    launch, and then reports the load failure, or reports the missing
    namespace, or launches once and goes on without another load or
    launch of its own. *)
Definition up_shape (w : World) (r : Outcome unit * Session * list Effect) : Prop :=
  Forall (fun e => before_load e = true) (trace_of r) \/
  exists pre p,
    Forall (fun e => before_load e = true) pre /\
    match getManifest w p with
    | inl err =>
        outcome_of r = Return tt /\
        trace_of r =
          pre ++ [manifest_getManifest p;
                  reporter_track events.manifestLoadFailed;
                  reporter_captureError ("load manifest failed: " +:+ err);
                  showErrorMessage ("Okteto: Up failed to load your Okteto manifest: " +:+ err);
                  okteto_showTerminal]
    | inr m =>
        match resolve_namespace w m with
        | None =>
            outcome_of r = Return tt /\
            trace_of r =
              pre ++ [manifest_getManifest p;
                      showErrorMessage "Couldn't detect your current Kubernetes context."]
        | Some ns =>
            exists post,
              trace_of r =
                pre ++ [manifest_getManifest p; okteto_up p ns (name m) (getKubeconfig w)]
                    ++ post /\
              Forall (fun e => before_load e = true) post
        end
    end.

(** ** Sample worlds

    A workspace that is open, an installed okteto, one manifest
    [/ws/okteto.yml] that the user picks; the answers of [okteto.getState],
    the result of the manifest load and the answer of the cluster context
    reader are given. *)
Definition sample_world (answers : nat -> string + StateResult)
    (loaded : string + Manifest) (reader : option string) : World :=
  {| workspace_name := Some "ws";
     workspaceFolders := None;
     findFiles_result := fun _ => [{| fsPath := "/ws/okteto.yml"; path := "/ws/okteto.yml" |}];
     asRelativePath := fun _ => "okteto.yml";
     quickPick_workspace := None;
     quickPick_manifest := Some 0;
     showOpenDialog_result := None;
     updateWorkspaceFolders_result := true;
     needsInstall := (false, false);
     install_error := None;
     getManifest := fun _ => loaded;
     getKubeconfig := "/home/me/.kube/config";
     getCurrentNamespace := fun _ => reader;
     getState := answers;
     getStateMessages :=
       fun tag => if String.eqb tag "starting" then Some "Starting..." else None;
     down_error := None |}.

(** The manifest [{name: "app", namespace: null}]. *)
Definition app_manifest : Manifest := {| name := "app"; namespace := None |}.

Definition answer (tag msg : string) : string + StateResult :=
  inr {| state := tag; message := msg |}.

(** Never ready, never failed. *)
Definition always_starting : nat -> string + StateResult :=
  fun _ => answer "starting" "".

(** Ready on tick 3 (counted from 0). *)
Definition ready_on_tick_3 : nat -> string + StateResult :=
  fun n => if n <? 3 then answer "starting" "" else answer "ready" "".

(** [[Launching, Failed("crash loop")]]. *)
Definition crash_loop : nat -> string + StateResult :=
  fun n => if n <? 1 then answer "starting" "" else answer "failed" "crash loop".

(** The first query rejects; the next one would answer ready. *)
Definition unreachable_once : nat -> string + StateResult :=
  fun n => if n <? 1 then inl "connect ECONNREFUSED" else answer "ready" "".

Definition sample_env (answers : nat -> string + StateResult) : Env :=
  {| world := sample_world answers (inr app_manifest) (Some "dev"); cancellation := None |}.

(** ** More of [upCommand]: what follows the launch

    Step 5 of [upCommand] after the call of [okteto.up]:
    [activeManifest = manifestPath], the wait under [try]/[catch], and
    [finalizeUp]. *)
Definition up_tail (state_ready state_failed : string) (fuel : nat)
    (manifestPath ns nm : string) : Cmd unit :=
  set_activeManifest manifestPath ;;
  up <- try_catch (waitForUp state_ready state_failed fuel ns nm ;; ret true)
          (fun err =>
             captureError ("okteto up failed: " +:+ err) ;;
             onOktetoFailed err ;;
             ret false) ;;
  if up then finalizeUp ns nm else ret tt.

(** The session after [activeManifest = manifestPath]. *)
Definition activated (manifestPath : string) (s : Session) : Session :=
  {| activeManifest := Some manifestPath; polls := polls s;
     cancelListener := cancelListener s |}.

(** The notification of [finalizeUp], made by the running command. *)
Definition is_ready_message (e : Effect) : bool :=
  match e with
  | showInformationMessage msg => String.eqb msg "Your development container is ready!"
  | _ => false
  end.

(** What an up command does before it loads its manifest: no load, no
    launch, and no notification that the container is ready. *)
Definition calm_before (e : Effect) : bool := before_load e && negb (is_ready_message e).

(** How an up command runs, [n] being the number of queries made before
    it: as [up_shape] says, and after a launch the rest of the command is
    [up_tail], started in a session with [n] queries made. *)
Definition up_run_shape (state_ready state_failed : string) (fuel : nat) (env : Env)
    (n : nat) (r : Outcome unit * Session * list Effect) : Prop :=
  Forall (fun e => calm_before e = true) (trace_of r) \/
  exists pre p,
    Forall (fun e => calm_before e = true) pre /\
    match getManifest (world env) p with
    | inl err =>
        trace_of r =
          pre ++ [manifest_getManifest p;
                  reporter_track events.manifestLoadFailed;
                  reporter_captureError ("load manifest failed: " +:+ err);
                  showErrorMessage ("Okteto: Up failed to load your Okteto manifest: " +:+ err);
                  okteto_showTerminal]
    | inr m =>
        match resolve_namespace (world env) m with
        | None =>
            trace_of r =
              pre ++ [manifest_getManifest p;
                      showErrorMessage "Couldn't detect your current Kubernetes context."]
        | Some ns =>
            exists s5,
              polls s5 = n /\
              r = (outcome_of (up_tail state_ready state_failed fuel p ns (name m) env s5),
                   session_of (up_tail state_ready state_failed fuel p ns (name m) env s5),
                   pre ++ [manifest_getManifest p;
                           okteto_up p ns (name m) (getKubeconfig (world env))]
                       ++ trace_of (up_tail state_ready state_failed fuel p ns (name m) env s5))
        end
    end.

(** What [upCommand] tells the user, after the trace of the wait, when the
    wait ended with [o]. *)
Definition up_epilogue (ns nm : string) (o : Outcome FinalState) : list Effect :=
  match o with
  | Return res =>
      if result res then
        [reporter_track events.upReady; reporter_track events.upFinished;
         okteto_notifyIfFailed ns nm;
         showInformationMessage "Your development container is ready!"]
      else
        [reporter_track events.oktetoUpFailed; console_error (final_message res);
         reporter_captureError
           ("okteto up failed: " +:+ "Okteto: Up command failed: " +:+ final_message res);
         showErrorMessage ("Okteto: Up command failed: " +:+ final_message res);
         okteto_showTerminal]
  | Throw err =>
      [reporter_captureError ("okteto up failed: " +:+ err);
       showErrorMessage err; okteto_showTerminal]
  | OutOfFuel => []
  end.

(** What the loop resolves to on the tick whose answer is [a], when [a]
    ends it: the rejection, the ready result, or the failure with the
    answer's message. *)
Definition terminal_outcome (state_ready : string) (a : string + StateResult)
    : Outcome FinalState :=
  match a with
  | inl err => Throw err
  | inr res =>
      if String.eqb state_ready (state res)
      then Return {| result := true; final_message := "" |}
      else Return {| result := false; final_message := message res |}
  end.

(** The session counts the queries: a command leaves [polls] advanced by
    the number of [okteto.getState] calls in its trace. *)
Definition counted {A} (m : Cmd A) : Prop :=
  forall env s, polls (session_of (m env s)) = polls s + queries (trace_of (m env s)).

(** ** More of [downCommand] *)

(** The calls that open a picker. *)
Definition is_picker (e : Effect) : bool :=
  match e with
  | findFiles _ | showQuickPick _ _ | showOpenDialog => true
  | _ => false
  end.

(** Silent effects that open no picker. *)
Definition unprompted (e : Effect) : bool := silent e && negb (is_picker e).

(** How a down command runs from session [s]: it ends before any manifest
    is loaded and leaves the session alone (having asked nothing of the
    user when [activeManifest] is set), or it loads one manifest [p]
    (which is [activeManifest] when that is set, and then nothing was asked
    of the user) and reports the load failure, or the missing namespace, or
    calls [okteto.down] once and reports its success or its failure. *)
Definition down_shape (env : Env) (s : Session)
    (r : Outcome unit * Session * list Effect) : Prop :=
  (session_of r = s /\ Forall (fun e => silent e = true) (trace_of r) /\
   (truthy (activeManifest s) = true ->
    Forall (fun e => unprompted e = true) (trace_of r))) \/
  exists pre p,
    Forall (fun e => silent e = true) pre /\
    (truthy (activeManifest s) = true ->
     activeManifest s = Some p /\ Forall (fun e => unprompted e = true) pre) /\
    match getManifest (world env) p with
    | inl err =>
        session_of r = s /\
        trace_of r =
          pre ++ [manifest_getManifest p;
                  reporter_track events.manifestLoadFailed;
                  reporter_captureError ("load manifest failed: " +:+ err);
                  showErrorMessage
                    ("Okteto: Down failed to load your Okteto manifest: " +:+ err);
                  okteto_showTerminal]
    | inr m =>
        match resolve_namespace (world env) m with
        | None =>
            session_of r = s /\
            trace_of r =
              pre ++ [manifest_getManifest p;
                      showErrorMessage "Couldn't detect your current Kubernetes context."]
        | Some ns =>
            match down_error (world env) with
            | None =>
                session_of r = cleared s /\
                trace_of r =
                  pre ++ [manifest_getManifest p;
                          okteto_down p ns (getKubeconfig (world env));
                          showInformationMessage "Okteto environment deactivated";
                          reporter_track events.downFinished]
            | Some err =>
                session_of r = s /\
                trace_of r =
                  pre ++ [manifest_getManifest p;
                          okteto_down p ns (getKubeconfig (world env));
                          reporter_track events.oktetoDownFailed;
                          reporter_captureError ("okteto down failed: " +:+ err);
                          showErrorMessage ("Okteto: Down failed: " +:+ err)]
            end
        end
    end.

(** ** The install step of the commands *)

(** What [installCmd(upgrade, false)] does up to the call of
    [okteto.install]. *)
Definition install_attempt (upgrade : bool) : list Effect :=
  [console_log "installing okteto"; reporter_track events.install;
   withProgress_start
     (Some (if upgrade then "Okteto is out of date, upgrading" else "Installing Okteto"))
     false;
   okteto_install].

(** The trace of the install step of a command when [okteto.install]
    rejects with [err]: the attempt, the telemetry of the failure, and the
    message the command shows. *)
Definition install_failure (upgrade : bool) (err : string) : list Effect :=
  install_attempt upgrade ++
  [reporter_track events.oktetoInstallFailed;
   reporter_captureError ("okteto install failed: " +:+ err);
   showErrorMessage ("Okteto was not installed: " +:+ err)].

(** ** Timers *)

(** A timer, whoever sets it, is one of 1000 ms. *)
Definition timer_ok (e : Effect) : bool :=
  match call_of e with
  | setTimeout ms => ms =? 1000
  | _ => true
  end.

(** ** The URI handler that [activate] registers

    [vscode://okteto.remote-kubernetes/up?repository=...&manifest=...].
    A value of [queryString.parse(query)], once defaulted to [null]. *)
Inductive QueryValue :=
| query_null
| query_string (s : string)
| query_array (l : list string).

(** [Array.isArray(v) ? v.join() : v] *)
Definition join_query (v : QueryValue) : option string :=
  match v with
  | query_null => None
  | query_string s => Some s
  | query_array l => Some (String.concat "," l)
  end.

(** [const [ command ] = path.split('/').filter(Boolean)] *)
Definition first_segment (uri_path : string) : option string :=
  head (List.filter (fun seg => negb (String.eqb seg "")) (split_slash uri_path)).

(** A call whose promise nobody awaits: a rejection is lost. *)
Definition detached {A} (m : Cmd A) : Cmd unit :=
  fun env s =>
    match m env s with
    | (OutOfFuel, s1, t1) => (OutOfFuel, s1, t1)
    | (_, s1, t1) => (Return tt, s1, t1)
    end.

(** [async handleUri(uri)], given [uri.path] and the two parsed query
    parameters. *)
Definition handleUri (state_ready state_failed : string) (fuel : nat)
    (uri_path : string) (repository manifest : QueryValue) : Cmd unit :=
  match first_segment uri_path with
  | Some command =>
      if String.eqb command "up"
      then detached (upCommand state_ready state_failed fuel
                       (join_query repository) (join_query manifest))
      else ret tt
  | None => ret tt
  end.

(** [n] slashes. *)
Fixpoint slashes (n : nat) : string :=
  match n with
  | 0 => ""
  | S n' => String "/"%char (slashes n')
  end.

(** A string without a slash. *)
Fixpoint no_slash (s : string) : bool :=
  match s with
  | EmptyString => true
  | String c rest => negb (Ascii.eqb c "/"%char) && no_slash rest
  end.

(** A world without an open workspace, in which the user picks the first
    item of the workspace quick pick (the clone of the repository, when one
    is given) and then the manifest [/ws/okteto.yml]. *)
Definition cloning_world : World :=
  {| workspace_name := None;
     workspaceFolders := None;
     findFiles_result := fun _ => [{| fsPath := "/ws/okteto.yml"; path := "/ws/okteto.yml" |}];
     asRelativePath := fun _ => "okteto.yml";
     quickPick_workspace := Some 0;
     quickPick_manifest := Some 0;
     showOpenDialog_result := None;
     updateWorkspaceFolders_result := true;
     needsInstall := (false, false);
     install_error := None;
     getManifest := fun _ => inr app_manifest;
     getKubeconfig := "/home/me/.kube/config";
     getCurrentNamespace := fun _ => Some "dev";
     getState := ready_on_tick_3;
     getStateMessages := fun _ => None;
     down_error := None |}.

(** A world in which okteto has to be installed and the install rejects,
    and in which the teardown rejects too. *)
Definition broken_world (loaded : string + Manifest) (reader : option string) : World :=
  {| workspace_name := Some "ws";
     workspaceFolders := None;
     findFiles_result := fun _ => [{| fsPath := "/ws/okteto.yml"; path := "/ws/okteto.yml" |}];
     asRelativePath := fun _ => "okteto.yml";
     quickPick_workspace := None;
     quickPick_manifest := Some 0;
     showOpenDialog_result := None;
     updateWorkspaceFolders_result := true;
     needsInstall := (true, false);
     install_error := Some "EACCES";
     getManifest := fun _ => loaded;
     getKubeconfig := "/home/me/.kube/config";
     getCurrentNamespace := fun _ => reader;
     getState := always_starting;
     getStateMessages := fun _ => None;
     down_error := Some "exit code 1" |}.

(** A world with an open workspace that holds no manifest. *)
Definition empty_workspace_world : World :=
  {| workspace_name := Some "ws";
     workspaceFolders := None;
     findFiles_result := fun _ => [];
     asRelativePath := fun _ => "";
     quickPick_workspace := None;
     quickPick_manifest := None;
     showOpenDialog_result := None;
     updateWorkspaceFolders_result := true;
     needsInstall := (false, false);
     install_error := None;
     getManifest := fun _ => inr app_manifest;
     getKubeconfig := "/home/me/.kube/config";
     getCurrentNamespace := fun _ => Some "dev";
     getState := always_starting;
     getStateMessages := fun _ => None;
     down_error := None |}.

(** The manifest [{name: "app", namespace: "staging"}]. *)
Definition staging_manifest : Manifest := {| name := "app"; namespace := Some "staging" |}.
(** * Properties *)

Section SafeRules.
Variable I : Session -> Prop.
Variable P : Effect -> bool.

Lemma safe_ret {A} (a : A) : safe I P (ret a).
  Proof. intros env s Hs. split; [exact Hs | constructor]. Qed.

Lemma safe_throw {A} (err : string) : safe I P (@throw A err).
  Proof. intros env s Hs. split; [exact Hs | constructor]. Qed.

Lemma safe_ask : safe I P ask.
  Proof. intros env s Hs. split; [exact Hs | constructor]. Qed.

Lemma safe_get_activeManifest : safe I P get_activeManifest.
  Proof. intros env s Hs. split; [exact Hs | constructor]. Qed.

Lemma safe_emit (e : Effect) : P e = true -> safe I P (emit e).
  Proof. intros He env s Hs. split; [exact Hs | repeat constructor; exact He]. Qed.

Lemma safe_bind {A B} (m : Cmd A) (k : A -> Cmd B) :
    safe I P m -> (forall a, safe I P (k a)) -> safe I P (bind m k).
  Proof.
    intros Hm Hk env s Hs. destruct (Hm env s Hs) as [Hs1 Ht1].
    unfold bind, session_of, trace_of in *.
    destruct (m env s) as [[[a| |] s1] t1]; simpl in *; try (split; assumption).
    destruct (Hk a env s1 Hs1) as [Hs2 Ht2].
    unfold session_of, trace_of in *.
    destruct (k a env s1) as [[o2 s2] t2]; simpl in *.
    split; [assumption | apply Forall_app; split; assumption].
  Qed.

Lemma safe_try_catch {A} (m : Cmd A) (h : string -> Cmd A) :
    safe I P m -> (forall err, safe I P (h err)) -> safe I P (try_catch m h).
  Proof.
    intros Hm Hh env s Hs. destruct (Hm env s Hs) as [Hs1 Ht1].
    unfold try_catch, session_of, trace_of in *.
    destruct (m env s) as [[[a|err|] s1] t1]; simpl in *; try (split; assumption).
    destruct (Hh err env s1 Hs1) as [Hs2 Ht2].
    unfold session_of, trace_of in *.
    destruct (h err env s1) as [[o2 s2] t2]; simpl in *.
    split; [assumption | apply Forall_app; split; assumption].
  Qed.

Lemma safe_set_activeManifest (v : string) :
    (forall s, I s ->
       I {| activeManifest := Some v; polls := polls s;
            cancelListener := cancelListener s |}) ->
    safe I P (set_activeManifest v).
  Proof. intros HI env s Hs. split; [apply HI, Hs | constructor]. Qed.
End SafeRules.

(** One step of a [safe] derivation: the rule of the head combinator, or a
    case split on what a [match] or [if] inspects. *)
Ltac safe_known := fail.

Ltac safe_step :=
  first
    [ safe_known
    | progress cbv zeta
    | apply safe_ret | apply safe_throw | apply safe_ask
    | apply safe_get_activeManifest
    | apply safe_emit; reflexivity
    | apply safe_bind; [| intro]
    | apply safe_try_catch; [| intro]
    | match goal with
      | |- safe _ _ (match ?x with _ => _ end) => destruct x
      end ].

Ltac safe_auto :=
  unfold track, captureError, console_log2, withProgress, onOktetoFailed;
  repeat safe_step.

Lemma safe_weaken (I : Session -> Prop) (P Q : Effect -> bool) {A} (m : Cmd A) :
  (forall e, P e = true -> Q e = true) -> safe I P m -> safe I Q m.
Proof.
  intros HPQ Hm env s Hs. destruct (Hm env s Hs) as [Hs1 Ht1].
  split; [assumption |]. eapply Forall_impl; [exact Ht1 | exact HPQ].
Qed.

Lemma silent_quiet e : silent e = true -> quiet e = true.
Proof. unfold silent. intros H. destruct (quiet e); [reflexivity | discriminate]. Qed.

Lemma silent_before_load e : silent e = true -> before_load e = true.
Proof.
  unfold silent, before_load, quiet.
  destruct (is_poll e), (is_launch e), (is_teardown e), (is_load e); simpl; congruence.
Qed.

(** The install command and the pickers are silent, whatever the session. *)
Lemma installCmd_safe I upgrade handleErr : safe I silent (installCmd upgrade handleErr).
Proof. unfold installCmd, okteto_install_call. safe_auto. Qed.

Lemma showManifestPicker_safe I : safe I silent showManifestPicker.
Proof. unfold showManifestPicker. safe_auto. Qed.

Ltac safe_known ::=
  first [ apply installCmd_safe | apply showManifestPicker_safe ].

Lemma getManifestOrAsk_safe I : safe I silent getManifestOrAsk.
Proof. unfold getManifestOrAsk. safe_auto. Qed.

Ltac safe_known ::=
  first [ apply installCmd_safe | apply showManifestPicker_safe
        | apply getManifestOrAsk_safe
        | eapply safe_weaken; [exact silent_quiet |];
          first [ apply installCmd_safe | apply showManifestPicker_safe
                | apply getManifestOrAsk_safe ]
        | eapply safe_weaken; [exact silent_before_load |];
          first [ apply installCmd_safe | apply showManifestPicker_safe
                | apply getManifestOrAsk_safe ] ].

(** Unfolding the monad at a session. *)
Ltac run_cmd :=
  unfold track, captureError, console_log2, withProgress, onOktetoFailed,
    okteto_install_call, okteto_down_call, getManifest_call,
    get_activeManifest, set_activeManifest, set_cancelListener;
  unfold bind, try_catch, ret, throw, emit, ask, session_of, trace_of, outcome_of.

(** ** [downCommand] *)

(** The three ways a down command ends: without a teardown call, with one
    that rejects, with one that succeeds; only the last one touches the
    session, and it clears [activeManifest]. *)
Lemma downCommand_cases env s :
  let r := downCommand env s in
  (session_of r = s /\ count is_teardown (trace_of r) = 0) \/
  (session_of r = s /\ count is_teardown (trace_of r) = 1 /\
     exists err, down_error (world env) = Some err) \/
  (session_of r = cleared s /\ count is_teardown (trace_of r) = 1 /\
     down_error (world env) = None).
Proof.
  destruct s as [am n b].
  unfold downCommand, installCmd, getManifestOrAsk, showManifestPicker. run_cmd.
  simpl.
  repeat (case_match; simpl in *; simplify_eq; simpl).
  all: try (left; split; reflexivity).
  all: try (right; left; split; [reflexivity | split; [reflexivity | eauto]]).
  all: try (right; right; split; [reflexivity | split; [reflexivity | eauto]]).
Qed.

Lemma downCommand_session env s :
  polls (session_of (downCommand env s)) = polls s /\
  cancelListener (session_of (downCommand env s)) = cancelListener s.
Proof.
  destruct (downCommand_cases env s) as [[-> _] | [[-> _] | [-> _]]]; split; reflexivity.
Qed.

Lemma downCommand_quiet : safe (fun _ => True) quiet downCommand.
Proof.
  unfold downCommand, okteto_down_call, getManifest_call. safe_auto.
Qed.

(** ** Counting in traces *)

Lemma count_app p t1 t2 : count p (t1 ++ t2) = count p t1 + count p t2.
Proof. unfold count. rewrite List.filter_app, length_app. reflexivity. Qed.

Lemma count_cons p e t : count p (e :: t) = (if p e then 1 else 0) + count p t.
Proof. unfold count. simpl. destruct (p e); reflexivity. Qed.

Lemma count_nil p : count p [] = 0.
Proof. reflexivity. Qed.

Ltac count_split :=
  repeat first [rewrite count_app | rewrite count_cons | rewrite count_nil]; simpl.

Lemma count_none p t : Forall (fun e => p e = false) t -> count p t = 0.
Proof.
  induction 1 as [|e t He _ IH]; [reflexivity |].
  rewrite count_cons, He, IH. reflexivity.
Qed.

Lemma filter_none p (t : list Effect) : Forall (fun e => p e = false) t -> List.filter p t = [].
Proof.
  induction 1 as [|e t He _ IH]; [reflexivity |].
  simpl. rewrite He. exact IH.
Qed.

Lemma count_in_command p c t :
  (forall e, p (in_command c e) = p e) ->
  count p (map (in_command c) t) = count p t.
Proof.
  intros Hp. induction t as [|e t IH]; [reflexivity |].
  simpl. rewrite !count_cons, Hp, IH. reflexivity.
Qed.

Lemma Forall_in_command (p : Effect -> bool) c t :
  (forall e, p e = true -> p (in_command c e) = true) ->
  Forall (fun e => p e = true) t ->
  Forall (fun e => p e = true) (map (in_command c) t).
Proof. intros Hp Ht. apply Forall_map. eapply Forall_impl; [exact Ht | exact Hp]. Qed.

Lemma background_poll e : background e = true -> is_poll e = false.
Proof.
  unfold background, quiet. destruct (is_poll e); simpl; [discriminate | reflexivity].
Qed.

Lemma background_before_load e : background e = true -> before_load e = true.
Proof.
  unfold background, quiet, before_load.
  destruct (is_poll e), (is_launch e), (is_load e); simpl; congruence.
Qed.

(** ** [sleep]

    A sleep returns, keeps the number of queries, and sets one timer of
    1000 ms; when the host delivers the cancellation there, the down
    command is dispatched once, and at most one teardown is called. *)
Lemma sleep_run ms env s :
  exists s' t,
    sleep ms env s = (Return tt, s', setTimeout 1000 :: t) /\
    polls s' = polls s /\
    cancelListener s' = cancelListener s && negb (fires env s) /\
    Forall (fun e => background e = true) t /\
    count is_down_dispatch t = (if fires env s then 1 else 0) /\
    count is_teardown t <= 1 /\
    (fires env s = false -> s' = s /\ t = []).
Proof.
  unfold sleep, host_suspended, fires. run_cmd.
  destruct (cancellation env) as [[k w']|]; simpl.
  2: { eexists _, _. split; [reflexivity |].
       rewrite andb_true_r. repeat split; auto. }
  destruct (cancelListener s && (polls s =? k)) eqn:Hfire; simpl.
  2: { eexists _, _. split; [reflexivity |].
       rewrite andb_true_r. repeat split; auto. }
  unfold onCancellationRequested_handler, spawn. run_cmd. simpl.
  set (s1 := {| activeManifest := activeManifest s; polls := polls s;
                cancelListener := false |}).
  set (env' := {| world := w'; cancellation := None |}).
  pose proof (downCommand_session env' s1) as [Hp Hl].
  pose proof (downCommand_cases env' s1) as Hcases.
  pose proof (downCommand_quiet env' s1 Logic.I) as [_ Hq].
  unfold session_of, trace_of in *.
  destruct (downCommand env' s1) as [[o s2] t2]; simpl in *.
  eexists _, _. split; [reflexivity |].
  split; [exact Hp |]. split; [rewrite Hl, andb_false_r; reflexivity |].
  split.
  { repeat constructor. apply Forall_map.
    eapply Forall_impl; [exact Hq |]. intros e He. unfold background.
    unfold quiet, is_poll, is_query, is_report, is_timer, is_launch in *. simpl.
    rewrite He. reflexivity. }
  split.
  { rewrite !count_cons. simpl. rewrite count_none; [reflexivity |].
    apply Forall_map, Forall_true. intros e. reflexivity. }
  split; [| discriminate].
  rewrite !count_cons. simpl.
  rewrite count_in_command by (intros e; reflexivity).
  destruct Hcases as [[_ ->] | [[_ [-> _]] | [_ [-> _]]]]; lia.
Qed.

(** ** The polling loop *)

Section PollingProperties.

Variables state_ready state_failed : string.

Local Abbreviation loop := (waitForFinalState_loop state_ready state_failed).

(** One iteration of [while (true)]. *)
Lemma loop_unfold fuel ns nm seen counter env s :
  loop (S fuel) ns nm seen counter env s =
  match getState (world env) (polls s) with
  | inl err => (Throw err, polled s, [okteto_getState ns nm])
  | inr res =>
      let t1 := okteto_getState ns nm :: tick_effects (world env) seen res in
      if String.eqb state_ready (state res) then
        (Return {| result := true; final_message := "" |}, polled s, t1)
      else if String.eqb state_failed (state res) then
        (Return {| result := false; final_message := message res |}, polled s, t1)
      else if counter + 1 =? timeout then (Return timed_out, polled s, t1)
      else
        let r2 := sleep 1000 env (polled s) in
        let r3 := loop fuel ns nm (<[state res := true]> seen) (counter + 1) env
                    (session_of r2) in
        (outcome_of r3, session_of r3, t1 ++ trace_of r2 ++ trace_of r3)
  end.
Proof.
  cbn [waitForFinalState_loop].
  unfold bind at 1. unfold ask at 1. cbv beta iota.
  unfold bind at 1. unfold okteto_getState_call at 1. fold (polled s).
  destruct (getState (world env) (polls s)) as [err|res]; [reflexivity |].
  cbv beta iota zeta.
  unfold bind at 1. unfold tick_effects.
  destruct (bool_decide (is_Some (seen !! state res))).
  - unfold ret at 1. cbv beta iota.
    destruct (String.eqb state_ready (state res)); [reflexivity |].
    destruct (String.eqb state_failed (state res)); [reflexivity |].
    destruct (counter + 1 =? timeout); [reflexivity |].
    unfold bind at 1.
    destruct (sleep_run 1000 env (polled s)) as (s2 & t2 & -> & _).
    unfold session_of, trace_of, outcome_of. simpl.
    destruct (loop fuel ns nm _ _ env s2) as [[o3 s3] t3]. reflexivity.
  - unfold bind at 1. unfold emit at 1. cbv beta iota.
    unfold emit at 1. cbv beta iota.
    destruct (String.eqb state_ready (state res)); [reflexivity |].
    destruct (String.eqb state_failed (state res)); [reflexivity |].
    destruct (counter + 1 =? timeout); [reflexivity |].
    unfold bind at 1.
    destruct (sleep_run 1000 env (polled s)) as (s2 & t2 & -> & _).
    unfold session_of, trace_of, outcome_of. simpl.
    destruct (loop fuel ns nm _ _ env s2) as [[o3 s3] t3]. reflexivity.
Qed.

Lemma poll_parts e :
  is_poll e = false -> is_query e = false /\ is_report e = false /\ is_timer e = false.
Proof.
  unfold is_poll. destruct (is_query e), (is_report e), (is_timer e); simpl; auto; discriminate.
Qed.

Lemma background_parts t :
  Forall (fun e => background e = true) t ->
  Forall (fun e => is_query e = false) t /\
  Forall (fun e => is_report e = false) t /\
  Forall (fun e => is_timer e = false) t.
Proof.
  intros Ht. repeat split; (eapply Forall_impl; [exact Ht |]);
    intros e He; apply background_poll, poll_parts in He; tauto.
Qed.

Lemma tick_effects_counts w seen res :
  queries (tick_effects w seen res) = 0 /\ count is_timer (tick_effects w seen res) = 0.
Proof. unfold tick_effects. destruct (bool_decide _); split; reflexivity. Qed.

Lemma result_eta {A} (r : Outcome A * Session * list Effect) :
  r = (outcome_of r, session_of r, trace_of r).
Proof. destruct r as [[o s] t]. reflexivity. Qed.

(** [k] ticks in a row that report neither ready nor failed, below the
    cap: the loop makes [k] queries, sets [k] timers of 1000 ms, and goes
    on from the next tick with the counter advanced by [k]. *)
Lemma loop_skip k : forall fuel ns nm seen counter env s,
  counter + k < timeout ->
  (forall j, j < k ->
     pending state_ready state_failed (getState (world env) (polls s + j))) ->
  exists seen' s' t,
    polls s' = polls s + k /\
    queries t = k /\
    count is_timer t = k /\
    Forall (fun e => is_timer e = true -> e = setTimeout 1000) t /\
    loop (k + fuel) ns nm seen counter env s =
      (outcome_of (loop fuel ns nm seen' (counter + k) env s'),
       session_of (loop fuel ns nm seen' (counter + k) env s'),
       t ++ trace_of (loop fuel ns nm seen' (counter + k) env s')).
Proof.
  induction k as [|k IH]; intros fuel ns nm seen counter env s Hcap Hpend.
  - exists seen, s, []. rewrite !Nat.add_0_r. simpl.
    repeat split; [constructor | apply result_eta].
  - pose proof (Hpend 0 ltac:(lia)) as H0. rewrite Nat.add_0_r in H0.
    change (S k + fuel) with (S (k + fuel)). rewrite loop_unfold.
    destruct (getState (world env) (polls s)) as [err|res]; [destruct H0 |].
    destruct H0 as [Hr Hf]. cbv zeta.
    rewrite (proj2 (String.eqb_neq _ _)) by congruence.
    rewrite (proj2 (String.eqb_neq _ _)) by congruence.
    rewrite (proj2 (Nat.eqb_neq _ _)) by lia.
    destruct (sleep_run 1000 env (polled s)) as (s2 & t2 & Hs & Hp2 & _ & Hbg & _).
    rewrite Hs. unfold session_of at 1 2, trace_of at 1. simpl fst. simpl snd.
    destruct (IH fuel ns nm (<[state res := true]> seen) (counter + 1) env s2)
      as (seen' & s' & t & Hp' & Hq & Ht & Hall & Hrun).
    { lia. }
    { intros j Hj. rewrite Hp2.
      replace (polls (polled s) + j) with (polls s + S j) by (simpl; lia).
      apply Hpend. lia. }
    replace (counter + 1 + k) with (counter + S k) in Hrun by lia.
    destruct (background_parts _ Hbg) as (Hbq & _ & Hbt).
    destruct (tick_effects_counts (world env) seen res) as [Heq Het].
    exists seen', s',
      ((okteto_getState ns nm :: tick_effects (world env) seen res) ++
       (setTimeout 1000 :: t2) ++ t).
    split; [rewrite Hp', Hp2; simpl; lia |].
    split.
    { unfold queries in *. count_split.
      rewrite Heq, Hq, (count_none _ _ Hbq). lia. }
    split.
    { count_split. rewrite Het, Ht, (count_none _ _ Hbt). lia. }
    split.
    { apply Forall_app. split.
      - constructor; [discriminate |]. unfold tick_effects.
        destruct (bool_decide _); repeat constructor; discriminate.
      - apply Forall_app. split; [| exact Hall].
        constructor; [reflexivity |].
        eapply Forall_impl; [exact Hbt |]. intros e He. congruence. }
    unfold session_of, trace_of, outcome_of in *. simpl.
    rewrite !Hrun. simpl. repeat (rewrite <- app_assoc; simpl). reflexivity.
Qed.

Lemma waitForFinalState_unfold fuel ns nm env s :
  waitForFinalState state_ready state_failed fuel ns nm env s =
  (outcome_of (loop fuel ns nm ∅ 0 env s),
   session_of (loop fuel ns nm ∅ 0 env s),
   progress_report (Some "Launching your development environment...")
   :: trace_of (loop fuel ns nm ∅ 0 env s)).
Proof.
  unfold waitForFinalState, bind, emit, outcome_of, session_of, trace_of.
  destruct (loop fuel ns nm ∅ 0 env s) as [[[a| |] s1] t1]; reflexivity.
Qed.

(** With fuel for the whole tick budget, [k] ticks that go on bring
    [waitForFinalState] to tick [k] (counted from 0) with the counter at
    [k]. *)
Lemma waitForFinalState_tick fuel ns nm env s k :
  timeout <= fuel -> k < timeout ->
  (forall j, j < k ->
     pending state_ready state_failed (getState (world env) (polls s + j))) ->
  exists seen' s' t fuel',
    polls s' = polls s + k /\
    queries t = k /\
    count is_timer t = k /\
    Forall (fun e => is_timer e = true -> e = setTimeout 1000) t /\
    waitForFinalState state_ready state_failed fuel ns nm env s =
      (outcome_of (loop (S fuel') ns nm seen' k env s'),
       session_of (loop (S fuel') ns nm seen' k env s'),
       progress_report (Some "Launching your development environment...")
       :: t ++ trace_of (loop (S fuel') ns nm seen' k env s')).
Proof.
  intros Hfuel Hk Hpend.
  destruct (loop_skip k (fuel - k) ns nm ∅ 0 env s) as (seen' & s' & t & Hp & Hq & Ht & Hall & Hrun).
  { simpl. exact Hk. }
  { exact Hpend. }
  replace (k + (fuel - k)) with fuel in Hrun by lia.
  assert (exists fuel', fuel - k = S fuel') as [fuel' Hf'] by (exists (fuel - k - 1); lia).
  rewrite Hf' in Hrun. simpl in Hrun.
  exists seen', s', t, fuel'. repeat (split; [assumption |]).
  rewrite waitForFinalState_unfold, Hrun. reflexivity.
Qed.

Lemma timeout_value : timeout = 300.
Proof. reflexivity. Qed.

(** C2: when no tick reports ready or failed, the loop makes exactly 300
    queries, one timer of 1000 ms between two of them (299 timers), and
    resolves to the failure whose message is "task didn't finish in 5
    minutes"; this holds from any session, so each attempt counts its own
    300 ticks from zero, and a loop that stands at counter [c] makes exactly
    the [300 - c] remaining queries: the counter is never reset on the
    way. *)
Theorem waitForFinalState_times_out fuel ns nm env s :
  timeout <= fuel ->
  (forall j, j < timeout ->
     pending state_ready state_failed (getState (world env) (polls s + j))) ->
  let r := waitForFinalState state_ready state_failed fuel ns nm env s in
  outcome_of r =
    Return {| result := false; final_message := "task didn't finish in 5 minutes" |} /\
  queries (trace_of r) = 300 /\
  count is_timer (trace_of r) = 299 /\
  Forall (fun e => is_timer e = true -> e = setTimeout 1000) (trace_of r) /\
  polls (session_of r) = polls s + 300 /\
  forall c seen, c < timeout ->
    outcome_of (loop fuel ns nm seen c env s) = Return timed_out /\
    queries (trace_of (loop fuel ns nm seen c env s)) = 300 - c.
Proof.
  intros Hfuel Hpend r. subst r.
  assert (Hlast : forall c seen s' fuel', polls s' = polls s + (timeout - c - 1) ->
            c < timeout ->
            loop (S fuel') ns nm seen (timeout - 1) env s' =
              (Return timed_out, polled s',
               okteto_getState ns nm ::
               tick_effects (world env) seen
                 (match getState (world env) (polls s') with
                  | inr res => res
                  | inl _ => {| state := ""; message := "" |}
                  end))).
  { intros c seen s' fuel' Hp Hc. rewrite loop_unfold.
    pose proof (Hpend (timeout - c - 1) ltac:(lia)) as Hk. rewrite <- Hp in Hk.
    destruct (getState (world env) (polls s')) as [err|res]; [destruct Hk |].
    destruct Hk as [Hr Hf]. cbv zeta.
    rewrite (proj2 (String.eqb_neq _ _)) by congruence.
    rewrite (proj2 (String.eqb_neq _ _)) by congruence.
    rewrite (proj2 (Nat.eqb_eq _ _)) by (rewrite timeout_value; lia).
    reflexivity. }
  destruct (waitForFinalState_tick fuel ns nm env s (timeout - 1))
    as (seen' & s' & t & fuel' & Hp & Hq & Ht & Hall & Hrun).
  { exact Hfuel. } { rewrite timeout_value. lia. }
  { intros j Hj. apply Hpend. lia. }
  rewrite Hrun, (Hlast 0 seen' s' fuel') by (rewrite ?timeout_value in *; lia).
  unfold outcome_of, session_of, trace_of. simpl fst. simpl snd.
  destruct (tick_effects_counts (world env) seen'
              (match getState (world env) (polls s') with
               | inr res => res
               | inl _ => {| state := ""; message := "" |}
               end)) as [Heq Het].
  split; [reflexivity |].
  split.
  { unfold queries in *. count_split. rewrite Hq, Heq, timeout_value. lia. }
  split.
  { count_split. rewrite Ht, Het, timeout_value. lia. }
  split.
  { constructor; [discriminate |]. apply Forall_app. split; [exact Hall |].
    constructor; [discriminate |]. unfold tick_effects.
    destruct (bool_decide _); repeat constructor; discriminate. }
  split; [simpl; rewrite Hp, timeout_value; lia |].
  intros c seen Hc.
  destruct (loop_skip (timeout - c - 1) (fuel - (timeout - c - 1)) ns nm seen c env s)
    as (seen2 & s2 & t2 & Hp2 & Hq2 & _ & _ & Hrun2).
  { lia. } { intros j Hj. apply Hpend. lia. }
  replace (timeout - c - 1 + (fuel - (timeout - c - 1))) with fuel in Hrun2 by lia.
  assert (exists fuel2, fuel - (timeout - c - 1) = S fuel2) as [fuel2 Hf2]
    by (exists (fuel - (timeout - c - 1) - 1); lia).
  rewrite Hf2 in Hrun2. replace (c + (timeout - c - 1)) with (timeout - 1) in Hrun2 by lia.
  rewrite Hrun2, (Hlast c seen2 s2 fuel2) by assumption.
  unfold outcome_of, session_of, trace_of. simpl fst. simpl snd.
  split; [reflexivity |].
  unfold queries in *. count_split.
  rewrite Hq2, (proj1 (tick_effects_counts _ _ _)). rewrite timeout_value in *. lia.
Qed.

(** C4: when the query of tick [k] (counted from 0; the ticks before it
    went on) answers the ready state, the loop resolves on that tick to
    [{result: true, message: ''}], and tick [k]'s query is the last one:
    the trace holds [k + 1] queries. *)
Theorem waitForFinalState_ready fuel ns nm env s k res :
  timeout <= fuel -> k < timeout ->
  (forall j, j < k ->
     pending state_ready state_failed (getState (world env) (polls s + j))) ->
  getState (world env) (polls s + k) = inr res ->
  state res = state_ready ->
  let r := waitForFinalState state_ready state_failed fuel ns nm env s in
  outcome_of r = Return {| result := true; final_message := "" |} /\
  queries (trace_of r) = k + 1 /\
  polls (session_of r) = polls s + k + 1.
Proof.
  intros Hfuel Hk Hpend Hres Hready r. subst r.
  destruct (waitForFinalState_tick fuel ns nm env s k Hfuel Hk Hpend)
    as (seen' & s' & t & fuel' & Hp & Hq & _ & _ & Hrun).
  rewrite Hrun, loop_unfold, Hp, Hres. cbv zeta.
  rewrite (proj2 (String.eqb_eq _ _)) by congruence.
  unfold outcome_of, session_of, trace_of. simpl fst. simpl snd.
  split; [reflexivity |]. split; [| simpl; lia].
  unfold queries in *. count_split.
  rewrite Hq, (proj1 (tick_effects_counts _ _ _)). lia.
Qed.

(** C5: when the query of tick [k] answers the failed state with message
    [m], the loop resolves on that tick to [{result: false, message: m}],
    and tick [k]'s query is the last one. *)
Theorem waitForFinalState_failed fuel ns nm env s k res :
  state_ready <> state_failed ->
  timeout <= fuel -> k < timeout ->
  (forall j, j < k ->
     pending state_ready state_failed (getState (world env) (polls s + j))) ->
  getState (world env) (polls s + k) = inr res ->
  state res = state_failed ->
  let r := waitForFinalState state_ready state_failed fuel ns nm env s in
  outcome_of r = Return {| result := false; final_message := message res |} /\
  queries (trace_of r) = k + 1 /\
  polls (session_of r) = polls s + k + 1.
Proof.
  intros Hneq Hfuel Hk Hpend Hres Hfailed r. subst r.
  destruct (waitForFinalState_tick fuel ns nm env s k Hfuel Hk Hpend)
    as (seen' & s' & t & fuel' & Hp & Hq & _ & _ & Hrun).
  rewrite Hrun, loop_unfold, Hp, Hres. cbv zeta.
  rewrite (proj2 (String.eqb_neq _ _)) by congruence.
  rewrite (proj2 (String.eqb_eq _ _)) by congruence.
  unfold outcome_of, session_of, trace_of. simpl fst. simpl snd.
  split; [reflexivity |]. split; [| simpl; lia].
  unfold queries in *. count_split.
  rewrite Hq, (proj1 (tick_effects_counts _ _ _)). lia.
Qed.

Lemma waitForUp_unfold fuel ns nm env s :
  let r := waitForFinalState state_ready state_failed fuel ns nm env (listening s) in
  waitForUp state_ready state_failed fuel ns nm env s =
  ((waitForUp_settles (outcome_of r)).1, released (session_of r),
   withProgress_start None true :: trace_of r ++ (waitForUp_settles (outcome_of r)).2).
Proof.
  cbv zeta. unfold waitForUp, withProgress, with_token.
  unfold bind at 1. unfold emit at 1. cbv beta iota.
  unfold bind at 1. unfold set_cancelListener at 1. cbv beta iota. fold (listening s).
  unfold bind at 1.
  unfold outcome_of, session_of, trace_of.
  destruct (waitForFinalState state_ready state_failed fuel ns nm env (listening s))
    as [[[res|err|] s1] t1]; cbn [fst snd waitForUp_settles].
  - destruct (result res); cbn [negb]; run_cmd; simpl; rewrite ?app_nil_r; reflexivity.
  - simpl. rewrite ?app_nil_r. reflexivity.
  - simpl. rewrite ?app_nil_r. reflexivity.
Qed.

(** C6, as the code has it: a query that rejects is not retried.  When the
    query of tick [k] rejects with [err], [waitForFinalState] rejects with
    [err] on that tick, that query is the last one, and [waitForUp]
    rejects with [err] as well. *)
Theorem waitForFinalState_query_rejects fuel ns nm env s k err :
  timeout <= fuel -> k < timeout ->
  (forall j, j < k ->
     pending state_ready state_failed (getState (world env) (polls s + j))) ->
  getState (world env) (polls s + k) = inl err ->
  let r := waitForFinalState state_ready state_failed fuel ns nm env s in
  outcome_of r = Throw err /\
  queries (trace_of r) = k + 1 /\
  polls (session_of r) = polls s + k + 1 /\
  outcome_of (waitForUp state_ready state_failed fuel ns nm env s) = Throw err.
Proof.
  intros Hfuel Hk Hpend Hres r. subst r.
  assert (Hloop : forall s1, polls s1 = polls s ->
            let r := waitForFinalState state_ready state_failed fuel ns nm env s1 in
            outcome_of r = Throw err /\
            queries (trace_of r) = k + 1 /\
            polls (session_of r) = polls s + k + 1).
  { intros s1 Hs1 r. subst r.
    destruct (waitForFinalState_tick fuel ns nm env s1 k Hfuel Hk)
      as (seen' & s' & t & fuel' & Hp & Hq & _ & _ & Hrun).
    { intros j Hj. rewrite Hs1. apply Hpend, Hj. }
    rewrite Hrun, loop_unfold, Hp, Hs1, Hres.
    unfold outcome_of, session_of, trace_of. simpl fst. simpl snd.
    split; [reflexivity |]. split; [| simpl; lia].
    unfold queries in *. count_split. rewrite Hq. lia. }
  destruct (Hloop s eq_refl) as (Ho & Hq & Hp).
  split; [exact Ho |]. split; [exact Hq |]. split; [exact Hp |].
  rewrite waitForUp_unfold. cbv zeta.
  destruct (Hloop (listening s) eq_refl) as (Ho' & _).
  rewrite Ho'. reflexivity.
Qed.

(** ** Progress reports *)

Lemma reported_before_spec poll k :
  reported_before poll k = true <->
  exists j a b, j < k /\ poll j = inr a /\ poll k = inr b /\ state a = state b.
Proof.
  unfold reported_before. rewrite existsb_exists. split.
  - intros (j & Hin & Hj). apply in_seq in Hin.
    destruct (poll j) as [|a] eqn:Ha; [discriminate |].
    destruct (poll k) as [|b] eqn:Hb; [discriminate |].
    apply String.eqb_eq in Hj. exists j, a, b.
    split; [lia |]. split; [assumption |]. split; [reflexivity | exact Hj].
  - intros (j & a & b & Hlt & Ha & Hb & Hab). exists j. split.
    + apply in_seq. lia.
    + rewrite Ha, Hb. apply String.eqb_eq, Hab.
Qed.

Lemma seen_upto_insert poll i seen res :
  seen_upto poll i seen -> poll i = inr res ->
  seen_upto poll (S i) (<[state res := true]> seen).
Proof.
  intros Hseen Hres tag. rewrite lookup_insert. split.
  - case_decide as Htag.
    + intros _. exists i, res. repeat split; [lia | assumption | assumption].
    + intros H. apply Hseen in H as (j & a & Hj & Ha & Hs). exists j, a.
      repeat split; [lia | assumption | assumption].
  - intros (j & a & Hj & Ha & Hs). case_decide as Htag; [eauto |].
    apply Hseen. exists j, a. repeat split; [| assumption | assumption].
    destruct (decide (j = i)) as [->|]; [| lia]. congruence.
Qed.

Lemma filter_tick_effects w poll i seen res :
  seen_upto poll i seen -> poll i = inr res ->
  List.filter is_query_or_report (tick_effects w seen res) =
  if reported_before poll i then [] else [progress_report (getStateMessages w (state res))].
Proof.
  intros Hseen Hres. unfold tick_effects.
  destruct (reported_before poll i) eqn:Hrb.
  - apply reported_before_spec in Hrb as (j & a & b & Hj & Ha & Hb & Hab).
    rewrite bool_decide_eq_true_2; [reflexivity |].
    apply Hseen. exists j, a. repeat split; [assumption | assumption | congruence].
  - rewrite bool_decide_eq_false_2; [reflexivity |].
    intros H. apply Hseen in H as (j & a & Hj & Ha & Hs).
    assert (reported_before poll i = true) as Habs; [| congruence].
    apply reported_before_spec. exists j, a, res. repeat split; assumption.
Qed.

(** From tick [i] on, the queries and reports of the loop are those of the
    dedup rule, tick by tick. *)
Lemma loop_reports fuel : forall ns nm i seen counter env s s0,
  polls s = polls s0 + i ->
  seen_upto (fun j => getState (world env) (polls s0 + j)) i seen ->
  exists n,
    List.filter is_query_or_report (trace_of (loop fuel ns nm seen counter env s)) =
    concat (map (tick_reports (world env) ns nm
                   (fun j => getState (world env) (polls s0 + j))) (seq i n)).
Proof.
  induction fuel as [|fuel IH]; intros ns nm i seen counter env s s0 Hp Hseen.
  - exists 0. reflexivity.
  - rewrite loop_unfold, Hp.
    destruct (getState (world env) (polls s0 + i)) as [err|res] eqn:Hres.
    { exists 1. simpl. unfold tick_reports. rewrite Hres. reflexivity. }
    cbv zeta.
    assert (Htick : List.filter is_query_or_report
                      (okteto_getState ns nm :: tick_effects (world env) seen res) =
                    tick_reports (world env) ns nm
                      (fun j => getState (world env) (polls s0 + j)) i).
    { unfold tick_reports. rewrite Hres. simpl. f_equal.
      apply (filter_tick_effects (world env)
               (fun j => getState (world env) (polls s0 + j)) i seen res Hseen Hres). }
    destruct (String.eqb state_ready (state res)).
    { exists 1. unfold trace_of. simpl snd. simpl seq. simpl map. simpl concat.
      rewrite app_nil_r. exact Htick. }
    destruct (String.eqb state_failed (state res)).
    { exists 1. unfold trace_of. simpl snd. simpl seq. simpl map. simpl concat.
      rewrite app_nil_r. exact Htick. }
    destruct (counter + 1 =? timeout).
    { exists 1. unfold trace_of. simpl snd. simpl seq. simpl map. simpl concat.
      rewrite app_nil_r. exact Htick. }
    destruct (sleep_run 1000 env (polled s)) as (s2 & t2 & Hs & Hp2 & _ & Hbg & _).
    rewrite Hs.
    destruct (IH ns nm (S i) (<[state res := true]> seen) (counter + 1) env s2 s0)
      as [n Hn].
    { rewrite Hp2. simpl. lia. }
    { apply (seen_upto_insert (fun j => getState (world env) (polls s0 + j))); assumption. }
    exists (S n).
    change (seq i (S n)) with (i :: seq (S i) n). rewrite map_cons, concat_cons.
    rewrite <- Hn, <- Htick.
    unfold session_of, trace_of. cbn [fst snd].
    rewrite !List.filter_app. f_equal.
    destruct (background_parts _ Hbg) as (Hbq & Hbr & _).
    change (setTimeout 1000 :: t2) with ([setTimeout 1000] ++ t2).
    rewrite List.filter_app. simpl.
    rewrite (filter_none is_query_or_report t2); [reflexivity |].
    apply Forall_forall. intros e He. unfold is_query_or_report.
    rewrite (proj1 (Forall_forall _ _) Hbq e He), (proj1 (Forall_forall _ _) Hbr e He).
    reflexivity.
Qed.

Lemma queries_filter t : queries (List.filter is_query_or_report t) = queries t.
Proof.
  unfold queries, count. induction t as [|e t IH]; [reflexivity |].
  simpl. unfold is_query_or_report at 1.
  destruct (is_query e) eqn:Hq; simpl.
  - rewrite Hq. simpl. rewrite IH. reflexivity.
  - destruct (is_report e); simpl; [rewrite Hq |]; exact IH.
Qed.

Lemma queries_tick_reports w ns nm poll i n :
  queries (concat (map (tick_reports w ns nm poll) (seq i n))) = n.
Proof.
  revert i. induction n as [|n IH]; intros i; [reflexivity |].
  change (seq i (S n)) with (i :: seq (S i) n). rewrite map_cons, concat_cons.
  unfold queries in *. rewrite count_app, IH. unfold tick_reports.
  destruct (poll i); [reflexivity |]. destruct (reported_before poll i); reflexivity.
Qed.

(** C3: tick by tick, the queries and progress reports of an attempt are
    the opening report and then, for each tick, its query followed by the
    report of its tag's message exactly when no earlier tick answered that
    tag: the first tick that answers a tag reports it, a later tick that
    answers the same tag reports nothing. *)
Theorem progress_reported_once_per_tag fuel ns nm env s :
  let poll := fun j => getState (world env) (polls s + j) in
  let r := waitForFinalState state_ready state_failed fuel ns nm env s in
  (exists n,
     n = queries (trace_of r) /\
     List.filter is_query_or_report (trace_of r) =
     progress_report (Some "Launching your development environment...")
     :: concat (map (tick_reports (world env) ns nm poll) (seq 0 n))) /\
  (forall k b, poll k = inr b ->
     (forall j a, j < k -> poll j = inr a -> state a <> state b) ->
     tick_reports (world env) ns nm poll k =
     [okteto_getState ns nm; progress_report (getStateMessages (world env) (state b))]) /\
  (forall j k a b, j < k -> poll j = inr a -> poll k = inr b -> state a = state b ->
     tick_reports (world env) ns nm poll k = [okteto_getState ns nm]).
Proof.
  intros poll r. split; [| split].
  - subst r.
    assert (Htr : trace_of (waitForFinalState state_ready state_failed fuel ns nm env s) =
                  progress_report (Some "Launching your development environment...")
                  :: trace_of (loop fuel ns nm ∅ 0 env s))
      by (rewrite waitForFinalState_unfold; reflexivity).
    rewrite Htr.
    destruct (loop_reports fuel ns nm 0 ∅ 0 env s s) as [n Hn].
    { lia. }
    { intros tag. rewrite lookup_empty. split.
      - intros [x Hx]. discriminate.
      - intros (j & a & Hj & _). lia. }
    exists n. fold poll in Hn.
    assert (Hfilter : List.filter is_query_or_report
              (progress_report (Some "Launching your development environment...")
               :: trace_of (loop fuel ns nm ∅ 0 env s)) =
            progress_report (Some "Launching your development environment...")
            :: concat (map (tick_reports (world env) ns nm poll) (seq 0 n))).
    { simpl. f_equal. exact Hn. }
    split; [| exact Hfilter].
    rewrite <- queries_filter, Hfilter. unfold queries. rewrite count_cons. simpl.
    symmetry. apply queries_tick_reports.
  - intros k b Hb Hfresh. unfold tick_reports. rewrite Hb.
    destruct (reported_before poll k) eqn:Hrb; [| reflexivity].
    apply reported_before_spec in Hrb as (j & a & b' & Hj & Ha & Hb' & Hab).
    exfalso. apply (Hfresh j a Hj Ha). congruence.
  - intros j k a b Hj Ha Hb Hab. unfold tick_reports. rewrite Hb.
    rewrite (proj2 (reported_before_spec poll k)); [reflexivity |].
    exists j, a, b. repeat split; assumption.
Qed.

(** ** Cancellation *)

Lemma delivered_step env s s2 m :
  polls s2 = S (polls s) ->
  cancelListener s2 = cancelListener s && negb (fires env (polled s)) ->
  (if fires env (polled s) then 1 else 0) + (if delivered env s2 m then 1 else 0) =
  (if delivered env s (S m) then 1 else 0).
Proof.
  unfold fires, delivered. intros Hp Hl.
  destruct (cancellation env) as [[k w']|]; [| reflexivity].
  change (cancelListener (polled s)) with (cancelListener s) in *.
  change (polls (polled s)) with (S (polls s)) in *.
  rewrite Hl, Hp.
  destruct (cancelListener s); cbn [andb negb]; [| reflexivity].
  repeat match goal with
         | |- context [?a <? ?b] => destruct (Nat.ltb_spec a b)
         | |- context [?a <=? ?b] => destruct (Nat.leb_spec a b)
         | |- context [?a =? ?b] => destruct (Nat.eqb_spec a b)
         end; cbn [andb negb]; lia.
Qed.

Lemma tick_quiet ns nm w seen res :
  count is_down_dispatch (okteto_getState ns nm :: tick_effects w seen res) = 0 /\
  count is_teardown (okteto_getState ns nm :: tick_effects w seen res) = 0 /\
  count is_timer (okteto_getState ns nm :: tick_effects w seen res) = 0.
Proof. unfold tick_effects. destruct (bool_decide _); repeat split; reflexivity. Qed.

(** The loop under a cancellation and the loop without it: same outcome,
    same queries, reports and timers; the down command is dispatched once
    when the cancellation reaches the loop, and never otherwise. *)
Lemma loop_cancellation fuel : forall ns nm seen counter env s s0,
  polls s = polls s0 ->
  let r := loop fuel ns nm seen counter env s in
  let r0 := loop fuel ns nm seen counter (uncancelled env) s0 in
  outcome_of r = outcome_of r0 /\
  polls (session_of r) = polls (session_of r0) /\
  List.filter is_poll (trace_of r) = List.filter is_poll (trace_of r0) /\
  count is_down_dispatch (trace_of r) =
    (if delivered env s (count is_timer (trace_of r0)) then 1 else 0) /\
  count is_teardown (trace_of r) <=
    (if delivered env s (count is_timer (trace_of r0)) then 1 else 0).
Proof.
  induction fuel as [|fuel IH]; intros ns nm seen counter env s s0 Hp r r0; subst r r0.
  - simpl. unfold delivered. rewrite Nat.add_0_r.
    repeat split; try assumption.
    + destruct (cancellation env) as [[k w']|]; [| reflexivity].
      destruct (Nat.ltb_spec (polls s) k), (Nat.leb_spec k (polls s));
        rewrite ?andb_false_r; simpl; try reflexivity; lia.
    + unfold count. simpl. lia.
  - rewrite !loop_unfold. change (world (uncancelled env)) with (world env). rewrite <- Hp.
    assert (Hnone : forall m, m = 0 -> (if delivered env s m then 1 else 0) = 0).
    { intros m ->. unfold delivered. rewrite Nat.add_0_r.
      destruct (cancellation env) as [[k w']|]; [| reflexivity].
      destruct (Nat.ltb_spec (polls s) k), (Nat.leb_spec k (polls s));
        rewrite ?andb_false_r; simpl; try reflexivity; lia. }
    destruct (getState (world env) (polls s)) as [err|res].
    { unfold outcome_of, session_of, trace_of. cbn [fst snd].
      repeat split; [simpl; lia | |]; rewrite Hnone; reflexivity. }
    cbv zeta.
    destruct (tick_quiet ns nm (world env) seen res) as (Hd1 & Htd1 & Htm1).
    assert (Hstop : forall (o : Outcome FinalState),
              let t1 := okteto_getState ns nm :: tick_effects (world env) seen res in
              outcome_of (o, polled s, t1) = outcome_of (o, polled s0, t1) /\
              polls (session_of (o, polled s, t1)) = polls (session_of (o, polled s0, t1)) /\
              List.filter is_poll (trace_of (o, polled s, t1)) =
                List.filter is_poll (trace_of (o, polled s0, t1)) /\
              count is_down_dispatch (trace_of (o, polled s, t1)) =
                (if delivered env s (count is_timer (trace_of (o, polled s0, t1)))
                 then 1 else 0) /\
              count is_teardown (trace_of (o, polled s, t1)) <=
                (if delivered env s (count is_timer (trace_of (o, polled s0, t1)))
                 then 1 else 0)).
    { intros o t1. subst t1. unfold outcome_of, session_of, trace_of. cbn [fst snd].
      rewrite (Hnone _ Htm1), Hd1, Htd1.
      repeat split; [simpl; lia | lia]. }
    destruct (String.eqb state_ready (state res)); [apply Hstop |].
    destruct (String.eqb state_failed (state res)); [apply Hstop |].
    destruct (counter + 1 =? timeout); [apply Hstop |].
    clear Hstop.
    destruct (sleep_run 1000 env (polled s))
      as (s2 & t2 & Hs & Hp2 & Hl2 & Hbg & Hd2 & Htd2 & _).
    destruct (sleep_run 1000 (uncancelled env) (polled s0))
      as (s2' & t2' & Hs' & _ & _ & _ & _ & _ & Hsame).
    destruct (Hsame eq_refl) as [-> ->]. clear Hsame.
    rewrite Hs, Hs'.
    specialize (IH ns nm (<[state res := true]> seen) (counter + 1) env s2 (polled s0)).
    cbv zeta in IH. destruct IH as (Ho & Hps & Hf & Hd & Htd).
    { rewrite Hp2. simpl. lia. }
    destruct (background_parts _ Hbg) as (Hbq & Hbr & Hbt).
    unfold outcome_of, session_of, trace_of in *. cbn [fst snd] in *.
    set (t1 := okteto_getState ns nm :: tick_effects (world env) seen res) in *.
    set (t3 := (loop fuel ns nm (<[state res := true]> seen) (counter + 1) env s2).2) in *.
    set (t3' := (loop fuel ns nm (<[state res := true]> seen) (counter + 1)
                   (uncancelled env) (polled s0)).2) in *.
    assert (Htimers : count is_timer (t1 ++ [setTimeout 1000] ++ t3') =
                      S (count is_timer t3')).
    { rewrite count_app, Htm1, count_app. reflexivity. }
    rewrite Htimers, <- (delivered_step env s s2 _ Hp2 Hl2).
    split; [exact Ho |]. split; [exact Hps |].
    split.
    { rewrite !List.filter_app, Hf. f_equal. f_equal.
      simpl. rewrite (filter_none is_poll t2); [reflexivity |].
      eapply Forall_impl; [exact Hbg |]. intros e He. apply background_poll, He. }
    split.
    { rewrite !count_app, Hd1, Hd, count_cons, Hd2. simpl. lia. }
    rewrite !count_app, Htd1, count_cons. simpl.
    destruct (fires env (polled s)) eqn:Hfire; [lia |].
    destruct (sleep_run 1000 env (polled s)) as (s3 & t4 & Hs3 & _ & _ & _ & _ & _ & Hsame).
    rewrite Hs in Hs3. injection Hs3 as <- <-.
    destruct (Hsame Hfire) as [_ ->]. rewrite count_nil. lia.
Qed.

Lemma delivered_0 env s : delivered env s 0 = false.
Proof.
  unfold delivered. rewrite Nat.add_0_r.
  destruct (cancellation env) as [[k w']|]; [| reflexivity].
  destruct (Nat.ltb_spec (polls s) k), (Nat.leb_spec k (polls s));
    rewrite ?andb_false_r; simpl; try reflexivity; lia.
Qed.

Lemma delivered_unlistened env s m : cancelListener s = false -> delivered env s m = false.
Proof.
  intros Hl. unfold delivered. rewrite Hl.
  destruct (cancellation env) as [[k w']|]; reflexivity.
Qed.

(** A sleep at which the cancellation is delivered: the timer, then the
    handler's event, the dispatch, and the calls of the down command. *)
Lemma sleep_fires ms env s :
  fires env s = true ->
  sleep ms env s =
  (Return tt, session_of (dispatched_down env (activeManifest s)),
   setTimeout 1000 :: reporter_track events.upCancelled :: executeCommand "okteto.down" ::
   map (in_command "okteto.down") (trace_of (dispatched_down env (activeManifest s)))) /\
  suspended_after env s [setTimeout 1000].
Proof.
  unfold sleep, host_suspended, fires, dispatched_down, suspended_after. run_cmd.
  destruct (cancellation env) as [[k w']|]; [| discriminate].
  intros Hfire. rewrite Hfire.
  apply andb_true_iff in Hfire as [_ Hk]. apply Nat.eqb_eq in Hk.
  unfold onCancellationRequested_handler, spawn. run_cmd. simpl.
  unfold idle. rewrite <- Hk.
  destruct (downCommand _ _) as [[o s2] t2]. simpl.
  split; [reflexivity |]. split; [reflexivity |].
  unfold queries, count. simpl. lia.
Qed.

Lemma loop_cancellation_trace fuel : forall ns nm seen counter env s s0,
  polls s = polls s0 ->
  let r := loop fuel ns nm seen counter env s in
  let r0 := loop fuel ns nm seen counter (uncancelled env) s0 in
  if delivered env s (count is_timer (trace_of r0))
  then exists t1 t2,
         trace_of r0 = t1 ++ t2 /\
         suspended_after env s t1 /\
         trace_of r =
           t1 ++ [reporter_track events.upCancelled; executeCommand "okteto.down"] ++
           map (in_command "okteto.down") (trace_of (dispatched_down env (activeManifest s))) ++ t2
  else trace_of r = trace_of r0.
Proof.
  induction fuel as [|fuel IH]; intros ns nm seen counter env s s0 Hp r r0; subst r r0.
  - simpl. rewrite delivered_0. reflexivity.
  - rewrite !loop_unfold. change (world (uncancelled env)) with (world env). rewrite <- Hp.
    destruct (getState (world env) (polls s)) as [err|res].
    { unfold trace_of. cbn [snd]. rewrite count_cons, count_nil. simpl.
      rewrite delivered_0. reflexivity. }
    cbv zeta.
    destruct (tick_quiet ns nm (world env) seen res) as (_ & _ & Htm1).
    assert (Hstop : forall (o : Outcome FinalState),
              let t1 := okteto_getState ns nm :: tick_effects (world env) seen res in
              if delivered env s (count is_timer (trace_of (o, polled s0, t1)))
              then exists t1' t2,
                     trace_of (o, polled s0, t1) = t1' ++ t2 /\
                     suspended_after env s t1' /\
                     trace_of (o, polled s, t1) =
                       t1' ++ [reporter_track events.upCancelled;
                               executeCommand "okteto.down"] ++
                       map (in_command "okteto.down") (trace_of (dispatched_down env (activeManifest s))) ++ t2
              else trace_of (o, polled s, t1) = trace_of (o, polled s0, t1)).
    { intros o t1. subst t1. unfold trace_of. cbn [snd].
      rewrite Htm1, delivered_0. reflexivity. }
    destruct (String.eqb state_ready (state res)); [apply Hstop |].
    destruct (String.eqb state_failed (state res)); [apply Hstop |].
    destruct (counter + 1 =? timeout); [apply Hstop |].
    clear Hstop.
    destruct (sleep_run 1000 (uncancelled env) (polled s0))
      as (s2' & t2' & Hs' & _ & _ & _ & _ & _ & Hsame).
    destruct (Hsame eq_refl) as [-> ->]. clear Hsame. rewrite Hs'.
    destruct (sleep_run 1000 env (polled s))
      as (s2 & t2 & Hs & Hp2 & Hl2 & _ & _ & _ & Hsame).
    rewrite Hs.
    pose proof (IH ns nm (<[state res := true]> seen) (counter + 1) env s2 (polled s0)) as IHs.
    cbv zeta in IHs. specialize (IHs ltac:(rewrite Hp2; simpl; lia)).
    unfold outcome_of, session_of, trace_of in *. cbn [fst snd] in *.
    set (t1 := okteto_getState ns nm :: tick_effects (world env) seen res) in *.
    set (t3 := (loop fuel ns nm (<[state res := true]> seen) (counter + 1) env s2).2) in *.
    set (t3' := (loop fuel ns nm (<[state res := true]> seen) (counter + 1)
                   (uncancelled env) (polled s0)).2) in *.
    assert (Htimers : count is_timer (t1 ++ [setTimeout 1000] ++ t3') =
                      S (count is_timer t3')).
    { rewrite count_app, Htm1, count_app. reflexivity. }
    rewrite Htimers.
    pose proof (delivered_step env s s2 (count is_timer t3') Hp2 Hl2) as Hstep.
    assert (Hq1 : queries t1 = 1).
    { unfold t1, queries. rewrite count_cons. simpl.
      pose proof (proj1 (tick_effects_counts (world env) seen res)) as Hq.
      unfold queries in Hq. rewrite Hq. reflexivity. }
    destruct (fires env (polled s)) eqn:Hfire.
    + destruct (sleep_fires 1000 env (polled s) Hfire) as [Hrun [_ Hk]].
      rewrite Hs in Hrun. injection Hrun as Hs2 Ht2.
      assert (Hoff : delivered env s2 (count is_timer t3') = false).
      { apply delivered_unlistened. rewrite Hl2. apply andb_false_r. }
      rewrite Hoff in Hstep, IHs.
      destruct (delivered env s (S (count is_timer t3'))); [| discriminate].
      exists (t1 ++ [setTimeout 1000]), t3'.
      split; [rewrite <- app_assoc; reflexivity |].
      split.
      { split; [apply last_snoc |].
        destruct (cancellation env) as [[k w']|]; [| destruct Hk].
        unfold queries in *. rewrite count_app, Hq1.
        rewrite count_cons, count_nil in Hk |- *. simpl in *. lia. }
      rewrite IHs, Ht2.
      rewrite <- !app_assoc. reflexivity.
    + destruct (Hsame eq_refl) as [-> ->]. simpl.
      destruct (delivered env (polled s) (count is_timer t3')) eqn:Hd;
        destruct (delivered env s (S (count is_timer t3'))); try discriminate.
      * destruct IHs as (t1' & t2' & Ht3' & (Hlast & Hk) & Ht3).
        exists (t1 ++ [setTimeout 1000] ++ t1'), t2'.
        split; [rewrite Ht3', <- !app_assoc; reflexivity |].
        split.
        { split.
          - rewrite app_assoc, last_app, Hlast. reflexivity.
          - destruct (cancellation env) as [[k w']|]; [| destruct Hk].
            unfold queries in *. rewrite !count_app, Hq1.
            rewrite count_cons, count_nil. simpl in *. lia. }
        rewrite Ht3. rewrite <- !app_assoc. reflexivity.
      * rewrite IHs. reflexivity.
Qed.

(** Without a cancellation the loop's trace holds nothing of the handler:
    no [upCancelled] event, no dispatch, no teardown, no call of another
    command. *)
Lemma loop_uncancelled fuel : forall ns nm seen counter env s,
  cancellation env = None ->
  Forall (fun e => is_cancel_event e = false /\ is_down_dispatch e = false /\
                   is_teardown e = false /\ is_dispatched e = false)
    (trace_of (loop fuel ns nm seen counter env s)).
Proof.
  induction fuel as [|fuel IH]; intros ns nm seen counter env s Hnone; [constructor |].
  rewrite loop_unfold.
  destruct (getState (world env) (polls s)) as [err|res]; [repeat constructor |].
  cbv zeta.
  assert (Ht1 : Forall (fun e => is_cancel_event e = false /\ is_down_dispatch e = false /\
                                 is_teardown e = false /\ is_dispatched e = false)
                  (okteto_getState ns nm :: tick_effects (world env) seen res)).
  { unfold tick_effects. destruct (bool_decide _); repeat constructor. }
  destruct (String.eqb state_ready (state res)); [exact Ht1 |].
  destruct (String.eqb state_failed (state res)); [exact Ht1 |].
  destruct (counter + 1 =? timeout); [exact Ht1 |].
  destruct (sleep_run 1000 env (polled s)) as (s2 & t2 & Hs & _ & _ & _ & _ & _ & Hsame).
  destruct Hsame as [-> ->]; [unfold fires; rewrite Hnone; reflexivity |].
  rewrite Hs. unfold session_of, trace_of at 1. cbn [fst snd].
  apply Forall_app. split; [exact Ht1 |].
  apply Forall_app. split; [repeat constructor | apply IH, Hnone].
Qed.

Lemma own_calls_app t1 t2 : own_calls (t1 ++ t2) = own_calls t1 ++ own_calls t2.
Proof. apply List.filter_app. Qed.

Lemma dispatched_calls_app t1 t2 :
  dispatched_calls (t1 ++ t2) = dispatched_calls t1 ++ dispatched_calls t2.
Proof. apply List.filter_app. Qed.

Lemma own_calls_all t :
  Forall (fun e => is_dispatched e = false) t ->
  own_calls t = t /\ dispatched_calls t = [].
Proof.
  induction 1 as [|e t He _ [IH1 IH2]]; [split; reflexivity |].
  unfold own_calls, dispatched_calls in *. simpl. rewrite He. simpl.
  rewrite IH1, IH2. split; reflexivity.
Qed.

Lemma own_calls_in_command c t :
  own_calls (map (in_command c) t) = [] /\
  dispatched_calls (map (in_command c) t) = map (in_command c) t.
Proof.
  induction t as [|e t [IH1 IH2]]; [split; reflexivity |].
  unfold own_calls, dispatched_calls in *. simpl. rewrite IH1, IH2. split; reflexivity.
Qed.

Lemma dispatched_down_teardown env am :
  count is_teardown (trace_of (dispatched_down env am)) <= 1.
Proof.
  unfold dispatched_down. destruct (cancellation env) as [[k w']|]; [| vm_compute; lia].
  destruct (downCommand_cases {| world := w'; cancellation := None |} (idle am k))
    as [[_ ->] | [[_ [-> _]] | [_ [-> _]]]]; lia.
Qed.

(** C1, as the code has it: a cancellation does not stop the polling loop
    and there is no cancelled outcome.  [waitForUp] under a cancellation
    makes the same queries, progress reports and timers and settles the same
    way as without it.  When the cancellation is raised while the loop is
    suspended between two ticks, the handler runs once, there: the calls
    [waitForUp] makes itself are those of the attempt without the
    cancellation, with the [upCancelled] event and the dispatch of the down
    command inserted after the timer that follows the [k]-th query; the
    calls made on behalf of the dispatched command are those of that down
    command; [okteto.down] is called as often as the dispatched down command
    calls it, which is at most once.  Otherwise the trace is that of the
    attempt without the cancellation. *)
Theorem cancellation_dispatches_down_once fuel ns nm env s :
  let r := waitForUp state_ready state_failed fuel ns nm env s in
  let r0 := waitForUp state_ready state_failed fuel ns nm (uncancelled env) s in
  let raised := delivered env (listening s) (count is_timer (trace_of r0)) in
  let down := dispatched_down env (activeManifest s) in
  outcome_of r = outcome_of r0 /\
  List.filter is_poll (trace_of r) = List.filter is_poll (trace_of r0) /\
  queries (trace_of r) = queries (trace_of r0) /\
  count is_cancel_event (trace_of r) = (if raised then 1 else 0) /\
  count is_down_dispatch (trace_of r) = (if raised then 1 else 0) /\
  count is_teardown (trace_of r) =
    (if raised then count is_teardown (trace_of down) else 0) /\
  count is_teardown (trace_of r) <= 1 /\
  if raised
  then exists t1 t2,
         trace_of r0 = t1 ++ t2 /\
         suspended_after env s t1 /\
         own_calls (trace_of r) =
           t1 ++ [reporter_track events.upCancelled; executeCommand "okteto.down"] ++ t2 /\
         dispatched_calls (trace_of r) = map (in_command "okteto.down") (trace_of down)
  else trace_of r = trace_of r0.
Proof.
  intros r r0 raised down. subst r r0 raised down. rewrite !waitForUp_unfold. cbv zeta.
  rewrite !waitForFinalState_unfold.
  pose proof (loop_cancellation fuel ns nm ∅ 0 env
                (listening s) (listening s) eq_refl) as H.
  cbv zeta in H. destruct H as (Ho & _ & Hf & _).
  pose proof (loop_cancellation_trace fuel ns nm ∅ 0 env (listening s) (listening s) eq_refl)
    as Htr. cbv zeta in Htr.
  pose proof (loop_uncancelled fuel ns nm ∅ 0 (uncancelled env) (listening s) eq_refl) as Hun.
  pose proof (dispatched_down_teardown env (activeManifest s)) as Hdown.
  unfold outcome_of, session_of, trace_of in *. cbn [fst snd] in *.
  change (activeManifest (listening s)) with (activeManifest s) in Htr.
  rewrite Ho.
  set (o := (loop fuel ns nm ∅ 0 (uncancelled env) (listening s)).1.1) in *.
  set (t := (loop fuel ns nm ∅ 0 env (listening s)).2) in *.
  set (t0 := (loop fuel ns nm ∅ 0 (uncancelled env) (listening s)).2) in *.
  set (td := (dispatched_down env (activeManifest s)).2) in *.
  set (report := progress_report (Some "Launching your development environment...")).
  assert (Hsettle : count is_timer (waitForUp_settles o).2 = 0 /\
                    count is_cancel_event (waitForUp_settles o).2 = 0 /\
                    count is_down_dispatch (waitForUp_settles o).2 = 0 /\
                    count is_teardown (waitForUp_settles o).2 = 0).
  { destruct o as [res| |]; simpl; [destruct (result res) |..]; repeat split; reflexivity. }
  destruct Hsettle as (Hs1 & Hs2 & Hs3 & Hs4).
  assert (Htimer : count is_timer
                     (withProgress_start None true :: (report :: t0) ++ (waitForUp_settles o).2) =
                   count is_timer t0).
  { rewrite !count_cons, !count_app, !count_cons, Hs1. simpl. lia. }
  rewrite Htimer.
  assert (Hpoll : List.filter is_poll
            (withProgress_start None true :: (report :: t) ++ (waitForUp_settles o).2) =
          List.filter is_poll
            (withProgress_start None true :: (report :: t0) ++ (waitForUp_settles o).2)).
  { simpl. f_equal. rewrite !List.filter_app, Hf. reflexivity. }
  split; [reflexivity |]. split; [exact Hpoll |].
  split.
  { unfold queries, count.
    assert (Hqp : forall l, List.filter is_query l = List.filter is_query (List.filter is_poll l)).
    { induction l as [|e l IH]; [reflexivity |]. simpl. unfold is_poll at 1.
      destruct (is_query e) eqn:Hq; simpl; [rewrite Hq; f_equal; exact IH |].
      destruct (is_report e || is_timer e); simpl; [rewrite Hq |]; exact IH. }
    rewrite Hqp, Hpoll, <- Hqp. reflexivity. }
  assert (Hown0 : Forall (fun e => is_dispatched e = false) t0).
  { eapply Forall_impl; [exact Hun |]. intros e (_ & _ & _ & H4). exact H4. }
  assert (Hown1 : Forall (fun e => is_dispatched e = false) (waitForUp_settles o).2).
  { destruct o as [res| |]; simpl; [destruct (result res) |..]; repeat constructor. }
  assert (Hc0 : count is_cancel_event t0 = 0 /\ count is_down_dispatch t0 = 0 /\
                count is_teardown t0 = 0).
  { repeat split; apply count_none; (eapply Forall_impl; [exact Hun |]);
      intros e (H1 & H2 & H3 & H4); assumption. }
  destruct Hc0 as (Hc1 & Hc2 & Hc3).
  destruct (delivered env (listening s) (count is_timer t0)).
  - destruct Htr as (t1 & t2 & Ht0 & Hsusp & Ht).
    rewrite Ht0, !count_app in Hc1, Hc2, Hc3.
    assert (Hmap : count is_cancel_event (map (in_command "okteto.down") td) = 0 /\
                   count is_down_dispatch (map (in_command "okteto.down") td) = 0 /\
                   count is_teardown (map (in_command "okteto.down") td) = count is_teardown td).
    { repeat split.
      - apply count_none, Forall_map, Forall_true. intros e. reflexivity.
      - apply count_none, Forall_map, Forall_true. intros e. reflexivity.
      - apply count_in_command. intros e. reflexivity. }
    destruct Hmap as (Hm1 & Hm2 & Hm3).
    assert (Hcounts :
              count is_cancel_event t = 1 /\ count is_down_dispatch t = 1 /\
              count is_teardown t = count is_teardown td).
    { rewrite Ht.
      repeat first [rewrite count_app | rewrite count_cons | rewrite count_nil].
      rewrite Hm1, Hm2, Hm3. simpl. repeat split; lia. }
    destruct Hcounts as (Hk1 & Hk2 & Hk3).
    split; [rewrite !count_cons, !count_app, !count_cons, Hs2, Hk1; reflexivity |].
    split; [rewrite !count_cons, !count_app, !count_cons, Hs3, Hk2; reflexivity |].
    split; [rewrite !count_cons, !count_app, !count_cons, Hs4, Hk3; simpl; lia |].
    split; [rewrite !count_cons, !count_app, !count_cons, Hs4, Hk3; simpl; lia |].
    exists (withProgress_start None true :: report :: t1), (t2 ++ (waitForUp_settles o).2).
    split; [rewrite Ht0; simpl; rewrite <- app_assoc; reflexivity |].
    split.
    { destruct Hsusp as [Hlast Hk]. split.
      - change (withProgress_start None true :: report :: t1)
          with ([withProgress_start None true; report] ++ t1).
        rewrite last_app, Hlast. reflexivity.
      - destruct (cancellation env) as [[k w']|]; [| destruct Hk].
        unfold queries in *. rewrite !count_cons. simpl in *. lia. }
    rewrite Ht0 in Hown0. apply Forall_app in Hown0 as [Hown_t1 Hown_t2].
    destruct (own_calls_all _ Hown_t1) as [Ho1 Hd1].
    destruct (own_calls_all _ Hown_t2) as [Ho2 Hd2].
    destruct (own_calls_all _ Hown1) as [Ho3 Hd3].
    destruct (own_calls_in_command "okteto.down" td) as [Ho4 Hd4].
    rewrite Ht.
    change (withProgress_start None true ::
            (report :: t1 ++ [reporter_track events.upCancelled;
                              executeCommand "okteto.down"] ++
                       map (in_command "okteto.down") td ++ t2) ++
            (waitForUp_settles o).2)
      with ([withProgress_start None true; report] ++
            (t1 ++ [reporter_track events.upCancelled; executeCommand "okteto.down"] ++
             map (in_command "okteto.down") td ++ t2) ++
            (waitForUp_settles o).2).
    rewrite !own_calls_app, !dispatched_calls_app, Ho1, Ho2, Ho3, Ho4, Hd1, Hd2, Hd3, Hd4.
    split; [| simpl; rewrite ?app_nil_r; reflexivity].
    simpl. repeat (rewrite <- app_assoc; simpl). reflexivity.
  - rewrite Htr.
    split; [rewrite !count_cons, !count_app, !count_cons, Hs2, Hc1; reflexivity |].
    split; [rewrite !count_cons, !count_app, !count_cons, Hs3, Hc2; reflexivity |].
    split; [rewrite !count_cons, !count_app, !count_cons, Hs4, Hc3; reflexivity |].
    split; [rewrite !count_cons, !count_app, !count_cons, Hs4, Hc3; simpl; lia |].
    reflexivity.
Qed.

End PollingProperties.

(** ** [upCommand] *)

Lemma sleep_safe ms : safe (fun _ => True) before_load (sleep ms).
Proof.
  intros env s _. split; [exact Logic.I |].
  destruct (sleep_run ms env s) as (s' & t & -> & _ & _ & Hbg & _).
  unfold trace_of. cbn [snd]. constructor; [reflexivity |].
  eapply Forall_impl; [exact Hbg | exact background_before_load].
Qed.

Ltac safe_known ::=
  first [ apply sleep_safe
        | apply installCmd_safe | apply showManifestPicker_safe
        | apply getManifestOrAsk_safe
        | eapply safe_weaken; [exact silent_quiet |];
          first [ apply installCmd_safe | apply showManifestPicker_safe
                | apply getManifestOrAsk_safe ]
        | eapply safe_weaken; [exact silent_before_load |];
          first [ apply installCmd_safe | apply showManifestPicker_safe
                | apply getManifestOrAsk_safe ] ].

Lemma showWorkspacePicker_safe repository :
  safe (fun _ => True) before_load (showWorkspacePicker repository).
Proof. unfold showWorkspacePicker. safe_auto. Qed.

Section UpCommandProperties.

Variables state_ready state_failed : string.

Local Abbreviation loop := (waitForFinalState_loop state_ready state_failed).

Lemma loop_before_load fuel : forall ns nm seen counter env s,
  Forall (fun e => before_load e = true) (trace_of (loop fuel ns nm seen counter env s)).
Proof.
  induction fuel as [|fuel IH]; intros ns nm seen counter env s; [constructor |].
  rewrite loop_unfold.
  destruct (getState (world env) (polls s)) as [err|res]; [repeat constructor |].
  cbv zeta.
  assert (Ht1 : Forall (fun e => before_load e = true)
                  (okteto_getState ns nm :: tick_effects (world env) seen res)).
  { unfold tick_effects. destruct (bool_decide _); repeat constructor. }
  destruct (String.eqb state_ready (state res)); [exact Ht1 |].
  destruct (String.eqb state_failed (state res)); [exact Ht1 |].
  destruct (counter + 1 =? timeout); [exact Ht1 |].
  unfold trace_of at 1. cbn [snd].
  apply Forall_app. split; [exact Ht1 |]. apply Forall_app. split; [| apply IH].
  apply (sleep_safe 1000 env (polled s) Logic.I).
Qed.

Lemma waitForUp_safe fuel ns nm :
  safe (fun _ => True) before_load (waitForUp state_ready state_failed fuel ns nm).
Proof.
  intros env s _. split; [exact Logic.I |].
  rewrite waitForUp_unfold. cbv zeta. rewrite waitForFinalState_unfold.
  unfold outcome_of, session_of, trace_of. cbn [fst snd].
  constructor; [reflexivity |]. apply Forall_app. split.
  - constructor; [reflexivity |]. apply loop_before_load.
  - destruct ((loop fuel ns nm ∅ 0 env (listening s)).1.1) as [res| |]; simpl;
      [destruct (result res) |..]; repeat constructor.
Qed.

Lemma finalizeUp_safe ns nm : safe (fun _ => True) before_load (finalizeUp ns nm).
Proof. unfold finalizeUp. safe_auto. Qed.

Ltac safe_known ::=
  first [ apply sleep_safe | apply showWorkspacePicker_safe
        | apply waitForUp_safe | apply finalizeUp_safe
        | apply safe_set_activeManifest; intros; exact Logic.I
        | apply installCmd_safe | apply showManifestPicker_safe
        | apply getManifestOrAsk_safe
        | eapply safe_weaken; [exact silent_quiet |];
          first [ apply installCmd_safe | apply showManifestPicker_safe
                | apply getManifestOrAsk_safe ]
        | eapply safe_weaken; [exact silent_before_load |];
          first [ apply installCmd_safe | apply showManifestPicker_safe
                | apply getManifestOrAsk_safe ] ].

Lemma up_shape_prefix w o s t1 t2 :
  Forall (fun e => before_load e = true) t1 ->
  up_shape w (o, s, t2) -> up_shape w (o, s, t1 ++ t2).
Proof.
  intros Ht1 [Hclean | (pre & p & Hpre & Hshape)].
  - left. apply Forall_app. split; assumption.
  - right. exists (t1 ++ pre), p. split; [apply Forall_app; split; assumption |].
    unfold outcome_of, trace_of in *. cbn [fst snd] in *.
    destruct (getManifest w p) as [err|m].
    + destruct Hshape as [Ho ->]. split; [exact Ho |]. rewrite app_assoc. reflexivity.
    + destruct (resolve_namespace w m) as [ns|].
      * destruct Hshape as (post & -> & Hpost). exists post.
        split; [rewrite !app_assoc; reflexivity | exact Hpost].
      * destruct Hshape as [Ho ->]. split; [exact Ho |]. rewrite app_assoc. reflexivity.
Qed.

Lemma up_shape_bind {A} w (m : Cmd A) (k : A -> Cmd unit) env s :
  safe (fun _ => True) before_load m ->
  (forall a s1, up_shape w (k a env s1)) ->
  up_shape w (bind m k env s).
Proof.
  intros Hm Hk. destruct (Hm env s Logic.I) as [_ Ht1].
  unfold bind, trace_of in *.
  destruct (m env s) as [[[a|err|] s1] t1]; cbn [snd] in Ht1;
    [| left; exact Ht1 | left; exact Ht1].
  specialize (Hk a s1). destruct (k a env s1) as [[o2 s2] t2].
  apply up_shape_prefix; assumption.
Qed.

Lemma up_shape_ask w (k : World -> Cmd unit) env s :
  up_shape w (k (world env) env s) -> up_shape w (bind ask k env s).
Proof.
  intros Hk. unfold bind, ask. destruct (k (world env) env s) as [[o2 s2] t2]. exact Hk.
Qed.

Lemma bind_return {A B} (m : Cmd A) (k : A -> Cmd B) env s a s1 t1 :
  m env s = (Return a, s1, t1) ->
  bind m k env s =
  (outcome_of (k a env s1), session_of (k a env s1), t1 ++ trace_of (k a env s1)).
Proof.
  intros Hm. unfold bind. rewrite Hm. destruct (k a env s1) as [[o2 s2] t2]. reflexivity.
Qed.

(** Step 3 of both commands: the manifest is loaded, or the failure is
    reported. *)
Lemma load_step (command : string) env s p :
  try_catch (m <- getManifest_call p ;; ret (Some m))%cmd
    (fun err =>
       track events.manifestLoadFailed ;;
       captureError ("load manifest failed: " +:+ err) ;;
       onOktetoFailed (command +:+ err) ;;
       ret None)%cmd env s =
  match getManifest (world env) p with
  | inl err =>
      (Return None, s,
       [manifest_getManifest p; reporter_track events.manifestLoadFailed;
        reporter_captureError ("load manifest failed: " +:+ err);
        showErrorMessage (command +:+ err); okteto_showTerminal])
  | inr m => (Return (Some m), s, [manifest_getManifest p])
  end.
Proof. run_cmd. simpl. destruct (getManifest (world env) p); reflexivity. Qed.

(** Step 4 of both commands: the namespace is resolved, or its absence is
    reported. *)
Lemma resolve_step env s (m : Manifest) :
  (if negb (truthy (namespace m)) then
     let ns := getCurrentNamespace (world env) (getKubeconfig (world env)) in
     if negb (truthy ns) then
       emit (showErrorMessage "Couldn't detect your current Kubernetes context.") ;;
       ret None
     else ret ns
   else ret (namespace m))%cmd env s =
  (Return (resolve_namespace (world env) m), s,
   match resolve_namespace (world env) m with
   | Some _ => []
   | None => [showErrorMessage "Couldn't detect your current Kubernetes context."]
   end).
Proof.
  unfold resolve_namespace. destruct (namespace m) as [ns|] eqn:Hns; simpl.
  - destruct (String.eqb ns ""); simpl; [| reflexivity].
    destruct (getCurrentNamespace (world env) (getKubeconfig (world env))) as [n|]; simpl;
      [destruct (String.eqb n ""); simpl |]; reflexivity.
  - destruct (getCurrentNamespace (world env) (getKubeconfig (world env))) as [n|]; simpl;
      [destruct (String.eqb n ""); simpl |]; reflexivity.
Qed.

Lemma upCommand_shape fuel repository path env s :
  up_shape (world env) (upCommand state_ready state_failed fuel repository path env s).
Proof.
  unfold upCommand. apply up_shape_ask.
  apply up_shape_bind; [safe_auto |]. intros _ s1.
  destruct (needsInstall (world env)) as [install upgrade].
  apply up_shape_bind; [safe_auto |]. intros proceed s2.
  destruct proceed; cbn [negb]; [| left; constructor].
  apply up_shape_bind; [safe_auto |]. intros manifestUri s3.
  destruct manifestUri as [uri|]; [| left; repeat constructor].
  apply up_shape_bind; [safe_auto |]. intros _ s4.
  cbv zeta.
  apply up_shape_bind; [safe_auto |]. intros _ s5.
  right. exists [], (fsPath uri). split; [constructor |].
  pose proof (load_step "Okteto: Up failed to load your Okteto manifest: " env s5 (fsPath uri))
    as Hload.
  destruct (getManifest (world env) (fsPath uri)) as [err|m].
  { rewrite (bind_return _ _ _ _ _ _ _ Hload). split; reflexivity. }
  rewrite (bind_return _ _ _ _ _ _ _ Hload).
  rewrite (bind_return _ _ _ _ _ _ _ (resolve_step env s5 m)).
  destruct (resolve_namespace (world env) m) as [ns|]; [| split; reflexivity].
  set (tail := (set_activeManifest (fsPath uri) ;;
                up <- try_catch (waitForUp state_ready state_failed fuel ns (name m) ;; ret true)
                        (fun err =>
                           captureError ("okteto up failed: " +:+ err) ;;
                           onOktetoFailed err ;;
                           ret false) ;;
                if up then finalizeUp ns (name m) else ret tt)%cmd).
  assert (Htail : safe (fun _ => True) before_load tail).
  { subst tail. safe_auto. }
  exists (trace_of (tail env s5)). split; [| apply (Htail env s5 Logic.I)].
  unfold bind, emit, outcome_of, session_of, trace_of. cbv beta iota.
  destruct (tail env s5) as [[o2 s6] t2]. reflexivity.
Qed.

Lemma before_load_no_load p t :
  Forall (fun e => before_load e = true) t -> ~ In (manifest_getManifest p) t.
Proof.
  intros Ht Hin. apply (proj1 (List.Forall_forall _ _) Ht) in Hin. discriminate.
Qed.

Lemma before_load_no_launch t :
  Forall (fun e => before_load e = true) t -> count is_launch t = 0.
Proof.
  intros Ht. apply count_none. eapply Forall_impl; [exact Ht |].
  intros e He. unfold before_load in He. destruct (is_launch e); [discriminate | reflexivity].
Qed.

(** The manifest an up command loads is the one its shape names. *)
Lemma up_shape_loaded w r p :
  up_shape w r -> In (manifest_getManifest p) (trace_of r) ->
  exists pre,
    Forall (fun e => before_load e = true) pre /\
    match getManifest w p with
    | inl err =>
        outcome_of r = Return tt /\
        trace_of r =
          pre ++ [manifest_getManifest p;
                  reporter_track events.manifestLoadFailed;
                  reporter_captureError ("load manifest failed: " +:+ err);
                  showErrorMessage ("Okteto: Up failed to load your Okteto manifest: " +:+ err);
                  okteto_showTerminal]
    | inr m =>
        match resolve_namespace w m with
        | None =>
            outcome_of r = Return tt /\
            trace_of r =
              pre ++ [manifest_getManifest p;
                      showErrorMessage "Couldn't detect your current Kubernetes context."]
        | Some ns =>
            exists post,
              trace_of r =
                pre ++ [manifest_getManifest p; okteto_up p ns (name m) (getKubeconfig w)]
                    ++ post /\
              Forall (fun e => before_load e = true) post
        end
    end.
Proof.
  intros [Hclean | (pre & p' & Hpre & Hshape)] Hin.
  - destruct (before_load_no_load p _ Hclean Hin).
  - assert (p = p') as ->; [| exists pre; split; assumption].
    destruct (getManifest w p') as [err|m].
    + destruct Hshape as [_ Ht]. rewrite Ht in Hin. apply in_app_or in Hin as [Hin | Hin].
      * destruct (before_load_no_load p _ Hpre Hin).
      * simpl in Hin. intuition congruence.
    + destruct (resolve_namespace w m) as [ns|].
      * destruct Hshape as (post & Ht & Hpost). rewrite Ht in Hin.
        apply in_app_or in Hin as [Hin | Hin];
          [destruct (before_load_no_load p _ Hpre Hin) |].
        apply in_app_or in Hin as [Hin | Hin];
          [| destruct (before_load_no_load p _ Hpost Hin)].
        simpl in Hin. intuition congruence.
      * destruct Hshape as [_ Ht]. rewrite Ht in Hin. apply in_app_or in Hin as [Hin | Hin].
        -- destruct (before_load_no_load p _ Hpre Hin).
        -- simpl in Hin. intuition congruence.
Qed.

(** C8: when the load of the manifest [p] of an up command rejects with
    [err], the command ends by reporting "Okteto: Up failed to load your
    Okteto manifest: err" to the user and showing the terminal, and its
    trace holds no call of [okteto.up], by anyone. *)
Theorem upCommand_load_failure fuel repository path env s p err :
  let r := upCommand state_ready state_failed fuel repository path env s in
  In (manifest_getManifest p) (trace_of r) ->
  getManifest (world env) p = inl err ->
  outcome_of r = Return tt /\
  count is_launch (trace_of r) = 0 /\
  exists pre,
    trace_of r =
      pre ++ [manifest_getManifest p;
              reporter_track events.manifestLoadFailed;
              reporter_captureError ("load manifest failed: " +:+ err);
              showErrorMessage ("Okteto: Up failed to load your Okteto manifest: " +:+ err);
              okteto_showTerminal].
Proof.
  intros r Hin Herr.
  destruct (up_shape_loaded (world env) r p (upCommand_shape fuel repository path env s) Hin)
    as (pre & Hpre & Hshape).
  rewrite Herr in Hshape. destruct Hshape as [Ho Ht].
  split; [exact Ho |]. split; [| exists pre; exact Ht].
  rewrite Ht, count_app, (before_load_no_launch _ Hpre). reflexivity.
Qed.

(** C7, as the code has it: an up command that loaded the manifest [m]
    from [p], with no namespace set in it.  When the cluster context reader
    answers a namespace [n] that is not the empty string, [okteto.up] is
    called exactly once, with [(p, n, m.name, kubeconfig)]; when the reader
    answers nothing (or the empty string), the command ends on the error
    message "Couldn't detect your current Kubernetes context." and
    [okteto.up] is never called. *)
Theorem upCommand_resolves_namespace fuel repository path env s p m :
  let r := upCommand state_ready state_failed fuel repository path env s in
  let w := world env in
  In (manifest_getManifest p) (trace_of r) ->
  getManifest w p = inr m ->
  truthy (namespace m) = false ->
  (forall n, getCurrentNamespace w (getKubeconfig w) = Some n -> n <> "" ->
     In (okteto_up p n (name m) (getKubeconfig w)) (trace_of r) /\
     count is_launch (trace_of r) = 1) /\
  (truthy (getCurrentNamespace w (getKubeconfig w)) = false ->
     outcome_of r = Return tt /\
     count is_launch (trace_of r) = 0 /\
     last (trace_of r) =
       Some (showErrorMessage "Couldn't detect your current Kubernetes context.")).
Proof.
  intros r w Hin Hm Hunset.
  destruct (up_shape_loaded w r p (upCommand_shape fuel repository path env s) Hin)
    as (pre & Hpre & Hshape).
  rewrite Hm in Hshape. unfold resolve_namespace in Hshape. rewrite Hunset in Hshape.
  split.
  - intros n Hn Hne. fold w in Hshape. rewrite Hn in Hshape.
    assert (Htruthy : truthy (Some n) = true).
    { simpl. apply negb_true_iff, String.eqb_neq, Hne. }
    rewrite Htruthy in Hshape. destruct Hshape as (post & Ht & Hpost).
    rewrite Ht. split.
    + apply in_or_app. right. apply in_or_app. left. right. left. reflexivity.
    + rewrite !count_app, (before_load_no_launch _ Hpre), (before_load_no_launch _ Hpost).
      reflexivity.
  - intros Hnone. fold w in Hshape. rewrite Hnone in Hshape. destruct Hshape as [Ho Ht].
    split; [exact Ho |]. rewrite Ht. split.
    + rewrite count_app, (before_load_no_launch _ Hpre). reflexivity.
    + rewrite last_app. reflexivity.
Qed.

End UpCommandProperties.

(** ** [installCmd] *)

(** C9: with [handleErr = true] the success notification is the last thing
    [installCmd] does, whether [okteto.install] rejects or not (when it
    rejects, the error message is shown before it); with [handleErr =
    false] a rejection propagates as "Okteto was not installed: ..." and no
    success notification is shown, and without a rejection the notification
    is shown. *)
Theorem installCmd_success_message (upgrade : bool) env s :
  let success : string :=
    if upgrade then "Okteto was successfully upgraded"
    else "Okteto was successfully installed" in
  let handled := installCmd upgrade true env s in
  let unhandled := installCmd upgrade false env s in
  (outcome_of handled = Return tt /\
   last (trace_of handled) = Some (showInformationMessage success) /\
   count is_success_message (trace_of handled) = 1) /\
  match install_error (world env) with
  | Some err =>
      In (showErrorMessage ("Okteto was not installed: " +:+ err)) (trace_of handled) /\
      outcome_of unhandled = Throw ("Okteto was not installed: " +:+ err) /\
      count is_success_message (trace_of unhandled) = 0
  | None =>
      outcome_of unhandled = Return tt /\
      last (trace_of unhandled) = Some (showInformationMessage success) /\
      count is_success_message (trace_of unhandled) = 1
  end.
Proof.
  unfold installCmd. run_cmd. simpl.
  destruct (install_error (world env)) as [err|], upgrade; simpl;
    repeat split; try reflexivity; auto 10.
Qed.

(** ** [downCommand] and [activeManifest] *)

Lemma getManifestOrAsk_active env s :
  truthy (activeManifest s) = true ->
  getManifestOrAsk env s = (Return (activeManifest s), s, []).
Proof. intros Ham. unfold getManifestOrAsk. run_cmd. rewrite Ham. reflexivity. Qed.

(** C10: a down command whose [okteto.down] rejects leaves
    [activeManifest] as it was, so that the next down command takes a set
    [activeManifest] again without asking; a down command changes the
    session only by the assignment [activeManifest = ''], and only after the
    one call of [okteto.down] it made succeeded; and a teardown that
    succeeded is always followed by that assignment. *)
Theorem downCommand_clears_activeManifest_on_success env s :
  let r := downCommand env s in
  (forall err, down_error (world env) = Some err ->
     activeManifest (session_of r) = activeManifest s /\
     forall env', truthy (activeManifest s) = true ->
       getManifestOrAsk env' (session_of r) =
       (Return (activeManifest s), session_of r, [])) /\
  (session_of r = s \/
   session_of r = cleared s /\ down_error (world env) = None /\
   count is_teardown (trace_of r) = 1) /\
  (down_error (world env) = None -> count is_teardown (trace_of r) = 1 ->
   activeManifest (session_of r) = Some "").
Proof.
  intros r. subst r.
  destruct (downCommand_cases env s) as [[Hs Hc] | [(Hs & Hc & err' & He) | (Hs & Hc & He)]];
    rewrite Hs.
  - split; [| split].
    + intros err _. split; [reflexivity |]. intros env' Ham.
      apply getManifestOrAsk_active, Ham.
    + left. reflexivity.
    + intros _ Hone. rewrite Hc in Hone. discriminate.
  - split; [| split].
    + intros err _. split; [reflexivity |]. intros env' Ham.
      apply getManifestOrAsk_active, Ham.
    + left. reflexivity.
    + intros Hnone. rewrite He in Hnone. discriminate.
  - split; [| split].
    + intros err Herr. rewrite He in Herr. discriminate.
    + right. repeat split; assumption.
    + intros _ _. reflexivity.
Qed.

(** ** The properties on sample worlds *)

Lemma waitForFinalState_times_out_witness :
  timeout <= 300 /\
  (forall j, j < timeout ->
     pending "ready" "failed"
       (getState (world (sample_env always_starting)) (polls (idle None 0) + j))) /\
  let r := waitForFinalState "ready" "failed" 300 "dev" "app"
             (sample_env always_starting) (idle None 0) in
  outcome_of r =
    Return {| result := false; final_message := "task didn't finish in 5 minutes" |} /\
  queries (trace_of r) = 300.
Proof.
  assert (H1 : timeout <= 300) by (rewrite timeout_value; lia).
  assert (H2 : forall j, j < timeout ->
            pending "ready" "failed"
              (getState (world (sample_env always_starting)) (polls (idle None 0) + j)))
    by (intros j _; simpl; split; discriminate).
  split; [exact H1 |]. split; [exact H2 |].
  pose proof (waitForFinalState_times_out "ready" "failed" 300 "dev" "app"
                (sample_env always_starting) (idle None 0) H1 H2) as H.
  cbv zeta in H. cbv zeta. destruct H as (Ho & Hq & _).
  split; [exact Ho | exact Hq].
Defined.

Lemma waitForFinalState_ready_witness :
  let r := waitForFinalState "ready" "failed" 300 "dev" "app"
             (sample_env ready_on_tick_3) (idle None 0) in
  outcome_of r = Return {| result := true; final_message := "" |} /\
  queries (trace_of r) = 3 + 1 /\
  polls (session_of r) = polls (idle None 0) + 3 + 1.
Proof.
  apply (waitForFinalState_ready "ready" "failed" 300 "dev" "app"
           (sample_env ready_on_tick_3) (idle None 0) 3
           {| state := "ready"; message := "" |}).
  - rewrite timeout_value. lia.
  - rewrite timeout_value. lia.
  - intros j Hj. destruct j as [|[|[|j]]]; simpl; try (split; discriminate). lia.
  - reflexivity.
  - reflexivity.
Defined.

Lemma waitForFinalState_failed_witness :
  let r := waitForFinalState "ready" "failed" 300 "dev" "app"
             (sample_env crash_loop) (idle None 0) in
  outcome_of r = Return {| result := false; final_message := "crash loop" |} /\
  queries (trace_of r) = 1 + 1 /\
  polls (session_of r) = polls (idle None 0) + 1 + 1.
Proof.
  apply (waitForFinalState_failed "ready" "failed" 300 "dev" "app"
           (sample_env crash_loop) (idle None 0) 1
           {| state := "failed"; message := "crash loop" |}).
  - discriminate.
  - rewrite timeout_value. lia.
  - rewrite timeout_value. lia.
  - intros j Hj. destruct j as [|j]; simpl; [split; discriminate | lia].
  - reflexivity.
  - reflexivity.
Defined.

Lemma waitForFinalState_query_rejects_witness :
  let r := waitForFinalState "ready" "failed" 300 "dev" "app"
             (sample_env unreachable_once) (idle None 0) in
  outcome_of r = Throw "connect ECONNREFUSED" /\
  queries (trace_of r) = 0 + 1 /\
  polls (session_of r) = polls (idle None 0) + 0 + 1 /\
  outcome_of (waitForUp "ready" "failed" 300 "dev" "app"
                (sample_env unreachable_once) (idle None 0)) =
    Throw "connect ECONNREFUSED".
Proof.
  apply (waitForFinalState_query_rejects "ready" "failed" 300 "dev" "app"
           (sample_env unreachable_once) (idle None 0) 0 "connect ECONNREFUSED").
  - rewrite timeout_value. lia.
  - rewrite timeout_value. lia.
  - intros j Hj. lia.
  - reflexivity.
Defined.

(** C6 as the claim states it fails: the first query rejects and the next
    one would answer ready, yet no second query is made and the attempt
    ends with the rejection of the first. *)
Lemma query_failure_is_not_retried :
  let r := waitForFinalState "ready" "failed" 300 "dev" "app"
             (sample_env unreachable_once) (idle None 0) in
  outcome_of r = Throw "connect ECONNREFUSED" /\
  queries (trace_of r) = 1 /\
  getState (world (sample_env unreachable_once)) 1 = answer "ready" "".
Proof. vm_compute. repeat split. Qed.

(** C1 as the claim states it fails.  The user cancels between the second
    and the third query.  In the first run the down command is dispatched
    and calls the teardown, yet the loop makes two more queries and the
    attempt ends ready: the last call the up command makes is the success
    notification.  In the second run the manifest no longer loads when the
    down command runs: the command is dispatched, the loop goes on in the
    same way, and no teardown is called at all. *)
Lemma cancellation_does_not_stop_the_loop :
  let w := sample_world ready_on_tick_3 (inr app_manifest) (Some "dev") in
  let r := upCommand "ready" "failed" 300 None None
             {| world := w; cancellation := Some (2, w) |} (idle None 0) in
  let w' := sample_world ready_on_tick_3 (inl "ENOENT") (Some "dev") in
  let r' := upCommand "ready" "failed" 300 None None
              {| world := w; cancellation := Some (2, w') |} (idle None 0) in
  (count is_down_dispatch (trace_of r) = 1 /\
   count is_teardown (trace_of r) = 1 /\
   queries (trace_of r) = 4 /\
   outcome_of r = Return tt /\
   last (own_calls (trace_of r)) =
     Some (showInformationMessage "Your development container is ready!")) /\
  (count is_down_dispatch (trace_of r') = 1 /\
   count is_teardown (trace_of r') = 0 /\
   queries (trace_of r') = 4 /\
   outcome_of r' = Return tt /\
   last (own_calls (trace_of r')) =
     Some (showInformationMessage "Your development container is ready!")).
Proof. vm_compute. repeat split. Qed.

Lemma upCommand_load_failure_witness :
  let env := {| world := sample_world always_starting (inl "bad indentation") (Some "dev");
                cancellation := None |} in
  let r := upCommand "ready" "failed" 300 None None env (idle None 0) in
  In (manifest_getManifest "/ws/okteto.yml") (trace_of r) /\
  getManifest (world env) "/ws/okteto.yml" = inl "bad indentation" /\
  outcome_of r = Return tt /\
  count is_launch (trace_of r) = 0.
Proof.
  intros env r.
  assert (H1 : In (manifest_getManifest "/ws/okteto.yml") (trace_of r))
    by (vm_compute; auto 10).
  assert (H2 : getManifest (world env) "/ws/okteto.yml" = inl "bad indentation")
    by reflexivity.
  split; [exact H1 |]. split; [exact H2 |].
  pose proof (upCommand_load_failure "ready" "failed" 300 None None env (idle None 0)
                "/ws/okteto.yml" "bad indentation" H1 H2) as (Ho & Hl & _).
  split; [exact Ho | exact Hl].
Defined.

Lemma upCommand_resolves_namespace_witness :
  let env := sample_env ready_on_tick_3 in
  let r := upCommand "ready" "failed" 300 None None env (idle None 0) in
  In (manifest_getManifest "/ws/okteto.yml") (trace_of r) /\
  getManifest (world env) "/ws/okteto.yml" = inr app_manifest /\
  truthy (namespace app_manifest) = false /\
  In (okteto_up "/ws/okteto.yml" "dev" "app" "/home/me/.kube/config") (trace_of r).
Proof.
  intros env r.
  assert (H1 : In (manifest_getManifest "/ws/okteto.yml") (trace_of r))
    by (vm_compute; auto 10).
  assert (H2 : getManifest (world env) "/ws/okteto.yml" = inr app_manifest) by reflexivity.
  assert (H3 : truthy (namespace app_manifest) = false) by reflexivity.
  split; [exact H1 |]. split; [exact H2 |]. split; [exact H3 |].
  pose proof (upCommand_resolves_namespace "ready" "failed" 300 None None env (idle None 0)
                "/ws/okteto.yml" app_manifest H1 H2 H3) as [H _].
  apply (H "dev"); [reflexivity | discriminate].
Defined.

(** C7 as the claim states it fails: the reader answers the empty string,
    which is a string and not nil; no launch is made, and the user is told
    that the context could not be detected. *)
Lemma empty_namespace_is_not_launched :
  let env := {| world := sample_world ready_on_tick_3 (inr app_manifest) (Some "");
                cancellation := None |} in
  let r := upCommand "ready" "failed" 300 None None env (idle None 0) in
  getCurrentNamespace (world env) (getKubeconfig (world env)) = Some "" /\
  count is_launch (trace_of r) = 0 /\
  last (trace_of r) =
    Some (showErrorMessage "Couldn't detect your current Kubernetes context.").
Proof. vm_compute. repeat split. Qed.

(** * More properties of the commands *)

Lemma calm_before_load e : calm_before e = true -> before_load e = true.
Proof. unfold calm_before. destruct (before_load e); [reflexivity | discriminate]. Qed.

(** What a sleep leaves in the trace: its timer and, when the cancellation
    is delivered there, the handler's event, the dispatch, and the calls of
    the down command. *)
Lemma sleep_trace ms env s :
  exists t_down,
    trace_of (sleep ms env s) =
    setTimeout 1000 ::
    (if fires env s
     then reporter_track events.upCancelled :: executeCommand "okteto.down" ::
          map (in_command "okteto.down") t_down
     else []).
Proof.
  unfold sleep, host_suspended, fires. run_cmd.
  destruct (cancellation env) as [[k w']|]; simpl; [| exists []; reflexivity].
  destruct (cancelListener s && (polls s =? k)); simpl; [| exists []; reflexivity].
  unfold onCancellationRequested_handler, spawn. run_cmd. simpl.
  destruct (downCommand _ _) as [[o s2] t2]. exists t2. reflexivity.
Qed.

Lemma sleep_safe_polls n ms : safe (fun s => polls s = n) calm_before (sleep ms).
Proof.
  intros env s Hs. split.
  - destruct (sleep_run ms env s) as (s' & t & -> & Hp & _).
    unfold session_of. cbn [fst snd]. congruence.
  - pose proof (sleep_safe ms env s Logic.I) as [_ Hload].
    destruct (sleep_trace ms env s) as (t_down & Ht).
    apply Forall_forall. intros e He.
    unfold calm_before.
    rewrite (proj1 (Forall_forall _ _) Hload e He). cbn [andb].
    rewrite Ht in He.
    apply elem_of_cons in He as [-> | He]; [reflexivity |].
    destruct (fires env s); [| inversion He].
    apply elem_of_cons in He as [-> | He]; [reflexivity |].
    apply elem_of_cons in He as [-> | He]; [reflexivity |].
    apply list_elem_of_fmap in He as (e' & -> & _). reflexivity.
Qed.

Lemma installCmd_calm I upgrade handleErr : safe I calm_before (installCmd upgrade handleErr).
Proof. unfold installCmd, okteto_install_call. destruct upgrade; safe_auto. Qed.

Lemma showManifestPicker_calm I : safe I calm_before showManifestPicker.
Proof. unfold showManifestPicker. safe_auto. Qed.

Ltac safe_known ::=
  first [ apply sleep_safe_polls | apply installCmd_calm | apply showManifestPicker_calm ].

Lemma showWorkspacePicker_safe_polls n repository :
  safe (fun s => polls s = n) calm_before (showWorkspacePicker repository).
Proof. unfold showWorkspacePicker. safe_auto. Qed.

Section UpCommandRuns.

Variables state_ready state_failed : string.

Local Abbreviation loop := (waitForFinalState_loop state_ready state_failed).

Lemma up_tail_safe fuel p ns nm :
  safe (fun _ => True) before_load (up_tail state_ready state_failed fuel p ns nm).
Proof.
  unfold up_tail.
  apply safe_bind; [apply safe_set_activeManifest; intros; exact Logic.I |]. intros _.
  apply safe_bind.
  - apply safe_try_catch.
    + apply safe_bind; [apply waitForUp_safe | intros; apply safe_ret].
    + intros err. safe_auto.
  - intros up. destruct up; [apply finalizeUp_safe | apply safe_ret].
Qed.

Lemma up_run_shape_prefix fuel env n o s t1 t2 :
  Forall (fun e => calm_before e = true) t1 ->
  up_run_shape state_ready state_failed fuel env n (o, s, t2) ->
  up_run_shape state_ready state_failed fuel env n (o, s, t1 ++ t2).
Proof.
  intros Ht1 [Hclean | (pre & p & Hpre & Hshape)].
  - left. apply Forall_app. split; assumption.
  - right. exists (t1 ++ pre), p. split; [apply Forall_app; split; assumption |].
    unfold outcome_of, trace_of in *. cbn [fst snd] in *.
    destruct (getManifest (world env) p) as [err|m].
    + rewrite Hshape, app_assoc. reflexivity.
    + destruct (resolve_namespace (world env) m) as [ns|].
      * destruct Hshape as (s5 & Hp & Hr). exists s5. split; [exact Hp |].
        injection Hr as -> -> ->. f_equal. rewrite <- !app_assoc. reflexivity.
      * rewrite Hshape, app_assoc. reflexivity.
Qed.

Lemma up_run_shape_bind {A} fuel n (m : Cmd A) (k : A -> Cmd unit) env s :
  safe (fun s => polls s = n) calm_before m ->
  (forall a s1, polls s1 = n -> up_run_shape state_ready state_failed fuel env n (k a env s1)) ->
  polls s = n ->
  up_run_shape state_ready state_failed fuel env n (bind m k env s).
Proof.
  intros Hm Hk Hs. destruct (Hm env s Hs) as [Hs1 Ht1].
  unfold bind, session_of, trace_of in *.
  destruct (m env s) as [[[a|err|] s1] t1]; cbn [fst snd] in *;
    [| left; exact Ht1 | left; exact Ht1].
  specialize (Hk a s1 Hs1). destruct (k a env s1) as [[o2 s2] t2].
  apply up_run_shape_prefix; assumption.
Qed.

Lemma upCommand_run_shape fuel repository path env s :
  up_run_shape state_ready state_failed fuel env (polls s)
    (upCommand state_ready state_failed fuel repository path env s).
Proof.
  unfold upCommand.
  assert (Hask : forall (k : World -> Cmd unit),
            up_run_shape state_ready state_failed fuel env (polls s) (k (world env) env s) ->
            up_run_shape state_ready state_failed fuel env (polls s) (bind ask k env s)).
  { intros k Hk. unfold bind, ask. destruct (k (world env) env s) as [[o2 s2] t2]. exact Hk. }
  apply Hask. clear Hask.
  apply up_run_shape_bind; [safe_auto; apply showWorkspacePicker_safe_polls | | reflexivity].
  intros _ s1 Hs1.
  destruct (needsInstall (world env)) as [install upgrade].
  apply up_run_shape_bind; [safe_auto | | exact Hs1]. intros proceed s2 Hs2.
  destruct proceed; cbn [negb]; [| left; constructor].
  apply up_run_shape_bind; [safe_auto | | exact Hs2]. intros manifestUri s3 Hs3.
  destruct manifestUri as [uri|]; [| left; repeat constructor].
  apply up_run_shape_bind; [safe_auto | | exact Hs3]. intros _ s4 Hs4.
  cbv zeta.
  apply up_run_shape_bind; [safe_auto | | exact Hs4]. intros _ s5 Hs5.
  right. exists [], (fsPath uri). split; [constructor |].
  pose proof (load_step "Okteto: Up failed to load your Okteto manifest: " env s5 (fsPath uri))
    as Hload.
  destruct (getManifest (world env) (fsPath uri)) as [err|m].
  { rewrite (bind_return _ _ _ _ _ _ _ Hload). reflexivity. }
  rewrite (bind_return _ _ _ _ _ _ _ Hload).
  rewrite (bind_return _ _ _ _ _ _ _ (resolve_step env s5 m)).
  destruct (resolve_namespace (world env) m) as [ns|]; [| reflexivity].
  exists s5. split; [exact Hs5 |].
  change (set_activeManifest (fsPath uri) ;;
          up <- try_catch (waitForUp state_ready state_failed fuel ns (name m) ;; ret true)
                  (fun err =>
                     captureError ("okteto up failed: " +:+ err) ;;
                     onOktetoFailed err ;;
                     ret false) ;;
          if up then finalizeUp ns (name m) else ret tt)%cmd
    with (up_tail state_ready state_failed fuel (fsPath uri) ns (name m)).
  generalize (up_tail state_ready state_failed fuel (fsPath uri) ns (name m)). intros tail.
  unfold bind, emit, outcome_of, session_of, trace_of. cbv beta iota.
  destruct (tail env s5) as [[o2 s6] t2]. reflexivity.
Qed.

(** The manifest an up command loads and the session of its launch. *)
Lemma upCommand_launched fuel repository path env s p m ns :
  let r := upCommand state_ready state_failed fuel repository path env s in
  let tail := up_tail state_ready state_failed fuel p ns (name m) in
  In (manifest_getManifest p) (trace_of r) ->
  getManifest (world env) p = inr m ->
  resolve_namespace (world env) m = Some ns ->
  exists pre s5,
    Forall (fun e => calm_before e = true) pre /\
    polls s5 = polls s /\
    r = (outcome_of (tail env s5), session_of (tail env s5),
         pre ++ [manifest_getManifest p; okteto_up p ns (name m) (getKubeconfig (world env))]
             ++ trace_of (tail env s5)).
Proof.
  intros r tail Hin Hm Hns. subst tail.
  destruct (upCommand_run_shape fuel repository path env s)
    as [Hclean | (pre & p' & Hcalm & Hshape)]; fold r in Hclean || fold r in Hshape.
  - destruct (before_load_no_load p _ (Forall_impl _ _ _ Hclean calm_before_load) Hin).
  - pose proof (Forall_impl _ _ _ Hcalm calm_before_load) as Hpre.
    assert (p = p') as <-.
    { destruct (getManifest (world env) p') as [err'|m'].
      - rewrite Hshape in Hin. apply in_app_or in Hin as [Hin | Hin];
          [destruct (before_load_no_load p _ Hpre Hin) |].
        simpl in Hin. intuition congruence.
      - destruct (resolve_namespace (world env) m') as [ns'|].
        + destruct Hshape as (s5 & _ & Hr). rewrite Hr in Hin.
          unfold trace_of at 1 in Hin. cbn [snd] in Hin.
          apply in_app_or in Hin as [Hin | Hin];
            [destruct (before_load_no_load p _ Hpre Hin) |].
          apply in_app_or in Hin as [Hin | Hin].
          * simpl in Hin. intuition congruence.
          * destruct (before_load_no_load p _
                        (proj2 (up_tail_safe fuel p' ns' (name m') env s5 Logic.I)) Hin).
        + rewrite Hshape in Hin. apply in_app_or in Hin as [Hin | Hin];
            [destruct (before_load_no_load p _ Hpre Hin) |].
          simpl in Hin. intuition congruence. }
    rewrite Hm, Hns in Hshape. destruct Hshape as (s5 & Hp & Hr).
    exists pre, s5. split; [exact Hcalm |]. split; [exact Hp | exact Hr].
Qed.

(** After the launch: the wait under the progress notification, then what
    the user is told. *)
Lemma up_tail_unfold fuel p ns nm env s :
  let rF := waitForFinalState state_ready state_failed fuel ns nm env
              (listening (activated p s)) in
  up_tail state_ready state_failed fuel p ns nm env s =
  (match outcome_of rF with OutOfFuel => OutOfFuel | _ => Return tt end,
   released (session_of rF),
   withProgress_start None true :: trace_of rF ++ up_epilogue ns nm (outcome_of rF)).
Proof.
  cbv zeta. unfold up_tail.
  unfold bind at 1. unfold set_activeManifest at 1. cbv beta iota. fold (activated p s).
  unfold bind at 1. unfold try_catch at 1. unfold bind at 1.
  rewrite waitForUp_unfold. cbv zeta.
  unfold outcome_of, session_of, trace_of.
  destruct (waitForFinalState state_ready state_failed fuel ns nm env
              (listening (activated p s))) as [[[res|err|] s1] t1];
    cbn [fst snd waitForUp_settles up_epilogue].
  - destruct (result res); cbn [negb fst snd]; unfold finalizeUp; run_cmd; simpl;
      rewrite <- ?app_assoc; reflexivity.
  - run_cmd. simpl. rewrite <- ?app_assoc, ?app_nil_r. reflexivity.
  - simpl. rewrite ?app_nil_r. reflexivity.
Qed.

(** The wait ends on the first tick whose answer is ready, failed or a
    rejection, with that answer's outcome. *)
Lemma waitForFinalState_ends fuel ns nm env s k :
  timeout <= fuel -> k < timeout ->
  (forall j, j < k ->
     pending state_ready state_failed (getState (world env) (polls s + j))) ->
  ~ pending state_ready state_failed (getState (world env) (polls s + k)) ->
  let r := waitForFinalState state_ready state_failed fuel ns nm env s in
  outcome_of r = terminal_outcome state_ready (getState (world env) (polls s + k)) /\
  queries (trace_of r) = k + 1 /\
  polls (session_of r) = polls s + k + 1.
Proof.
  intros Hfuel Hk Hpend Hend r. subst r.
  destruct (waitForFinalState_tick state_ready state_failed fuel ns nm env s k Hfuel Hk Hpend)
    as (seen' & s' & t & fuel' & Hp & Hq & _ & _ & Hrun).
  rewrite Hrun, loop_unfold, Hp.
  destruct (getState (world env) (polls s + k)) as [err|res].
  - unfold outcome_of, session_of, trace_of. cbn [fst snd terminal_outcome].
    split; [reflexivity |]. split; [| simpl; lia].
    unfold queries in *. count_split. rewrite Hq. lia.
  - cbv zeta. unfold terminal_outcome.
    destruct (String.eqb state_ready (state res)) eqn:Hr.
    + unfold outcome_of, session_of, trace_of. cbn [fst snd].
      split; [reflexivity |]. split; [| simpl; lia].
      unfold queries in *. count_split.
      rewrite Hq, (proj1 (tick_effects_counts _ _ _)). lia.
    + destruct (String.eqb state_failed (state res)) eqn:Hf.
      * unfold outcome_of, session_of, trace_of. cbn [fst snd].
        split; [reflexivity |]. split; [| simpl; lia].
        unfold queries in *. count_split.
        rewrite Hq, (proj1 (tick_effects_counts _ _ _)). lia.
      * exfalso. apply Hend. simpl. apply String.eqb_neq in Hr, Hf.
        split; congruence.
Qed.

(** The wait of a loop whose answers all go on ends in the timeout. *)
Lemma waitForFinalState_ends_timed_out fuel ns nm env s :
  timeout <= fuel ->
  (forall j, j < timeout ->
     pending state_ready state_failed (getState (world env) (polls s + j))) ->
  outcome_of (waitForFinalState state_ready state_failed fuel ns nm env s) =
  Return timed_out.
Proof.
  intros Hfuel Hpend.
  destruct (waitForFinalState_tick state_ready state_failed fuel ns nm env s (timeout - 1))
    as (seen' & s' & t & fuel' & Hp & _ & _ & _ & Hrun).
  { exact Hfuel. } { rewrite timeout_value. lia. }
  { intros j Hj. apply Hpend. lia. }
  rewrite Hrun, loop_unfold, Hp.
  pose proof (Hpend (timeout - 1) ltac:(rewrite timeout_value; lia)) as Hlast.
  destruct (getState (world env) (polls s + (timeout - 1))) as [err|res]; [destruct Hlast |].
  destruct Hlast as [Hr Hf]. cbv zeta.
  rewrite (proj2 (String.eqb_neq _ _)) by congruence.
  rewrite (proj2 (String.eqb_neq _ _)) by congruence.
  rewrite (proj2 (Nat.eqb_eq _ _)) by (rewrite timeout_value; lia).
  reflexivity.
Qed.

(** An up command that launched: its trace is the launch, the trace of the
    wait, and what the user is told about the wait's outcome. *)
Lemma upCommand_after_launch fuel repository path env s p m ns :
  let r := upCommand state_ready state_failed fuel repository path env s in
  In (manifest_getManifest p) (trace_of r) ->
  getManifest (world env) p = inr m ->
  resolve_namespace (world env) m = Some ns ->
  exists pre s5,
    Forall (fun e => calm_before e = true) pre /\
    polls s5 = polls s /\
    let rF := waitForFinalState state_ready state_failed fuel ns (name m) env
                (listening (activated p s5)) in
    outcome_of r = match outcome_of rF with OutOfFuel => OutOfFuel | _ => Return tt end /\
    session_of r = released (session_of rF) /\
    trace_of r =
      (pre ++ [manifest_getManifest p; okteto_up p ns (name m) (getKubeconfig (world env));
               withProgress_start None true] ++ trace_of rF) ++
      up_epilogue ns (name m) (outcome_of rF).
Proof.
  intros r Hin Hm Hns.
  destruct (upCommand_launched fuel repository path env s p m ns Hin Hm Hns)
    as (pre & s5 & Hpre & Hp & Hr).
  exists pre, s5. split; [exact Hpre |]. split; [exact Hp |]. cbv zeta.
  fold r in Hr. rewrite Hr, up_tail_unfold. cbv zeta.
  unfold outcome_of at 1 3, session_of at 1 3, trace_of at 1 3. cbn [fst snd].
  split; [reflexivity |]. split; [reflexivity |].
  rewrite <- !app_assoc. reflexivity.
Qed.

(** The polls of the wait an up command starts are those that follow the
    queries made before the command. *)
Lemma wait_polls p (s s5 : Session) :
  polls s5 = polls s -> polls (listening (activated p s5)) = polls s.
Proof. intros H. exact H. Qed.

(** X1: an up command that launched and whose wait sees the ready state
    (on a tick it reaches) ends like [finalizeUp]: it tracks [upReady] and
    [upFinished], arms [okteto.notifyIfFailed], and its last effect is the
    notification "Your development container is ready!". *)
Theorem upCommand_tells_ready fuel repository path env s p m ns k res :
  let r := upCommand state_ready state_failed fuel repository path env s in
  In (manifest_getManifest p) (trace_of r) ->
  getManifest (world env) p = inr m ->
  resolve_namespace (world env) m = Some ns ->
  timeout <= fuel -> k < timeout ->
  (forall j, j < k ->
     pending state_ready state_failed (getState (world env) (polls s + j))) ->
  getState (world env) (polls s + k) = inr res ->
  state res = state_ready ->
  outcome_of r = Return tt /\
  exists pre,
    trace_of r =
      pre ++ [reporter_track events.upReady; reporter_track events.upFinished;
              okteto_notifyIfFailed ns (name m);
              showInformationMessage "Your development container is ready!"].
Proof.
  intros r Hin Hm Hns Hfuel Hk Hpend Hres Hready.
  destruct (upCommand_after_launch fuel repository path env s p m ns Hin Hm Hns)
    as (pre & s5 & _ & Hp & Ho & _ & Ht).
  cbv zeta in Ho, Ht. fold r in Ho, Ht.
  destruct (waitForFinalState_ends fuel ns (name m) env (listening (activated p s5)) k)
    as (Hend & _); try assumption.
  { intros j Hj. rewrite (wait_polls p s s5 Hp). apply Hpend, Hj. }
  { rewrite (wait_polls p s s5 Hp), Hres. simpl. intros [Hne _]. congruence. }
  rewrite (wait_polls p s s5 Hp), Hres in Hend. unfold terminal_outcome in Hend.
  rewrite (proj2 (String.eqb_eq _ _)) in Hend by congruence.
  rewrite Hend in Ho, Ht. split; [exact Ho |].
  eexists. exact Ht.
Qed.

(** X2: an up command that launched and whose wait sees the failed state
    with message [msg] tells the user "Okteto: Up command failed: msg":
    it tracks [oktetoUpFailed], logs [msg] as an error, captures the error,
    shows the message and, last, shows the okteto terminal; the command
    itself returns normally. *)
Theorem upCommand_tells_failure fuel repository path env s p m ns k res :
  let r := upCommand state_ready state_failed fuel repository path env s in
  state_ready <> state_failed ->
  In (manifest_getManifest p) (trace_of r) ->
  getManifest (world env) p = inr m ->
  resolve_namespace (world env) m = Some ns ->
  timeout <= fuel -> k < timeout ->
  (forall j, j < k ->
     pending state_ready state_failed (getState (world env) (polls s + j))) ->
  getState (world env) (polls s + k) = inr res ->
  state res = state_failed ->
  outcome_of r = Return tt /\
  exists pre,
    trace_of r =
      pre ++ [reporter_track events.oktetoUpFailed; console_error (message res);
              reporter_captureError
                ("okteto up failed: " +:+ "Okteto: Up command failed: " +:+ message res);
              showErrorMessage ("Okteto: Up command failed: " +:+ message res);
              okteto_showTerminal].
Proof.
  intros r Hneq Hin Hm Hns Hfuel Hk Hpend Hres Hfailed.
  destruct (upCommand_after_launch fuel repository path env s p m ns Hin Hm Hns)
    as (pre & s5 & _ & Hp & Ho & _ & Ht).
  cbv zeta in Ho, Ht. fold r in Ho, Ht.
  destruct (waitForFinalState_ends fuel ns (name m) env (listening (activated p s5)) k)
    as (Hend & _); try assumption.
  { intros j Hj. rewrite (wait_polls p s s5 Hp). apply Hpend, Hj. }
  { rewrite (wait_polls p s s5 Hp), Hres. simpl. intros [_ Hne]. congruence. }
  rewrite (wait_polls p s s5 Hp), Hres in Hend. unfold terminal_outcome in Hend.
  rewrite (proj2 (String.eqb_neq _ _)) in Hend by congruence.
  rewrite Hend in Ho, Ht. split; [exact Ho |].
  eexists. exact Ht.
Qed.

(** X3: an up command that launched and whose wait runs through its 300
    ticks tells the user "Okteto: Up command failed: task didn't finish in 5
    minutes", in the same way as for a failed state. *)
Theorem upCommand_tells_timeout fuel repository path env s p m ns :
  let r := upCommand state_ready state_failed fuel repository path env s in
  In (manifest_getManifest p) (trace_of r) ->
  getManifest (world env) p = inr m ->
  resolve_namespace (world env) m = Some ns ->
  timeout <= fuel ->
  (forall j, j < timeout ->
     pending state_ready state_failed (getState (world env) (polls s + j))) ->
  outcome_of r = Return tt /\
  exists pre,
    trace_of r =
      pre ++ [reporter_track events.oktetoUpFailed;
              console_error "task didn't finish in 5 minutes";
              reporter_captureError
                ("okteto up failed: " +:+ "Okteto: Up command failed: " +:+
                 "task didn't finish in 5 minutes");
              showErrorMessage
                ("Okteto: Up command failed: " +:+ "task didn't finish in 5 minutes");
              okteto_showTerminal].
Proof.
  intros r Hin Hm Hns Hfuel Hpend.
  destruct (upCommand_after_launch fuel repository path env s p m ns Hin Hm Hns)
    as (pre & s5 & _ & Hp & Ho & _ & Ht).
  cbv zeta in Ho, Ht. fold r in Ho, Ht.
  assert (Hend : outcome_of (waitForFinalState state_ready state_failed fuel ns (name m) env
                               (listening (activated p s5))) = Return timed_out).
  { apply waitForFinalState_ends_timed_out; [exact Hfuel |].
    intros j Hj. rewrite (wait_polls p s s5 Hp). apply Hpend, Hj. }
  rewrite Hend in Ho, Ht.
  split; [exact Ho |]. eexists. exact Ht.
Qed.

(** X4: an up command that launched and whose query rejects with [err] (on
    a tick it reaches) captures "okteto up failed: err", shows [err] itself
    as the error message and, last, shows the okteto terminal; the command
    returns normally. *)
Theorem upCommand_tells_rejection fuel repository path env s p m ns k err :
  let r := upCommand state_ready state_failed fuel repository path env s in
  In (manifest_getManifest p) (trace_of r) ->
  getManifest (world env) p = inr m ->
  resolve_namespace (world env) m = Some ns ->
  timeout <= fuel -> k < timeout ->
  (forall j, j < k ->
     pending state_ready state_failed (getState (world env) (polls s + j))) ->
  getState (world env) (polls s + k) = inl err ->
  outcome_of r = Return tt /\
  exists pre,
    trace_of r =
      pre ++ [reporter_captureError ("okteto up failed: " +:+ err);
              showErrorMessage err; okteto_showTerminal].
Proof.
  intros r Hin Hm Hns Hfuel Hk Hpend Hres.
  destruct (upCommand_after_launch fuel repository path env s p m ns Hin Hm Hns)
    as (pre & s5 & _ & Hp & Ho & _ & Ht).
  cbv zeta in Ho, Ht. fold r in Ho, Ht.
  destruct (waitForFinalState_ends fuel ns (name m) env (listening (activated p s5)) k)
    as (Hend & _); try assumption.
  { intros j Hj. rewrite (wait_polls p s s5 Hp). apply Hpend, Hj. }
  { rewrite (wait_polls p s s5 Hp), Hres. simpl. tauto. }
  rewrite (wait_polls p s s5 Hp), Hres in Hend. unfold terminal_outcome in Hend.
  rewrite Hend in Ho, Ht. split; [exact Ho |].
  eexists. exact Ht.
Qed.

(** ** [activeManifest] along an up command *)

Lemma sleep_activeManifest ms env s :
  (activeManifest (session_of (sleep ms env s)) = activeManifest s \/
   activeManifest (session_of (sleep ms env s)) = Some "") /\
  (cancellation env = None -> session_of (sleep ms env s) = s).
Proof.
  split.
  - unfold sleep, host_suspended. run_cmd.
    destruct (cancellation env) as [[k w']|]; simpl; [| left; reflexivity].
    destruct (cancelListener s && (polls s =? k)); simpl; [| left; reflexivity].
    unfold onCancellationRequested_handler, spawn. run_cmd. simpl.
    set (s1 := {| activeManifest := activeManifest s; polls := polls s;
                  cancelListener := false |}).
    set (env' := {| world := w'; cancellation := None |}).
    pose proof (downCommand_cases env' s1) as Hcases.
    unfold session_of, trace_of in *.
    destruct (downCommand env' s1) as [[o s2] t2]; simpl in *.
    destruct Hcases as [[-> _] | [[-> _] | [-> _]]]; simpl; auto.
  - intros Hnone.
    destruct (sleep_run ms env s) as (s' & t & Hs & _ & _ & _ & _ & _ & Hsame).
    rewrite Hs. unfold session_of. cbn [fst snd].
    apply Hsame. unfold fires. rewrite Hnone. reflexivity.
Qed.

Lemma loop_activeManifest fuel : forall ns nm seen counter env s,
  (activeManifest (session_of (loop fuel ns nm seen counter env s)) = activeManifest s \/
   activeManifest (session_of (loop fuel ns nm seen counter env s)) = Some "") /\
  (cancellation env = None ->
   activeManifest (session_of (loop fuel ns nm seen counter env s)) = activeManifest s).
Proof.
  induction fuel as [|fuel IH]; intros ns nm seen counter env s.
  { split; [left |]; reflexivity. }
  rewrite loop_unfold.
  destruct (getState (world env) (polls s)) as [err|res].
  { split; [left |]; reflexivity. }
  cbv zeta.
  destruct (String.eqb state_ready (state res)); [split; [left |]; reflexivity |].
  destruct (String.eqb state_failed (state res)); [split; [left |]; reflexivity |].
  destruct (counter + 1 =? timeout); [split; [left |]; reflexivity |].
  destruct (sleep_activeManifest 1000 env (polled s)) as [Hs Hs0].
  destruct (IH ns nm (<[state res := true]> seen) (counter + 1) env
              (session_of (sleep 1000 env (polled s)))) as [Hl Hl0].
  change (activeManifest (polled s)) with (activeManifest s) in Hs.
  unfold session_of in *. cbn [fst snd] in *.
  split.
  - destruct Hl as [Hl | Hl]; [| right; exact Hl].
    rewrite Hl. exact Hs.
  - intros Hnone. rewrite (Hl0 Hnone), (Hs0 Hnone). reflexivity.
Qed.

(** X5: from the launch on, [activeManifest] is the path of the launched
    manifest: whatever the wait ends with (ready, failed, timed out, a
    rejected query), the up command leaves [activeManifest] at that path,
    unless the down command of a cancellation cleared it to ['']; without a
    cancellation it is that path. *)
Theorem upCommand_sets_activeManifest fuel repository path env s p m ns :
  let r := upCommand state_ready state_failed fuel repository path env s in
  In (manifest_getManifest p) (trace_of r) ->
  getManifest (world env) p = inr m ->
  resolve_namespace (world env) m = Some ns ->
  (activeManifest (session_of r) = Some p \/ activeManifest (session_of r) = Some "") /\
  (cancellation env = None -> activeManifest (session_of r) = Some p).
Proof.
  intros r Hin Hm Hns.
  destruct (upCommand_after_launch fuel repository path env s p m ns Hin Hm Hns)
    as (pre & s5 & _ & _ & _ & Hs & _).
  cbv zeta in Hs. fold r in Hs. rewrite Hs, waitForFinalState_unfold.
  pose proof (loop_activeManifest fuel ns (name m) ∅ 0 env (listening (activated p s5)))
    as Hloop.
  unfold session_of in *. cbn [fst snd] in *. exact Hloop.
Qed.

End UpCommandRuns.

(** ** How [downCommand] runs *)

Lemma unprompted_silent e : unprompted e = true -> silent e = true.
Proof. unfold unprompted. destruct (silent e); [reflexivity | discriminate]. Qed.

Ltac safe_known ::= fail.

Lemma installCmd_unprompted I upgrade handleErr :
  safe I unprompted (installCmd upgrade handleErr).
Proof. unfold installCmd, okteto_install_call. safe_auto. Qed.

Lemma down_shape_prefix env s o s' t1 t2 :
  Forall (fun e => silent e = true) t1 ->
  (truthy (activeManifest s) = true -> Forall (fun e => unprompted e = true) t1) ->
  down_shape env s (o, s', t2) -> down_shape env s (o, s', t1 ++ t2).
Proof.
  intros Ht1 Hu1 [(Hs & Hclean & Hu) | (pre & p & Hpre & Ham & Hshape)].
  - left. split; [exact Hs |]. split; [apply Forall_app; split; assumption |].
    intros Htruthy. apply Forall_app. split; [apply Hu1 | apply Hu]; exact Htruthy.
  - right. exists (t1 ++ pre), p. split; [apply Forall_app; split; assumption |].
    split.
    { intros Htruthy. destruct (Ham Htruthy) as [Hp Hu]. split; [exact Hp |].
      apply Forall_app. split; [apply Hu1, Htruthy | exact Hu]. }
    unfold session_of, trace_of in *. cbn [fst snd] in *.
    destruct (getManifest (world env) p) as [err|m].
    { destruct Hshape as [Hs ->]. split; [exact Hs |]. rewrite app_assoc. reflexivity. }
    destruct (resolve_namespace (world env) m) as [ns|].
    2: { destruct Hshape as [Hs ->]. split; [exact Hs |]. rewrite app_assoc. reflexivity. }
    destruct (down_error (world env)) as [err|];
      destruct Hshape as [Hs ->]; (split; [exact Hs |]); rewrite app_assoc; reflexivity.
Qed.

Lemma down_shape_bind {A} (P : Effect -> bool) (m : Cmd A) (k : A -> Cmd unit) env s :
  safe (fun s' => s' = s) P m ->
  (forall e, P e = true -> silent e = true) ->
  (truthy (activeManifest s) = true -> forall e, P e = true -> unprompted e = true) ->
  (forall a, down_shape env s (k a env s)) ->
  down_shape env s (bind m k env s).
Proof.
  intros Hm HP HPu Hk. destruct (Hm env s eq_refl) as [Hs1 Ht1].
  unfold bind, session_of, trace_of in *.
  destruct (m env s) as [[[a|err|] s1] t1]; cbn [fst snd] in *; subst s1.
  - specialize (Hk a). destruct (k a env s) as [[o2 s2] t2].
    apply down_shape_prefix; [| | exact Hk].
    + eapply Forall_impl; [exact Ht1 | exact HP].
    + intros Ham. eapply Forall_impl; [exact Ht1 | exact (HPu Ham)].
  - left. split; [reflexivity |]. split; [eapply Forall_impl; [exact Ht1 | exact HP] |].
    intros Ham. eapply Forall_impl; [exact Ht1 | exact (HPu Ham)].
  - left. split; [reflexivity |]. split; [eapply Forall_impl; [exact Ht1 | exact HP] |].
    intros Ham. eapply Forall_impl; [exact Ht1 | exact (HPu Ham)].
Qed.

Lemma downCommand_shape env s : down_shape env s (downCommand env s).
Proof.
  unfold downCommand.
  assert (Hask : forall (k : World -> Cmd unit),
            down_shape env s (k (world env) env s) -> down_shape env s (bind ask k env s)).
  { intros k Hk. unfold bind, ask. destruct (k (world env) env s) as [[o2 s2] t2]. exact Hk. }
  apply Hask. clear Hask.
  destruct (needsInstall (world env)) as [install upgrade].
  apply (down_shape_bind unprompted);
    [| exact unprompted_silent | intros _ e He; exact He |].
  { destruct install; [| apply safe_ret].
    apply safe_try_catch; [| intros err; safe_auto].
    apply safe_bind; [apply installCmd_unprompted | intros; apply safe_ret]. }
  intros proceed. destruct proceed; cbn [negb];
    [| left; split; [reflexivity | split; [constructor | intros; constructor]]].
  apply (down_shape_bind unprompted);
    [safe_auto | exact unprompted_silent | intros _ e He; exact He |].
  intros _.
  assert (Hrest : forall p, (truthy (activeManifest s) = true -> activeManifest s = Some p) ->
    down_shape env s
      ((loaded <- try_catch (m <- getManifest_call p ;; ret (Some m))
                    (fun err =>
                       track events.manifestLoadFailed ;;
                       captureError ("load manifest failed: " +:+ err) ;;
                       onOktetoFailed
                         ("Okteto: Down failed to load your Okteto manifest: " +:+ err) ;;
                       ret None) ;;
        match loaded with
        | None => ret tt
        | Some m =>
            let kubeconfig := getKubeconfig (world env) in
            resolved <- (if negb (truthy (namespace m)) then
                           let ns := getCurrentNamespace (world env) kubeconfig in
                           if negb (truthy ns) then
                             emit (showErrorMessage
                                     "Couldn't detect your current Kubernetes context.") ;;
                             ret None
                           else ret ns
                         else ret (namespace m)) ;;
            match resolved with
            | None => ret tt
            | Some ns =>
                try_catch
                  (okteto_down_call p ns kubeconfig ;;
                   set_activeManifest "" ;;
                   emit (showInformationMessage "Okteto environment deactivated") ;;
                   track events.downFinished)
                  (fun err =>
                     track events.oktetoDownFailed ;;
                     captureError ("okteto down failed: " +:+ err) ;;
                     emit (showErrorMessage ("Okteto: Down failed: " +:+ err)))
            end
        end)%cmd env s)).
  { intros p Hp. right. exists [], p. split; [constructor |].
    split; [intros Ham; split; [exact (Hp Ham) | constructor] |].
    pose proof (load_step "Okteto: Down failed to load your Okteto manifest: " env s p)
      as Hload.
    destruct (getManifest (world env) p) as [err|m].
    { rewrite (bind_return _ _ _ _ _ _ _ Hload). split; reflexivity. }
    rewrite (bind_return _ _ _ _ _ _ _ Hload). cbv zeta.
    rewrite (bind_return _ _ _ _ _ _ _ (resolve_step env s m)).
    destruct (resolve_namespace (world env) m) as [ns|]; [| split; reflexivity].
    unfold okteto_down_call. run_cmd. simpl.
    destruct (down_error (world env)) as [err|]; split; reflexivity. }
  destruct (truthy (activeManifest s)) eqn:Ham.
  - rewrite (bind_return _ _ _ _ _ _ _ (getManifestOrAsk_active env s Ham)).
    rewrite Ham. cbn [negb app]. rewrite <- result_eta.
    destruct (activeManifest s) as [p|] eqn:Hp; [| discriminate].
    apply Hrest. reflexivity.
  - apply (down_shape_bind silent);
      [apply getManifestOrAsk_safe | intros e He; exact He | intros H; congruence |].
    intros manifestPath.
    destruct (truthy manifestPath); cbn [negb];
      [| left; split; [reflexivity | split; [constructor | intros; constructor]]].
    apply Hrest. intros H. congruence.
Qed.

Lemma silent_no_load p t :
  Forall (fun e => silent e = true) t -> ~ In (manifest_getManifest p) t.
Proof.
  intros Ht Hin. apply (proj1 (List.Forall_forall _ _) Ht) in Hin. discriminate.
Qed.

Lemma silent_no_teardown t :
  Forall (fun e => silent e = true) t -> count is_teardown t = 0.
Proof.
  intros Ht. apply count_none. eapply Forall_impl; [exact Ht |].
  intros e He. unfold silent in He.
  destruct (is_teardown e); [| reflexivity].
  rewrite andb_false_r in He. discriminate.
Qed.

Lemma unprompted_no_picker t :
  Forall (fun e => unprompted e = true) t -> count is_picker t = 0.
Proof.
  intros Ht. apply count_none. eapply Forall_impl; [exact Ht |].
  intros e He. unfold unprompted in He.
  destruct (is_picker e); [| reflexivity].
  rewrite andb_false_r in He. discriminate.
Qed.

(** The manifest a down command loads is the one its shape names. *)
Lemma downCommand_loaded env s p :
  let r := downCommand env s in
  In (manifest_getManifest p) (trace_of r) ->
  exists pre,
    Forall (fun e => silent e = true) pre /\
    (truthy (activeManifest s) = true ->
     activeManifest s = Some p /\ Forall (fun e => unprompted e = true) pre) /\
    match getManifest (world env) p with
    | inl err =>
        session_of r = s /\
        trace_of r =
          pre ++ [manifest_getManifest p;
                  reporter_track events.manifestLoadFailed;
                  reporter_captureError ("load manifest failed: " +:+ err);
                  showErrorMessage
                    ("Okteto: Down failed to load your Okteto manifest: " +:+ err);
                  okteto_showTerminal]
    | inr m =>
        match resolve_namespace (world env) m with
        | None =>
            session_of r = s /\
            trace_of r =
              pre ++ [manifest_getManifest p;
                      showErrorMessage "Couldn't detect your current Kubernetes context."]
        | Some ns =>
            match down_error (world env) with
            | None =>
                session_of r = cleared s /\
                trace_of r =
                  pre ++ [manifest_getManifest p;
                          okteto_down p ns (getKubeconfig (world env));
                          showInformationMessage "Okteto environment deactivated";
                          reporter_track events.downFinished]
            | Some err =>
                session_of r = s /\
                trace_of r =
                  pre ++ [manifest_getManifest p;
                          okteto_down p ns (getKubeconfig (world env));
                          reporter_track events.oktetoDownFailed;
                          reporter_captureError ("okteto down failed: " +:+ err);
                          showErrorMessage ("Okteto: Down failed: " +:+ err)]
            end
        end
    end.
Proof.
  intros r Hin.
  destruct (downCommand_shape env s) as [(_ & Hclean & _) | (pre & p' & Hpre & Ham & Hshape)];
    fold r in Hclean || fold r in Hshape.
  - destruct (silent_no_load p _ Hclean Hin).
  - assert (p = p') as <-;
      [| exists pre; split; [exact Hpre | split; [exact Ham | exact Hshape]]].
    assert (Hsuffix : forall suffix, trace_of r = pre ++ manifest_getManifest p' :: suffix ->
              Forall (fun e => is_load e = false) suffix -> p = p').
    { intros suffix Ht Hs. rewrite Ht in Hin. apply in_app_or in Hin as [Hin | Hin];
        [destruct (silent_no_load p _ Hpre Hin) |].
      destruct Hin as [Heq | Hin]; [congruence |].
      apply (proj1 (List.Forall_forall _ _) Hs) in Hin. discriminate. }
    destruct (getManifest (world env) p') as [err|m].
    { destruct Hshape as [_ Ht]. eapply Hsuffix; [exact Ht | repeat constructor]. }
    destruct (resolve_namespace (world env) m) as [ns|].
    2: { destruct Hshape as [_ Ht]. eapply Hsuffix; [exact Ht | repeat constructor]. }
    destruct (down_error (world env)) as [err|]; destruct Hshape as [_ Ht];
      (eapply Hsuffix; [exact Ht | repeat constructor]).
Qed.

(** X6: a down command that loaded the manifest [m] from [p] and resolved
    the namespace [ns] calls [okteto.down] exactly once, with [(p, ns,
    kubeconfig)].  When the call succeeds the command ends with the
    notification "Okteto environment deactivated" and the [downFinished]
    event; when it rejects with [err] it ends by tracking
    [oktetoDownFailed], capturing the error and showing "Okteto: Down
    failed: err". *)
Theorem downCommand_teardown_report env s p m ns :
  let r := downCommand env s in
  In (manifest_getManifest p) (trace_of r) ->
  getManifest (world env) p = inr m ->
  resolve_namespace (world env) m = Some ns ->
  count is_teardown (trace_of r) = 1 /\
  exists pre,
    trace_of r =
      pre ++ okteto_down p ns (getKubeconfig (world env)) ::
      match down_error (world env) with
      | None =>
          [showInformationMessage "Okteto environment deactivated";
           reporter_track events.downFinished]
      | Some err =>
          [reporter_track events.oktetoDownFailed;
           reporter_captureError ("okteto down failed: " +:+ err);
           showErrorMessage ("Okteto: Down failed: " +:+ err)]
      end.
Proof.
  intros r Hin Hm Hns.
  destruct (downCommand_loaded env s p Hin) as (pre & Hpre & _ & Hshape).
  fold r in Hshape. rewrite Hm, Hns in Hshape.
  destruct (down_error (world env)) as [err|]; destruct Hshape as [_ Ht]; rewrite Ht.
  - split.
    + rewrite count_app, (silent_no_teardown _ Hpre). reflexivity.
    + exists (pre ++ [manifest_getManifest p]). rewrite <- app_assoc. reflexivity.
  - split.
    + rewrite count_app, (silent_no_teardown _ Hpre). reflexivity.
    + exists (pre ++ [manifest_getManifest p]). rewrite <- app_assoc. reflexivity.
Qed.

(** X7: a down command whose manifest load rejects with [err] ends by
    reporting "Okteto: Down failed to load your Okteto manifest: err" and
    showing the terminal; it calls no teardown and leaves the session as it
    was. *)
Theorem downCommand_load_failure env s p err :
  let r := downCommand env s in
  In (manifest_getManifest p) (trace_of r) ->
  getManifest (world env) p = inl err ->
  session_of r = s /\
  count is_teardown (trace_of r) = 0 /\
  exists pre,
    trace_of r =
      pre ++ [manifest_getManifest p;
              reporter_track events.manifestLoadFailed;
              reporter_captureError ("load manifest failed: " +:+ err);
              showErrorMessage ("Okteto: Down failed to load your Okteto manifest: " +:+ err);
              okteto_showTerminal].
Proof.
  intros r Hin Herr.
  destruct (downCommand_loaded env s p Hin) as (pre & Hpre & _ & Hshape).
  fold r in Hshape. rewrite Herr in Hshape. destruct Hshape as [Hs Ht].
  split; [exact Hs |]. split; [| exists pre; exact Ht].
  rewrite Ht, count_app, (silent_no_teardown _ Hpre). reflexivity.
Qed.

(** X8: a down command that loaded a manifest without a namespace, when
    the cluster context reader answers nothing (or the empty string), ends
    on the error message "Couldn't detect your current Kubernetes
    context.", calls no teardown and leaves the session as it was. *)
Theorem downCommand_without_namespace env s p m :
  let r := downCommand env s in
  let w := world env in
  In (manifest_getManifest p) (trace_of r) ->
  getManifest w p = inr m ->
  truthy (namespace m) = false ->
  truthy (getCurrentNamespace w (getKubeconfig w)) = false ->
  session_of r = s /\
  count is_teardown (trace_of r) = 0 /\
  last (trace_of r) =
    Some (showErrorMessage "Couldn't detect your current Kubernetes context.").
Proof.
  intros r w Hin Hm Hunset Hnone.
  destruct (downCommand_loaded env s p Hin) as (pre & Hpre & _ & Hshape).
  fold r w in Hshape. rewrite Hm in Hshape. unfold resolve_namespace in Hshape.
  fold w in Hshape. rewrite Hunset, Hnone in Hshape. destruct Hshape as [Hs Ht].
  split; [exact Hs |]. rewrite Ht. split.
  - rewrite count_app, (silent_no_teardown _ Hpre). reflexivity.
  - rewrite last_app. reflexivity.
Qed.

(** With [activeManifest] set, a down command opens no picker, and the
    only manifest it loads is [activeManifest]. *)
Lemma downCommand_active env s p :
  activeManifest s = Some p -> p <> "" ->
  count is_picker (trace_of (downCommand env s)) = 0 /\
  forall q, In (manifest_getManifest q) (trace_of (downCommand env s)) -> q = p.
Proof.
  intros Hp Hne.
  assert (Ham : truthy (activeManifest s) = true).
  { rewrite Hp. simpl. apply negb_true_iff, String.eqb_neq, Hne. }
  split.
  - destruct (downCommand_shape env s)
      as [(_ & _ & Hu) | (pre & p' & Hpre & Hact & Hshape)].
    + apply unprompted_no_picker, Hu, Ham.
    + destruct (Hact Ham) as [_ Hu].
      destruct (getManifest (world env) p') as [err|m].
      { destruct Hshape as [_ ->]. rewrite count_app, (unprompted_no_picker _ Hu).
        reflexivity. }
      destruct (resolve_namespace (world env) m) as [ns|].
      2: { destruct Hshape as [_ ->]. rewrite count_app, (unprompted_no_picker _ Hu).
           reflexivity. }
      destruct (down_error (world env)) as [err|]; destruct Hshape as [_ ->];
        rewrite count_app, (unprompted_no_picker _ Hu); reflexivity.
  - intros q Hin.
    destruct (downCommand_loaded env s q Hin) as (pre & _ & Hact & _).
    destruct (Hact Ham) as [Hq _]. congruence.
Qed.

(** ** The install step and the workspace step *)

Lemma bind_ask {A} (k : World -> Cmd A) env s : bind ask k env s = k (world env) env s.
Proof. unfold bind, ask. destruct (k (world env) env s) as [[o2 s2] t2]. reflexivity. Qed.

(** Step 2 of the commands: nothing when okteto is there, the install with
    its notification, or the failed install with its error message and the
    end of the command. *)
Lemma install_step_run (install upgrade : bool) env s :
  (if install
   then try_catch (installCmd upgrade false ;; ret true)
          (fun err => emit (showErrorMessage err) ;; ret false)
   else ret true)%cmd env s =
  if install then
    match install_error (world env) with
    | None =>
        (Return true, s,
         install_attempt upgrade ++
         [showInformationMessage
            (if upgrade then "Okteto was successfully upgraded"
             else "Okteto was successfully installed")])
    | Some err => (Return false, s, install_failure upgrade err)
    end
  else (Return true, s, []).
Proof.
  destruct install; [| reflexivity].
  unfold installCmd, install_failure, install_attempt. run_cmd. simpl.
  destruct (install_error (world env)) as [err|], upgrade; reflexivity.
Qed.

Lemma showWorkspacePicker_returns repository env s :
  exists b s1 t1, showWorkspacePicker repository env s = (Return b, s1, t1).
Proof.
  destruct (sleep_run 3000 env s) as (s3 & t3 & Hs3 & _).
  destruct (sleep_run 1000 env s) as (s1 & t1 & Hs1 & _).
  unfold showWorkspacePicker. run_cmd. cbv beta iota zeta.
  rewrite ?Hs3, ?Hs1.
  repeat case_match; simplify_eq; eauto.
Qed.

(** Step 1 of [upCommand] returns, with effects that are no load and no
    launch. *)
Lemma workspace_step_run repository env s :
  exists s1 t1,
    (if negb (truthy (workspace_name (world env))) then
       console_log2 "Select workspace. Repo: " (template repository) ;;
       showWorkspacePicker repository ;;
       ret tt
     else ret tt)%cmd env s = (Return tt, s1, t1) /\
    Forall (fun e => before_load e = true) t1 /\
    (truthy (workspace_name (world env)) = true -> s1 = s /\ t1 = []).
Proof.
  destruct (truthy (workspace_name (world env))); cbn [negb].
  2: { destruct (showWorkspacePicker_returns repository env s) as (b & s1 & t1 & Hr).
       pose proof (showWorkspacePicker_safe repository env s Logic.I) as [_ Ht].
       rewrite Hr in Ht. unfold trace_of in Ht. cbn [snd] in Ht.
       exists s1, (console_log ("Select workspace. Repo: " +:+ " " +:+ template repository)
                   :: t1).
       split; [| split; [constructor; [reflexivity | exact Ht] | discriminate]].
       unfold console_log2. run_cmd. rewrite Hr. simpl. rewrite app_nil_r. reflexivity. }
  exists s, []. split; [reflexivity | split; [constructor | auto]].
Qed.

(** X9: when okteto has to be installed and [okteto.install] rejects with
    [err], a down command does nothing but the install attempt and its
    report: it shows "Okteto was not installed: err" and ends; no manifest
    is asked for or loaded, no teardown is called, the session is as it
    was. *)
Theorem downCommand_install_failure env s upgrade err :
  needsInstall (world env) = (true, upgrade) ->
  install_error (world env) = Some err ->
  downCommand env s = (Return tt, s, install_failure upgrade err) /\
  last (install_failure upgrade err) =
    Some (showErrorMessage ("Okteto was not installed: " +:+ err)).
Proof.
  intros Hneeds Herr. split; [| reflexivity].
  unfold downCommand. rewrite bind_ask, Hneeds.
  pose proof (install_step_run true upgrade env s) as Hstep. cbv iota in Hstep.
  rewrite Herr in Hstep.
  rewrite (bind_return _ _ _ _ _ _ _ Hstep). cbn [negb].
  unfold ret, outcome_of, session_of, trace_of. cbn [fst snd].
  rewrite app_nil_r. reflexivity.
Qed.

Section UpCommandEarlyEnds.

Variables state_ready state_failed : string.

(** X10: when okteto has to be installed and [okteto.install] rejects with
    [err], an up command ends right after the install attempt, on the error
    message "Okteto was not installed: err": after the workspace step
    (nothing at all when a workspace is open) its trace is the install
    attempt and its report; no manifest is picked or loaded, and nothing is
    launched. *)
Theorem upCommand_install_failure fuel repository path env s upgrade err :
  needsInstall (world env) = (true, upgrade) ->
  install_error (world env) = Some err ->
  exists pre s1,
    upCommand state_ready state_failed fuel repository path env s =
      (Return tt, s1, pre ++ install_failure upgrade err) /\
    Forall (fun e => before_load e = true) (pre ++ install_failure upgrade err) /\
    (truthy (workspace_name (world env)) = true -> s1 = s /\ pre = []).
Proof.
  intros Hneeds Herr.
  destruct (workspace_step_run repository env s) as (s1 & t1 & Hstep1 & Ht1 & Hopen).
  exists t1, s1. split; [| split; [| exact Hopen]].
  - unfold upCommand. rewrite bind_ask.
    rewrite (bind_return _ _ _ _ _ _ _ Hstep1), Hneeds.
    pose proof (install_step_run true upgrade env s1) as Hstep. cbv iota in Hstep.
    rewrite Herr in Hstep.
    rewrite (bind_return _ _ _ _ _ _ _ Hstep). cbn [negb].
    unfold ret, outcome_of, session_of, trace_of. cbn [fst snd].
    rewrite app_nil_r. reflexivity.
  - apply Forall_app. split; [exact Ht1 |].
    destruct upgrade; repeat constructor.
Qed.

(** X11: [upCommand(repository, path)] with a [path] that
    [workspace.findFiles] does find: [manifestUri] is never assigned, so
    the command (once the install step is through) tracks
    [manifestDismissed] and ends; it opens no manifest picker after the
    search, loads no manifest and launches nothing. *)
Theorem upCommand_found_path_is_dismissed fuel repository path env s :
  truthy path = true ->
  findFiles_result (world env) (template path) <> [] ->
  (fst (needsInstall (world env)) = false \/ install_error (world env) = None) ->
  let r := upCommand state_ready state_failed fuel repository path env s in
  outcome_of r = Return tt /\
  Forall (fun e => before_load e = true) (trace_of r) /\
  exists pre,
    trace_of r =
      pre ++ [findFiles (template path); reporter_track events.manifestDismissed].
Proof.
  intros Hpath Hfound Hinstall r. subst r.
  destruct (workspace_step_run repository env s) as (s1 & t1 & Hstep1 & Ht1 & _).
  unfold upCommand. rewrite bind_ask.
  rewrite (bind_return _ _ _ _ _ _ _ Hstep1).
  destruct (needsInstall (world env)) as [install upgrade] eqn:Hneeds.
  assert (Hstep2 : exists t2,
            (if install
             then try_catch (installCmd upgrade false ;; ret true)
                    (fun err => emit (showErrorMessage err) ;; ret false)
             else ret true)%cmd env s1 = (Return true, s1, t2) /\
            Forall (fun e => before_load e = true) t2).
  { rewrite install_step_run. destruct install.
    - destruct Hinstall as [Hno | Hok]; [discriminate |]. rewrite Hok.
      eexists. split; [reflexivity |]. destruct upgrade; repeat constructor.
    - eexists. split; [reflexivity | constructor]. }
  destruct Hstep2 as (t2 & Hstep2 & Ht2).
  rewrite (bind_return _ _ _ _ _ _ _ Hstep2). cbn [negb].
  rewrite Hpath.
  assert (Hlen : (length (findFiles_result (world env) (template path)) =? 0) = false).
  { apply Nat.eqb_neq. destruct (findFiles_result (world env) (template path));
      [congruence | discriminate]. }
  unfold track. run_cmd. cbv beta iota zeta. rewrite Hlen. cbn [fst snd app].
  split; [reflexivity |]. split.
  - apply Forall_app. split; [exact Ht1 |]. apply Forall_app. split; [exact Ht2 |].
    repeat constructor.
  - exists (t1 ++ t2). rewrite <- app_assoc. reflexivity.
Qed.

End UpCommandEarlyEnds.

(** ** Timers *)

Lemma quiet_timer_ok e : quiet e = true -> timer_ok e = true.
Proof.
  unfold quiet, is_poll, is_timer, timer_ok. intros H.
  destruct (call_of e); try reflexivity.
  rewrite orb_true_r in H. discriminate.
Qed.

Lemma silent_timer_ok e : silent e = true -> timer_ok e = true.
Proof. intros H. apply quiet_timer_ok, silent_quiet, H. Qed.

Lemma sleep_timer_ok ms : safe (fun _ => True) timer_ok (sleep ms).
Proof.
  intros env s _. split; [exact Logic.I |].
  destruct (sleep_run ms env s) as (s' & t & -> & _ & _ & Hbg & _).
  unfold trace_of. cbn [snd]. constructor; [reflexivity |].
  eapply Forall_impl; [exact Hbg |]. intros e He. apply quiet_timer_ok.
  unfold background in He. destruct (quiet e); [reflexivity | discriminate].
Qed.

Ltac safe_known ::=
  first [ apply sleep_timer_ok
        | eapply safe_weaken; [exact silent_timer_ok |];
          first [ apply installCmd_safe | apply showManifestPicker_safe
                | apply getManifestOrAsk_safe ] ].

Lemma showWorkspacePicker_timer_ok repository :
  safe (fun _ => True) timer_ok (showWorkspacePicker repository).
Proof. unfold showWorkspacePicker. safe_auto. Qed.

Section Timers.

Variables state_ready state_failed : string.

Lemma loop_timer_ok fuel : forall ns nm seen counter env s,
  Forall (fun e => timer_ok e = true)
    (trace_of (waitForFinalState_loop state_ready state_failed fuel ns nm seen counter env s)).
Proof.
  induction fuel as [|fuel IH]; intros ns nm seen counter env s; [constructor |].
  rewrite loop_unfold.
  destruct (getState (world env) (polls s)) as [err|res]; [repeat constructor |].
  cbv zeta.
  assert (Ht1 : Forall (fun e => timer_ok e = true)
                  (okteto_getState ns nm :: tick_effects (world env) seen res)).
  { unfold tick_effects. destruct (bool_decide _); repeat constructor. }
  destruct (String.eqb state_ready (state res)); [exact Ht1 |].
  destruct (String.eqb state_failed (state res)); [exact Ht1 |].
  destruct (counter + 1 =? timeout); [exact Ht1 |].
  unfold trace_of at 1. cbn [snd].
  apply Forall_app. split; [exact Ht1 |]. apply Forall_app. split; [| apply IH].
  apply (sleep_timer_ok 1000 env (polled s) Logic.I).
Qed.

Lemma waitForUp_timer_ok fuel ns nm :
  safe (fun _ => True) timer_ok (waitForUp state_ready state_failed fuel ns nm).
Proof.
  intros env s _. split; [exact Logic.I |].
  rewrite waitForUp_unfold. cbv zeta. rewrite waitForFinalState_unfold.
  unfold outcome_of, session_of, trace_of. cbn [fst snd].
  constructor; [reflexivity |]. apply Forall_app. split.
  - constructor; [reflexivity |]. apply loop_timer_ok.
  - destruct ((waitForFinalState_loop state_ready state_failed fuel ns nm ∅ 0 env
                 (listening s)).1.1) as [res| |]; simpl;
      [destruct (result res) |..]; repeat constructor.
Qed.

Ltac safe_known ::=
  first [ apply sleep_timer_ok | apply showWorkspacePicker_timer_ok
        | apply waitForUp_timer_ok
        | apply safe_set_activeManifest; intros; exact Logic.I
        | eapply safe_weaken; [exact silent_timer_ok |];
          first [ apply installCmd_safe | apply showManifestPicker_safe
                | apply getManifestOrAsk_safe ] ].

(** X12: every timer that an up command sets, or that is set on its
    behalf, is one of 1000 ms: the timers between two ticks, and also the
    timer of the "Cloning repository" progress, which the source asks for
    as [sleep(3000)]. *)
Theorem upCommand_timers_are_1000 fuel repository path env s e ms :
  In e (trace_of (upCommand state_ready state_failed fuel repository path env s)) ->
  call_of e = setTimeout ms ->
  ms = 1000.
Proof.
  assert (Hsafe : safe (fun _ => True) timer_ok
                    (upCommand state_ready state_failed fuel repository path)).
  { unfold upCommand, getManifest_call, finalizeUp. safe_auto. }
  intros Hin Hcall.
  destruct (Hsafe env s Logic.I) as [_ Hall].
  apply (proj1 (List.Forall_forall _ _) Hall) in Hin.
  unfold timer_ok in Hin. rewrite Hcall in Hin. apply Nat.eqb_eq, Hin.
Qed.

End Timers.

Section UpCommandNamespace.

Variables state_ready state_failed : string.

(** X13: the namespace of the manifest wins over the cluster context: an
    up command that loaded a manifest [m] from [p] whose namespace is a
    non-empty [ns] calls [okteto.up] exactly once, with
    [(p, ns, m.name, kubeconfig)], whatever the cluster context reader
    answers. *)
Theorem upCommand_manifest_namespace fuel repository path env s p m ns :
  let r := upCommand state_ready state_failed fuel repository path env s in
  In (manifest_getManifest p) (trace_of r) ->
  getManifest (world env) p = inr m ->
  namespace m = Some ns -> ns <> "" ->
  In (okteto_up p ns (name m) (getKubeconfig (world env))) (trace_of r) /\
  count is_launch (trace_of r) = 1.
Proof.
  intros r Hin Hm Hns Hne.
  destruct (up_shape_loaded (world env) r p
              (upCommand_shape state_ready state_failed fuel repository path env s) Hin)
    as (pre & Hpre & Hshape).
  rewrite Hm in Hshape. unfold resolve_namespace in Hshape. rewrite Hns in Hshape.
  assert (Htruthy : truthy (Some ns) = true).
  { simpl. apply negb_true_iff, String.eqb_neq, Hne. }
  rewrite Htruthy in Hshape. destruct Hshape as (post & Ht & Hpost).
  rewrite Ht. split.
  - apply in_or_app. right. apply in_or_app. left. right. left. reflexivity.
  - rewrite !count_app, (before_load_no_launch _ Hpre), (before_load_no_launch _ Hpost).
    reflexivity.
Qed.

(** X14: down after up.  After an up command that launched the manifest of
    a non-empty path [p] and was not cancelled, a down command, in any
    world, opens no picker, and the only manifest it loads is [p]. *)
Theorem downCommand_after_upCommand fuel repository path env s p m ns env' :
  let r := upCommand state_ready state_failed fuel repository path env s in
  let r' := downCommand env' (session_of r) in
  In (manifest_getManifest p) (trace_of r) ->
  getManifest (world env) p = inr m ->
  resolve_namespace (world env) m = Some ns ->
  cancellation env = None -> p <> "" ->
  count is_picker (trace_of r') = 0 /\
  forall q, In (manifest_getManifest q) (trace_of r') -> q = p.
Proof.
  intros r r' Hin Hm Hns Hnone Hne.
  apply downCommand_active; [| exact Hne].
  destruct (upCommand_after_launch state_ready state_failed fuel repository path env s p m ns
              Hin Hm Hns) as (pre & s5 & _ & _ & _ & Hs & _).
  cbv zeta in Hs. fold r in Hs. rewrite Hs, waitForFinalState_unfold.
  pose proof (loop_activeManifest state_ready state_failed fuel ns (name m) ∅ 0 env
                (listening (activated p s5))) as [_ Hloop].
  unfold session_of in *. cbn [fst snd] in *. exact (Hloop Hnone).
Qed.

(** ** The URI handler *)

Lemma first_segment_slash uri_path :
  first_segment (String "/"%char uri_path) = first_segment uri_path.
Proof. reflexivity. Qed.

Lemma first_segment_slashes n uri_path :
  first_segment (slashes n +:+ uri_path) = first_segment uri_path.
Proof.
  induction n as [|n IH]; [reflexivity |].
  change (slashes (S n) +:+ uri_path) with (String "/"%char (slashes n +:+ uri_path)).
  rewrite first_segment_slash. exact IH.
Qed.

Lemma split_slash_segment seg rest :
  no_slash seg = true ->
  split_slash (seg +:+ String "/"%char rest) = seg :: split_slash rest.
Proof.
  induction seg as [|c seg IH]; intros Hseg.
  - reflexivity.
  - simpl in Hseg. apply andb_true_iff in Hseg as [Hc Hseg].
    simpl. apply negb_true_iff in Hc. rewrite Hc, (IH Hseg). reflexivity.
Qed.

Lemma split_slash_last seg : no_slash seg = true -> split_slash seg = [seg].
Proof.
  induction seg as [|c seg IH]; intros Hseg; [reflexivity |].
  simpl in Hseg. apply andb_true_iff in Hseg as [Hc Hseg].
  simpl. apply negb_true_iff in Hc. rewrite Hc, (IH Hseg). reflexivity.
Qed.

Lemma first_segment_found seg (tail : option string) :
  no_slash seg = true -> seg <> "" ->
  first_segment (seg +:+ match tail with
                         | Some rest => String "/"%char rest
                         | None => ""
                         end) = Some seg.
Proof.
  intros Hseg Hne. unfold first_segment.
  assert (Hkeep : negb (String.eqb seg "") = true)
    by (apply negb_true_iff, String.eqb_neq, Hne).
  destruct tail as [rest|].
  - rewrite (split_slash_segment seg rest Hseg). simpl. rewrite Hkeep. reflexivity.
  - replace (seg +:+ "") with seg.
    + rewrite (split_slash_last seg Hseg). simpl. rewrite Hkeep. reflexivity.
    + clear. induction seg as [|c seg IH]; [reflexivity |].
      change (String c seg +:+ "") with (String c (seg +:+ "")). f_equal. exact IH.
Qed.

(** X15: the URI handler looks at the first non-empty segment of the path
    only: leading slashes and whatever follows that segment are ignored.
    When the segment is [up], the handler runs [upCommand] with the two
    query parameters (an array joined with commas) and does not wait for
    its result; for any other segment it does nothing at all. *)
Theorem handleUri_dispatches_on_first_segment fuel n seg tail repository manifest env s :
  no_slash seg = true -> seg <> "" ->
  let uri_path := slashes n +:+ seg +:+ match tail with
                                        | Some rest => String "/"%char rest
                                        | None => ""
                                        end in
  handleUri state_ready state_failed fuel uri_path repository manifest env s =
  if String.eqb seg "up"
  then detached (upCommand state_ready state_failed fuel
                   (join_query repository) (join_query manifest)) env s
  else (Return tt, s, []).
Proof.
  intros Hseg Hne uri_path. subst uri_path. unfold handleUri.
  rewrite first_segment_slashes, (first_segment_found seg tail Hseg Hne).
  destruct (String.eqb seg "up"); reflexivity.
Qed.

End UpCommandNamespace.

(** ** The commands always return *)

Lemma showManifestPicker_returns env s :
  exists r t, showManifestPicker env s = (Return r, s, t).
Proof.
  unfold showManifestPicker. run_cmd. cbv beta iota zeta.
  repeat case_match; simplify_eq; eauto.
Qed.

Lemma getManifestOrAsk_returns env s :
  exists r t, getManifestOrAsk env s = (Return r, s, t).
Proof.
  destruct (showManifestPicker_returns env s) as (r & t & Hpick).
  unfold getManifestOrAsk. run_cmd. cbv beta iota zeta.
  destruct (truthy (activeManifest s)); [eauto |].
  rewrite Hpick. destruct r; eauto.
Qed.

(** X16: a down command never rejects: whatever the collaborators answer
    (a failed install, no manifest, a manifest that does not load, no
    namespace, a teardown that fails), the command reports it and returns
    normally. *)
Theorem downCommand_never_rejects env s :
  outcome_of (downCommand env s) = Return tt.
Proof.
  unfold downCommand. rewrite bind_ask.
  destruct (needsInstall (world env)) as [install upgrade].
  pose proof (install_step_run install upgrade env s) as Hstep.
  assert (Hinstall : exists proceed t,
            (if install
             then try_catch (installCmd upgrade false ;; ret true)
                    (fun err => emit (showErrorMessage err) ;; ret false)
             else ret true)%cmd env s = (Return proceed, s, t)).
  { rewrite Hstep. destruct install; [destruct (install_error (world env)) |]; eauto. }
  destruct Hinstall as (proceed & t1 & Hinstall). clear Hstep.
  rewrite (bind_return _ _ _ _ _ _ _ Hinstall). unfold outcome_of at 1. cbn [fst].
  destruct proceed; cbn [negb]; [| reflexivity].
  unfold track at 1. unfold bind at 1. unfold emit at 1. cbv beta iota.
  destruct (getManifestOrAsk_returns env s) as (manifestPath & t2 & Hask).
  rewrite (bind_return _ _ _ _ _ _ _ Hask).
  unfold outcome_of. cbn [fst].
  destruct (truthy manifestPath); cbn [negb]; [| reflexivity].
  pose proof (load_step "Okteto: Down failed to load your Okteto manifest: " env s
                (default "" manifestPath)) as Hload.
  destruct (getManifest (world env) (default "" manifestPath)) as [err|m];
    rewrite (bind_return _ _ _ _ _ _ _ Hload); unfold outcome_of; cbn [fst];
    [reflexivity |].
  cbv zeta. rewrite (bind_return _ _ _ _ _ _ _ (resolve_step env s m)).
  unfold outcome_of. cbn [fst].
  destruct (resolve_namespace (world env) m) as [ns|]; [| reflexivity].
  unfold okteto_down_call. run_cmd. simpl.
  destruct (down_error (world env)); reflexivity.
Qed.

Section CommandsReturn.

Variables state_ready state_failed : string.

Local Abbreviation loop := (waitForFinalState_loop state_ready state_failed).

(** The loop ends within the ticks that are left, whatever the answers. *)
Lemma loop_bounded fuel : forall ns nm seen counter env s,
  counter < timeout -> timeout - counter <= fuel ->
  outcome_of (loop fuel ns nm seen counter env s) <> OutOfFuel /\
  1 <= queries (trace_of (loop fuel ns nm seen counter env s)) <= timeout - counter.
Proof.
  induction fuel as [|fuel IH]; intros ns nm seen counter env s Hc Hfuel; [lia |].
  rewrite loop_unfold.
  destruct (getState (world env) (polls s)) as [err|res].
  { unfold outcome_of, trace_of, queries. cbn [fst snd]. count_split.
    split; [discriminate | lia]. }
  cbv zeta.
  assert (Hstop : forall (o : Outcome FinalState) s', o <> OutOfFuel ->
            outcome_of (o, s', okteto_getState ns nm :: tick_effects (world env) seen res)
              <> OutOfFuel /\
            1 <= queries (trace_of (o, s', okteto_getState ns nm ::
                                           tick_effects (world env) seen res))
              <= timeout - counter).
  { intros o s' Ho. unfold outcome_of, trace_of, queries. cbn [fst snd]. count_split.
    pose proof (proj1 (tick_effects_counts (world env) seen res)) as Hq.
    unfold queries in Hq. rewrite Hq. split; [exact Ho | lia]. }
  destruct (String.eqb state_ready (state res)); [apply Hstop; discriminate |].
  destruct (String.eqb state_failed (state res)); [apply Hstop; discriminate |].
  destruct (Nat.eqb_spec (counter + 1) timeout) as [Heq | Hneq];
    [apply Hstop; discriminate |].
  clear Hstop.
  destruct (sleep_run 1000 env (polled s)) as (s2 & t2 & Hs & _ & _ & Hbg & _).
  rewrite Hs.
  destruct (IH ns nm (<[state res := true]> seen) (counter + 1) env s2) as [Ho Hq];
    [lia | lia |].
  destruct (background_parts _ Hbg) as (Hbq & _ & _).
  unfold outcome_of, session_of, trace_of, queries in *. cbn [fst snd] in *.
  split; [exact Ho |].
  count_split.
  pose proof (proj1 (tick_effects_counts (world env) seen res)) as Hq1.
  unfold queries in Hq1. rewrite Hq1, (count_none _ _ Hbq). lia.
Qed.

(** X17: the wait always ends within its budget: whatever the answers of
    [okteto.getState] are, and whether a cancellation is raised or not,
    [waitForFinalState] settles after at least one and at most 300
    queries. *)
Theorem waitForFinalState_is_bounded fuel ns nm env s :
  timeout <= fuel ->
  let r := waitForFinalState state_ready state_failed fuel ns nm env s in
  outcome_of r <> OutOfFuel /\
  1 <= queries (trace_of r) <= 300.
Proof.
  intros Hfuel r. subst r. rewrite waitForFinalState_unfold.
  destruct (loop_bounded fuel ns nm ∅ 0 env s) as [Ho Hq].
  { rewrite timeout_value. lia. } { lia. }
  unfold outcome_of, session_of, trace_of, queries in *. cbn [fst snd] in *.
  split; [exact Ho |]. count_split. rewrite timeout_value in Hq. lia.
Qed.

End CommandsReturn.

(** ** The queries a command makes *)

Lemma counted_ret {A} (a : A) : counted (ret a).
Proof. intros env s. run_cmd. unfold queries, count. simpl. lia. Qed.

Lemma counted_throw {A} (err : string) : counted (@throw A err).
Proof. intros env s. run_cmd. unfold queries, count. simpl. lia. Qed.

Lemma counted_ask : counted ask.
Proof. intros env s. run_cmd. unfold queries, count. simpl. lia. Qed.

Lemma counted_get_activeManifest : counted get_activeManifest.
Proof. intros env s. run_cmd. unfold queries, count. simpl. lia. Qed.

Lemma counted_set_activeManifest v : counted (set_activeManifest v).
Proof. intros env s. run_cmd. unfold queries, count. simpl. lia. Qed.

Lemma counted_set_cancelListener b : counted (set_cancelListener b).
Proof. intros env s. run_cmd. unfold queries, count. simpl. lia. Qed.

Lemma counted_emit e : is_query e = false -> counted (emit e).
Proof.
  intros He env s. unfold emit, session_of, trace_of, queries. cbn [fst snd].
  rewrite count_cons, He, count_nil. lia.
Qed.

Lemma counted_bind {A B} (m : Cmd A) (k : A -> Cmd B) :
  counted m -> (forall a, counted (k a)) -> counted (bind m k).
Proof.
  intros Hm Hk env s. specialize (Hm env s).
  unfold bind, session_of, trace_of, queries in *.
  destruct (m env s) as [[[a| |] s1] t1]; cbn [fst snd] in *; try exact Hm.
  specialize (Hk a env s1). unfold session_of, trace_of, queries in Hk.
  destruct (k a env s1) as [[o2 s2] t2]; cbn [fst snd] in *.
  rewrite count_app. lia.
Qed.

Lemma counted_try_catch {A} (m : Cmd A) (h : string -> Cmd A) :
  counted m -> (forall err, counted (h err)) -> counted (try_catch m h).
Proof.
  intros Hm Hh env s. specialize (Hm env s).
  unfold try_catch, session_of, trace_of, queries in *.
  destruct (m env s) as [[[a|err|] s1] t1]; cbn [fst snd] in *; try exact Hm.
  specialize (Hh err env s1). unfold session_of, trace_of, queries in Hh.
  destruct (h err env s1) as [[o2 s2] t2]; cbn [fst snd] in *.
  rewrite count_app. lia.
Qed.

Lemma counted_spawn {A} command (m : Cmd A) w : counted m -> counted (spawn command m w).
Proof.
  intros Hm env s. specialize (Hm {| world := w; cancellation := None |} s).
  unfold spawn, session_of, trace_of, queries in *.
  destruct (m _ s) as [[o s1] t1]; cbn [fst snd] in *.
  rewrite count_cons, count_in_command by (intros e; reflexivity). simpl. exact Hm.
Qed.

Ltac counted_known := fail.

Ltac counted_step :=
  first
    [ counted_known
    | progress cbv zeta
    | apply counted_ret | apply counted_throw | apply counted_ask
    | apply counted_get_activeManifest | apply counted_set_activeManifest
    | apply counted_set_cancelListener
    | apply counted_emit; reflexivity
    | apply counted_bind; [| intro]
    | apply counted_try_catch; [| intro]
    | match goal with
      | |- counted (match ?x with _ => _ end) => destruct x
      end ].

Ltac counted_auto :=
  unfold track, captureError, console_log2, withProgress, onOktetoFailed;
  repeat counted_step.

Lemma installCmd_counted upgrade handleErr : counted (installCmd upgrade handleErr).
Proof. unfold installCmd, okteto_install_call. counted_auto. Qed.

Lemma showManifestPicker_counted : counted showManifestPicker.
Proof. unfold showManifestPicker. counted_auto. Qed.

Ltac counted_known ::=
  first [ apply installCmd_counted | apply showManifestPicker_counted ].

Lemma getManifestOrAsk_counted : counted getManifestOrAsk.
Proof. unfold getManifestOrAsk. counted_auto. Qed.

Ltac counted_known ::=
  first [ apply installCmd_counted | apply showManifestPicker_counted
        | apply getManifestOrAsk_counted ].

Lemma downCommand_counted : counted downCommand.
Proof. unfold downCommand, okteto_down_call, getManifest_call. counted_auto. Qed.

Lemma host_suspended_counted : counted host_suspended.
Proof.
  intros env s. unfold host_suspended.
  destruct (cancellation env) as [[k w']|]; [| run_cmd; unfold queries, count; simpl; lia].
  destruct (cancelListener s && (polls s =? k)); [| run_cmd; unfold queries, count; simpl; lia].
  revert env s. change (counted (set_cancelListener false ;; onCancellationRequested_handler w')).
  unfold onCancellationRequested_handler. counted_auto.
  apply counted_spawn, downCommand_counted.
Qed.

Lemma sleep_counted ms : counted (sleep ms).
Proof. unfold sleep. counted_auto. apply host_suspended_counted. Qed.

Ltac counted_known ::=
  first [ apply installCmd_counted | apply showManifestPicker_counted
        | apply getManifestOrAsk_counted | apply sleep_counted ].

Lemma showWorkspacePicker_counted repository : counted (showWorkspacePicker repository).
Proof. unfold showWorkspacePicker. counted_auto. Qed.

Lemma okteto_getState_call_counted ns nm : counted (okteto_getState_call ns nm).
Proof.
  intros env s. unfold okteto_getState_call.
  destruct (getState (world env) (polls s)); run_cmd; unfold queries, count; simpl; lia.
Qed.

Lemma with_token_counted {A} (task : Cmd A) : counted task -> counted (with_token task).
Proof.
  intros Ht env s.
  pose proof (counted_bind (set_cancelListener true) (fun _ => task)
                (counted_set_cancelListener true) (fun _ => Ht) env s) as H.
  unfold with_token, session_of, trace_of in *.
  destruct ((set_cancelListener true ;; task) env s) as [[o s1] t1]. cbn [fst snd] in *.
  unfold set_cancelListener. cbn [fst snd polls]. rewrite app_nil_r. exact H.
Qed.

(** ** The ready notification *)

Section ReadyNotification.

Variables state_ready state_failed : string.

Local Abbreviation loop := (waitForFinalState_loop state_ready state_failed).

Lemma loop_no_ready_message fuel : forall ns nm seen counter env s,
  Forall (fun e => is_ready_message e = false) (trace_of (loop fuel ns nm seen counter env s)).
Proof.
  induction fuel as [|fuel IH]; intros ns nm seen counter env s; [constructor |].
  rewrite loop_unfold.
  destruct (getState (world env) (polls s)) as [err|res]; [repeat constructor |].
  cbv zeta.
  assert (Ht1 : Forall (fun e => is_ready_message e = false)
                  (okteto_getState ns nm :: tick_effects (world env) seen res)).
  { unfold tick_effects. destruct (bool_decide _); repeat constructor. }
  destruct (String.eqb state_ready (state res)); [exact Ht1 |].
  destruct (String.eqb state_failed (state res)); [exact Ht1 |].
  destruct (counter + 1 =? timeout); [exact Ht1 |].
  unfold trace_of at 1. cbn [snd].
  apply Forall_app. split; [exact Ht1 |]. apply Forall_app. split; [| apply IH].
  destruct (sleep_trace 1000 env (polled s)) as (t_down & ->).
  constructor; [reflexivity |].
  destruct (fires env (polled s)); [| constructor].
  constructor; [reflexivity |]. constructor; [reflexivity |].
  apply Forall_map, Forall_true. intros e. reflexivity.
Qed.

Lemma loop_counted fuel : forall ns nm seen counter, counted (loop fuel ns nm seen counter).
Proof.
  induction fuel as [|fuel IH]; intros ns nm seen counter; [intros env s; run_cmd; unfold queries, count; simpl; lia |].
  cbn [waitForFinalState_loop].
  apply counted_bind; [apply counted_ask |]. intros w.
  apply counted_bind; [apply okteto_getState_call_counted |]. intros res.
  apply counted_bind; [counted_auto |]. intros _. cbv zeta.
  destruct (String.eqb state_ready (state res)); [apply counted_ret |].
  destruct (String.eqb state_failed (state res)); [apply counted_ret |].
  destruct (counter + 1 =? timeout); [apply counted_ret |].
  apply counted_bind; [apply sleep_counted | intros _; apply IH].
Qed.

Lemma upCommand_counted fuel repository path :
  counted (upCommand state_ready state_failed fuel repository path).
Proof.
  unfold upCommand, waitForUp, waitForFinalState, finalizeUp, getManifest_call.
  counted_auto;
    try apply showWorkspacePicker_counted;
    try (apply with_token_counted; counted_auto; apply loop_counted).
Qed.

(** A loop resolves to [result: true] only on the tick whose query answers
    the ready state: the answers before it let the loop go on, and that
    query is the last one the loop makes. *)
Lemma loop_ready_last fuel : forall ns nm seen counter env s res,
  counter < timeout ->
  outcome_of (loop fuel ns nm seen counter env s) = Return res ->
  result res = true ->
  exists k res',
    counter + k < timeout /\
    (forall j, j < k ->
       pending state_ready state_failed (getState (world env) (polls s + j))) /\
    getState (world env) (polls s + k) = inr res' /\ state res' = state_ready /\
    polls (session_of (loop fuel ns nm seen counter env s)) = polls s + k + 1.
Proof.
  induction fuel as [|fuel IH]; intros ns nm seen counter env s res Hc Ho Hres;
    [discriminate |].
  rewrite loop_unfold in Ho |- *.
  destruct (getState (world env) (polls s)) as [err|res0] eqn:Hget; [discriminate |].
  cbv zeta in Ho |- *.
  destruct (String.eqb state_ready (state res0)) eqn:Hr.
  { exists 0, res0. rewrite !Nat.add_0_r. split; [exact Hc |].
    split; [intros j Hj; lia |]. split; [exact Hget |].
    split; [symmetry; apply String.eqb_eq, Hr | simpl; lia]. }
  destruct (String.eqb state_failed (state res0)) eqn:Hf.
  { injection Ho as <-. discriminate. }
  destruct (Nat.eqb_spec (counter + 1) timeout) as [Heq | Hneq].
  { injection Ho as <-. discriminate. }
  destruct (sleep_run 1000 env (polled s)) as (s2 & t2 & Hs & Hp2 & _).
  rewrite Hs in Ho |- *.
  unfold outcome_of at 1, session_of at 1 in Ho. cbn [fst snd] in Ho.
  unfold session_of at 1 2. cbn [fst snd].
  assert (Hc' : counter + 1 < timeout) by lia.
  destruct (IH ns nm (<[state res0 := true]> seen) (counter + 1) env s2 res Hc' Ho Hres)
    as (k & res' & Hk & Hpend & Hans & Hstate & Hp).
  exists (S k), res'. split; [lia |].
  split.
  { intros j Hj. destruct j as [|j].
    - rewrite Nat.add_0_r, Hget. simpl.
      apply String.eqb_neq in Hr, Hf. split; congruence.
    - specialize (Hpend j ltac:(lia)). rewrite Hp2 in Hpend. simpl in Hpend.
      replace (polls s + S j) with (S (polls s + j)) by lia. exact Hpend. }
  split; [rewrite <- Hans, Hp2; simpl; f_equal; lia |].
  split; [exact Hstate |].
  unfold session_of in *. cbn [fst snd] in *. rewrite Hp, Hp2. simpl. lia.
Qed.

(** X19: an up command tells the user "Your development container is
    ready!" only if the last query it made answered the ready state: the
    command made [k + 1] queries within the tick budget, the answers to the
    first [k] were neither ready nor failed, and the answer to the last one
    was the ready state. *)
Theorem upCommand_ready_only_if_answered fuel repository path env s :
  let r := upCommand state_ready state_failed fuel repository path env s in
  In (showInformationMessage "Your development container is ready!") (trace_of r) ->
  exists k res,
    queries (trace_of r) = k + 1 /\
    k < timeout /\
    (forall j, j < k ->
       pending state_ready state_failed (getState (world env) (polls s + j))) /\
    getState (world env) (polls s + k) = inr res /\ state res = state_ready.
Proof.
  intros r Hin.
  assert (Hcalm : forall t, Forall (fun e => calm_before e = true) t ->
            ~ In (showInformationMessage "Your development container is ready!") t).
  { intros t Ht H. apply (proj1 (List.Forall_forall _ _) Ht) in H. discriminate. }
  assert (Hfixed : forall t, Forall (fun e => is_ready_message e = false) t ->
            ~ In (showInformationMessage "Your development container is ready!") t).
  { intros t Ht H. apply (proj1 (List.Forall_forall _ _) Ht) in H. discriminate. }
  pose proof (upCommand_counted fuel repository path env s) as Hcount. fold r in Hcount.
  destruct (upCommand_run_shape state_ready state_failed fuel repository path env s)
    as [Hclean | (pre & p & Hpre & Hshape)]; fold r in Hclean || fold r in Hshape.
  { destruct (Hcalm _ Hclean Hin). }
  destruct (getManifest (world env) p) as [err|m].
  { rewrite Hshape in Hin. apply in_app_or in Hin as [Hin | Hin];
      [destruct (Hcalm _ Hpre Hin) |].
    simpl in Hin. intuition discriminate. }
  destruct (resolve_namespace (world env) m) as [ns|].
  2: { rewrite Hshape in Hin. apply in_app_or in Hin as [Hin | Hin];
         [destruct (Hcalm _ Hpre Hin) |].
       simpl in Hin. intuition discriminate. }
  destruct Hshape as (s5 & Hp & Hr). rewrite Hr in Hin.
  unfold trace_of at 1 in Hin. cbn [snd] in Hin.
  apply in_app_or in Hin as [Hin | Hin]; [destruct (Hcalm _ Hpre Hin) |].
  apply in_app_or in Hin as [Hin | Hin];
    [simpl in Hin; intuition discriminate |].
  assert (Hsess : polls (session_of r) =
                  polls (session_of (loop fuel ns (name m) ∅ 0 env
                                       (listening (activated p s5))))).
  { rewrite Hr, up_tail_unfold, waitForFinalState_unfold. reflexivity. }
  rewrite up_tail_unfold in Hin. cbv zeta in Hin.
  unfold trace_of at 1 in Hin. cbn [snd] in Hin.
  destruct Hin as [Hin | Hin]; [discriminate |].
  apply in_app_or in Hin as [Hin | Hin].
  { exfalso. rewrite waitForFinalState_unfold in Hin.
    unfold trace_of at 1 in Hin. cbn [snd] in Hin.
    destruct Hin as [Hin | Hin]; [discriminate |].
    exact (Hfixed _ (loop_no_ready_message fuel ns (name m) ∅ 0 env
                       (listening (activated p s5))) Hin). }
  rewrite waitForFinalState_unfold in Hin.
  unfold outcome_of at 1 in Hin. cbn [fst] in Hin.
  destruct (outcome_of (loop fuel ns (name m) ∅ 0 env (listening (activated p s5))))
    as [res| |] eqn:Ho; cbn [up_epilogue] in Hin.
  - destruct (result res) eqn:Hres.
    + destruct (loop_ready_last fuel ns (name m) ∅ 0 env (listening (activated p s5)) res
                  ltac:(rewrite timeout_value; lia) Ho Hres)
        as (k & res' & Hk & Hpend & Hans & Hstate & Hpolls).
      change (polls (listening (activated p s5))) with (polls s5) in *.
      rewrite Hp in *.
      exists k, res'.
      split; [lia |].
      split; [exact Hk |]. split; [exact Hpend |]. split; [exact Hans | exact Hstate].
    + simpl in Hin. intuition discriminate.
  - simpl in Hin. intuition discriminate.
  - destruct Hin.
Qed.

End ReadyNotification.

(** ** A picker that yields nothing *)

Lemma showManifestPicker_nothing env s :
  findFiles_result (world env) "**/okteto.{yml,yaml}" = [] \/
  quickPick_manifest (world env) = None ->
  exists t,
    showManifestPicker env s = (Return None, s, findFiles "**/okteto.{yml,yaml}" :: t) /\
    Forall (fun e => silent e = true) t /\ t <> [].
Proof.
  intros Hnothing. unfold showManifestPicker. run_cmd. cbv beta iota zeta.
  destruct (findFiles_result (world env) "**/okteto.{yml,yaml}") as [|file files] eqn:Hfiles.
  - simpl. eexists. split; [reflexivity |]. split; [repeat constructor | discriminate].
  - destruct Hnothing as [Hno | Hpick]; [discriminate |]. rewrite Hpick. simpl.
    eexists. split; [reflexivity |]. split; [repeat constructor | discriminate].
Qed.

(** X20: a down command without a set [activeManifest], when the manifest
    picker yields nothing (no manifest in the workspace, or the user
    dismisses the quick pick), ends by tracking [manifestDismissed]: it
    loads no manifest, calls no teardown and leaves the session as it
    was. *)
Theorem downCommand_dismissed env s :
  truthy (activeManifest s) = false ->
  fst (needsInstall (world env)) = false \/ install_error (world env) = None ->
  findFiles_result (world env) "**/okteto.{yml,yaml}" = [] \/
  quickPick_manifest (world env) = None ->
  let r := downCommand env s in
  outcome_of r = Return tt /\
  session_of r = s /\
  count is_load (trace_of r) = 0 /\
  count is_teardown (trace_of r) = 0 /\
  last (trace_of r) = Some (reporter_track events.manifestDismissed).
Proof.
  intros Ham Hinstall Hnothing r. subst r.
  unfold downCommand. rewrite bind_ask.
  destruct (needsInstall (world env)) as [install upgrade] eqn:Hneeds.
  assert (Hstep : exists t1,
            (if install
             then try_catch (installCmd upgrade false ;; ret true)
                    (fun err => emit (showErrorMessage err) ;; ret false)
             else ret true)%cmd env s = (Return true, s, t1) /\
            Forall (fun e => silent e = true) t1).
  { rewrite install_step_run. destruct install.
    - destruct Hinstall as [Hno | Hok]; [discriminate |]. rewrite Hok.
      eexists. split; [reflexivity |]. destruct upgrade; repeat constructor.
    - eexists. split; [reflexivity | constructor]. }
  destruct Hstep as (t1 & Hstep & Ht1).
  rewrite (bind_return _ _ _ _ _ _ _ Hstep). cbn [negb].
  destruct (showManifestPicker_nothing env s Hnothing) as (t2 & Hpick & Ht2 & _).
  assert (Hask : getManifestOrAsk env s =
                 (Return None, s,
                  findFiles "**/okteto.{yml,yaml}" :: t2 ++
                  [reporter_track events.manifestDismissed])).
  { unfold getManifestOrAsk. run_cmd. cbv beta iota zeta. rewrite Ham, Hpick.
    cbn [app]. reflexivity. }
  rewrite (bind_return _ _ _ _ _ _ _
             (eq_refl : track events.down env s =
                        (Return tt, s, [reporter_track events.down]))).
  rewrite (bind_return _ _ _ _ _ _ _ Hask). cbn [truthy negb].
  unfold ret, outcome_of, session_of, trace_of. cbn [fst snd].
  split; [reflexivity |]. split; [reflexivity |].
  assert (Hquiet : forall t, Forall (fun e => silent e = true) t ->
            count is_load t = 0 /\ count is_teardown t = 0).
  { intros t Ht. split; [| apply silent_no_teardown, Ht].
    apply count_none. eapply Forall_impl; [exact Ht |]. intros e He.
    unfold silent in He. destruct (is_load e); [| reflexivity].
    rewrite andb_false_r in He. discriminate. }
  destruct (Hquiet _ Ht1) as [Hl1 Hd1]. destruct (Hquiet _ Ht2) as [Hl2 Hd2].
  split; [| split].
  - count_split. rewrite Hl1, Hl2. reflexivity.
  - count_split. rewrite Hd1, Hd2. reflexivity.
  - rewrite app_nil_r.
    change (t1 ++ [reporter_track events.down] ++
            findFiles "**/okteto.{yml,yaml}" :: t2 ++ [reporter_track events.manifestDismissed])
      with (t1 ++ ([reporter_track events.down; findFiles "**/okteto.{yml,yaml}"] ++ t2 ++
                   [reporter_track events.manifestDismissed])).
    rewrite !app_assoc. apply last_snoc.
Qed.

Section UpCommandDismissed.

Variables state_ready state_failed : string.

(** X21: an up command whose manifest picker yields nothing (no manifest
    in the workspace, or the user dismisses the quick pick), whether no
    [path] was given or the given [path] was not found, ends by tracking
    [manifestDismissed]: it loads no manifest and launches nothing. *)
Theorem upCommand_dismissed fuel repository path env s :
  truthy path = false \/ findFiles_result (world env) (template path) = [] ->
  fst (needsInstall (world env)) = false \/ install_error (world env) = None ->
  findFiles_result (world env) "**/okteto.{yml,yaml}" = [] \/
  quickPick_manifest (world env) = None ->
  let r := upCommand state_ready state_failed fuel repository path env s in
  outcome_of r = Return tt /\
  Forall (fun e => before_load e = true) (trace_of r) /\
  last (trace_of r) = Some (reporter_track events.manifestDismissed).
Proof.
  intros Hpath Hinstall Hnothing r. subst r.
  destruct (workspace_step_run repository env s) as (s1 & t1 & Hstep1 & Ht1 & _).
  unfold upCommand. rewrite bind_ask.
  rewrite (bind_return _ _ _ _ _ _ _ Hstep1).
  destruct (needsInstall (world env)) as [install upgrade] eqn:Hneeds.
  assert (Hstep2 : exists t2,
            (if install
             then try_catch (installCmd upgrade false ;; ret true)
                    (fun err => emit (showErrorMessage err) ;; ret false)
             else ret true)%cmd env s1 = (Return true, s1, t2) /\
            Forall (fun e => before_load e = true) t2).
  { rewrite install_step_run. destruct install.
    - destruct Hinstall as [Hno | Hok]; [discriminate |]. rewrite Hok.
      eexists. split; [reflexivity |]. destruct upgrade; repeat constructor.
    - eexists. split; [reflexivity | constructor]. }
  destruct Hstep2 as (t2 & Hstep2 & Ht2).
  rewrite (bind_return _ _ _ _ _ _ _ Hstep2). cbn [negb].
  destruct (showManifestPicker_nothing env s1 Hnothing) as (t3 & Hpick & Ht3 & _).
  assert (Hstep3 : exists t4,
            (if truthy path then
               emit (findFiles (template path)) ;;
               let files := findFiles_result (world env) (template path) in
               if length files =? 0 then showManifestPicker else ret None
             else showManifestPicker)%cmd env s1 = (Return None, s1, t4) /\
            Forall (fun e => before_load e = true) t4).
  { assert (Hb3 : Forall (fun e => before_load e = true)
                    (findFiles "**/okteto.{yml,yaml}" :: t3)).
    { constructor; [reflexivity |].
      eapply Forall_impl; [exact Ht3 | exact silent_before_load]. }
    destruct (truthy path) eqn:Htruthy.
    - destruct Hpath as [Hno | Hnone]; [discriminate |].
      run_cmd. cbv beta iota zeta. rewrite Hnone. cbn [length Nat.eqb]. rewrite Hpick.
      eexists. split; [reflexivity |]. constructor; [reflexivity | exact Hb3].
    - exists (findFiles "**/okteto.{yml,yaml}" :: t3). split; [exact Hpick | exact Hb3]. }
  destruct Hstep3 as (t4 & Hstep3 & Ht4).
  rewrite (bind_return _ _ _ _ _ _ _ Hstep3).
  unfold track, emit, outcome_of, session_of, trace_of. cbn [fst snd].
  split; [reflexivity |]. split.
  - repeat (apply Forall_app; split; try assumption). repeat constructor.
  - rewrite !app_assoc. apply last_snoc.
Qed.

End UpCommandDismissed.

(** ** The further properties on sample worlds *)

Ltac find_in_trace := vm_compute; repeat (first [left; reflexivity | right]).

Lemma upCommand_tells_ready_witness :
  outcome_of (upCommand "ready" "failed" 300 None None
                (sample_env ready_on_tick_3) (idle None 0)) = Return tt /\
  exists pre,
    trace_of (upCommand "ready" "failed" 300 None None
                (sample_env ready_on_tick_3) (idle None 0)) =
      pre ++ [reporter_track events.upReady; reporter_track events.upFinished;
              okteto_notifyIfFailed "dev" (name app_manifest);
              showInformationMessage "Your development container is ready!"].
Proof.
  refine (upCommand_tells_ready "ready" "failed" 300 None None
            (sample_env ready_on_tick_3) (idle None 0) "/ws/okteto.yml" app_manifest "dev" 3
            {| state := "ready"; message := "" |} _ _ _ _ _ _ _ _).
  - find_in_trace.
  - reflexivity.
  - reflexivity.
  - rewrite timeout_value. lia.
  - rewrite timeout_value. lia.
  - intros j Hj. destruct j as [|[|[|j]]]; simpl; try (split; discriminate). lia.
  - reflexivity.
  - reflexivity.
Defined.

Lemma upCommand_tells_failure_witness :
  outcome_of (upCommand "ready" "failed" 300 None None
                (sample_env crash_loop) (idle None 0)) = Return tt /\
  exists pre,
    trace_of (upCommand "ready" "failed" 300 None None
                (sample_env crash_loop) (idle None 0)) =
      pre ++ [reporter_track events.oktetoUpFailed;
              console_error (message {| state := "failed"; message := "crash loop" |});
              reporter_captureError
                ("okteto up failed: " +:+ "Okteto: Up command failed: " +:+
                 message {| state := "failed"; message := "crash loop" |});
              showErrorMessage
                ("Okteto: Up command failed: " +:+
                 message {| state := "failed"; message := "crash loop" |});
              okteto_showTerminal].
Proof.
  refine (upCommand_tells_failure "ready" "failed" 300 None None
            (sample_env crash_loop) (idle None 0) "/ws/okteto.yml" app_manifest "dev" 1
            {| state := "failed"; message := "crash loop" |} _ _ _ _ _ _ _ _ _).
  - discriminate.
  - find_in_trace.
  - reflexivity.
  - reflexivity.
  - rewrite timeout_value. lia.
  - rewrite timeout_value. lia.
  - intros j Hj. destruct j as [|j]; simpl; [split; discriminate | lia].
  - reflexivity.
  - reflexivity.
Defined.

Lemma upCommand_tells_rejection_witness :
  outcome_of (upCommand "ready" "failed" 300 None None
                (sample_env unreachable_once) (idle None 0)) = Return tt /\
  exists pre,
    trace_of (upCommand "ready" "failed" 300 None None
                (sample_env unreachable_once) (idle None 0)) =
      pre ++ [reporter_captureError ("okteto up failed: " +:+ "connect ECONNREFUSED");
              showErrorMessage "connect ECONNREFUSED"; okteto_showTerminal].
Proof.
  refine (upCommand_tells_rejection "ready" "failed" 300 None None
            (sample_env unreachable_once) (idle None 0) "/ws/okteto.yml" app_manifest "dev" 0
            "connect ECONNREFUSED" _ _ _ _ _ _ _).
  - find_in_trace.
  - reflexivity.
  - reflexivity.
  - rewrite timeout_value. lia.
  - rewrite timeout_value. lia.
  - intros j Hj. lia.
  - reflexivity.
Defined.

Lemma upCommand_sets_activeManifest_witness :
  (activeManifest (session_of (upCommand "ready" "failed" 300 None None
                                 (sample_env ready_on_tick_3) (idle None 0))) =
     Some "/ws/okteto.yml" \/
   activeManifest (session_of (upCommand "ready" "failed" 300 None None
                                 (sample_env ready_on_tick_3) (idle None 0))) = Some "") /\
  (cancellation (sample_env ready_on_tick_3) = None ->
   activeManifest (session_of (upCommand "ready" "failed" 300 None None
                                 (sample_env ready_on_tick_3) (idle None 0))) =
     Some "/ws/okteto.yml").
Proof.
  refine (upCommand_sets_activeManifest "ready" "failed" 300 None None
            (sample_env ready_on_tick_3) (idle None 0) "/ws/okteto.yml" app_manifest "dev"
            _ _ _).
  - find_in_trace.
  - reflexivity.
  - reflexivity.
Defined.

Lemma upCommand_tells_timeout_witness :
  outcome_of (upCommand "ready" "failed" 300 None None
                (sample_env always_starting) (idle None 0)) = Return tt /\
  exists pre,
    trace_of (upCommand "ready" "failed" 300 None None
                (sample_env always_starting) (idle None 0)) =
      pre ++ [reporter_track events.oktetoUpFailed;
              console_error "task didn't finish in 5 minutes";
              reporter_captureError
                ("okteto up failed: " +:+ "Okteto: Up command failed: " +:+
                 "task didn't finish in 5 minutes");
              showErrorMessage
                ("Okteto: Up command failed: " +:+ "task didn't finish in 5 minutes");
              okteto_showTerminal].
Proof.
  refine (upCommand_tells_timeout "ready" "failed" 300 None None
            (sample_env always_starting) (idle None 0) "/ws/okteto.yml" app_manifest "dev"
            _ _ _ _ _).
  - find_in_trace.
  - reflexivity.
  - reflexivity.
  - rewrite timeout_value. lia.
  - intros j Hj. simpl. split; discriminate.
Defined.

Lemma downCommand_teardown_report_witness :
  count is_teardown
    (trace_of (downCommand (sample_env always_starting) (idle (Some "/ws/okteto.yml") 0))) = 1 /\
  exists pre,
    trace_of (downCommand (sample_env always_starting) (idle (Some "/ws/okteto.yml") 0)) =
      pre ++ okteto_down "/ws/okteto.yml" "dev"
               (getKubeconfig (world (sample_env always_starting))) ::
      match down_error (world (sample_env always_starting)) with
      | None =>
          [showInformationMessage "Okteto environment deactivated";
           reporter_track events.downFinished]
      | Some err =>
          [reporter_track events.oktetoDownFailed;
           reporter_captureError ("okteto down failed: " +:+ err);
           showErrorMessage ("Okteto: Down failed: " +:+ err)]
      end.
Proof.
  refine (downCommand_teardown_report (sample_env always_starting)
            (idle (Some "/ws/okteto.yml") 0) "/ws/okteto.yml" app_manifest "dev" _ _ _).
  - find_in_trace.
  - reflexivity.
  - reflexivity.
Defined.

Lemma downCommand_load_failure_witness :
  let env := {| world := sample_world always_starting (inl "bad indentation") (Some "dev");
                cancellation := None |} in
  session_of (downCommand env (idle None 0)) = idle None 0 /\
  count is_teardown (trace_of (downCommand env (idle None 0))) = 0 /\
  exists pre,
    trace_of (downCommand env (idle None 0)) =
      pre ++ [manifest_getManifest "/ws/okteto.yml";
              reporter_track events.manifestLoadFailed;
              reporter_captureError ("load manifest failed: " +:+ "bad indentation");
              showErrorMessage
                ("Okteto: Down failed to load your Okteto manifest: " +:+ "bad indentation");
              okteto_showTerminal].
Proof.
  intros env.
  refine (downCommand_load_failure env (idle None 0) "/ws/okteto.yml" "bad indentation" _ _).
  - find_in_trace.
  - reflexivity.
Defined.

Lemma downCommand_without_namespace_witness :
  let env := {| world := sample_world always_starting (inr app_manifest) None;
                cancellation := None |} in
  session_of (downCommand env (idle None 0)) = idle None 0 /\
  count is_teardown (trace_of (downCommand env (idle None 0))) = 0 /\
  last (trace_of (downCommand env (idle None 0))) =
    Some (showErrorMessage "Couldn't detect your current Kubernetes context.").
Proof.
  intros env.
  refine (downCommand_without_namespace env (idle None 0) "/ws/okteto.yml" app_manifest
            _ _ _ _).
  - find_in_trace.
  - reflexivity.
  - reflexivity.
  - reflexivity.
Defined.

Lemma downCommand_install_failure_witness :
  let env := {| world := broken_world (inr app_manifest) (Some "dev");
                cancellation := None |} in
  downCommand env (idle (Some "/ws/okteto.yml") 0) =
    (Return tt, idle (Some "/ws/okteto.yml") 0, install_failure false "EACCES") /\
  last (install_failure false "EACCES") =
    Some (showErrorMessage ("Okteto was not installed: " +:+ "EACCES")).
Proof.
  intros env.
  refine (downCommand_install_failure env (idle (Some "/ws/okteto.yml") 0) false "EACCES"
            _ _); reflexivity.
Defined.

Lemma upCommand_install_failure_witness :
  let env := {| world := broken_world (inr app_manifest) (Some "dev");
                cancellation := None |} in
  exists pre s1,
    upCommand "ready" "failed" 300 None None env (idle None 0) =
      (Return tt, s1, pre ++ install_failure false "EACCES") /\
    Forall (fun e => before_load e = true) (pre ++ install_failure false "EACCES") /\
    (truthy (workspace_name (world env)) = true -> s1 = idle None 0 /\ pre = []).
Proof.
  intros env.
  refine (upCommand_install_failure "ready" "failed" 300 None None env (idle None 0)
            false "EACCES" _ _); reflexivity.
Defined.

Lemma upCommand_found_path_is_dismissed_witness :
  let r := upCommand "ready" "failed" 300 None (Some "frontend/okteto.yml")
             (sample_env ready_on_tick_3) (idle None 0) in
  outcome_of r = Return tt /\
  Forall (fun e => before_load e = true) (trace_of r) /\
  exists pre,
    trace_of r =
      pre ++ [findFiles (template (Some "frontend/okteto.yml"));
              reporter_track events.manifestDismissed].
Proof.
  refine (upCommand_found_path_is_dismissed "ready" "failed" 300 None
            (Some "frontend/okteto.yml") (sample_env ready_on_tick_3) (idle None 0) _ _ _).
  - reflexivity.
  - discriminate.
  - left. reflexivity.
Defined.

Lemma upCommand_timers_are_1000_witness :
  In (setTimeout 1000)
    (trace_of (upCommand "ready" "failed" 300
                 (Some "https://github.com/okteto/go-getting-started") None
                 {| world := cloning_world; cancellation := None |} (idle None 0))) /\
  1000 = 1000.
Proof.
  assert (H : In (setTimeout 1000)
                (trace_of (upCommand "ready" "failed" 300
                             (Some "https://github.com/okteto/go-getting-started") None
                             {| world := cloning_world; cancellation := None |}
                             (idle None 0)))) by find_in_trace.
  split; [exact H |].
  exact (upCommand_timers_are_1000 "ready" "failed" 300
           (Some "https://github.com/okteto/go-getting-started") None
           {| world := cloning_world; cancellation := None |} (idle None 0)
           (setTimeout 1000) 1000 H eq_refl).
Defined.

Lemma upCommand_manifest_namespace_witness :
  let env := {| world := sample_world ready_on_tick_3 (inr staging_manifest) (Some "dev");
                cancellation := None |} in
  let r := upCommand "ready" "failed" 300 None None env (idle None 0) in
  In (okteto_up "/ws/okteto.yml" "staging" (name staging_manifest)
        (getKubeconfig (world env))) (trace_of r) /\
  count is_launch (trace_of r) = 1.
Proof.
  intros env.
  refine (upCommand_manifest_namespace "ready" "failed" 300 None None env (idle None 0)
            "/ws/okteto.yml" staging_manifest "staging" _ _ _ _).
  - find_in_trace.
  - reflexivity.
  - reflexivity.
  - discriminate.
Defined.

Lemma downCommand_after_upCommand_witness :
  let r := upCommand "ready" "failed" 300 None None
             (sample_env ready_on_tick_3) (idle None 0) in
  let r' := downCommand (sample_env always_starting) (session_of r) in
  count is_picker (trace_of r') = 0 /\
  forall q, In (manifest_getManifest q) (trace_of r') -> q = "/ws/okteto.yml".
Proof.
  refine (downCommand_after_upCommand "ready" "failed" 300 None None
            (sample_env ready_on_tick_3) (idle None 0) "/ws/okteto.yml" app_manifest "dev"
            (sample_env always_starting) _ _ _ _ _).
  - find_in_trace.
  - reflexivity.
  - reflexivity.
  - reflexivity.
  - discriminate.
Defined.

Lemma handleUri_dispatches_on_first_segment_witness :
  let uri_path := slashes 1 +:+ "up" +:+ match @None string with
                                         | Some rest => String "/"%char rest
                                         | None => ""
                                         end in
  uri_path = "/up" /\
  handleUri "ready" "failed" 300 uri_path (query_string "okteto/movies")
    (query_array ["frontend"; "okteto.yml"]) (sample_env ready_on_tick_3) (idle None 0) =
  if String.eqb "up" "up"
  then detached (upCommand "ready" "failed" 300
                   (join_query (query_string "okteto/movies"))
                   (join_query (query_array ["frontend"; "okteto.yml"])))
         (sample_env ready_on_tick_3) (idle None 0)
  else (Return tt, idle None 0, []).
Proof.
  split; [reflexivity |].
  refine (handleUri_dispatches_on_first_segment "ready" "failed" 300 1 "up" None
            (query_string "okteto/movies") (query_array ["frontend"; "okteto.yml"])
            (sample_env ready_on_tick_3) (idle None 0) _ _).
  - reflexivity.
  - discriminate.
Defined.

Lemma waitForFinalState_is_bounded_witness :
  let r := waitForFinalState "ready" "failed" 300 "dev" "app"
             (sample_env always_starting) (idle None 0) in
  outcome_of r <> OutOfFuel /\ 1 <= queries (trace_of r) <= 300.
Proof.
  refine (waitForFinalState_is_bounded "ready" "failed" 300 "dev" "app"
            (sample_env always_starting) (idle None 0) _).
  rewrite timeout_value. lia.
Defined.

Lemma upCommand_ready_only_if_answered_witness :
  let env := sample_env ready_on_tick_3 in
  let r := upCommand "ready" "failed" 300 None None env (idle None 0) in
  exists k res,
    queries (trace_of r) = k + 1 /\
    k < timeout /\
    (forall j, j < k ->
       pending "ready" "failed" (getState (world env) (polls (idle None 0) + j))) /\
    getState (world env) (polls (idle None 0) + k) = inr res /\
    state res = "ready".
Proof.
  intros env.
  refine (upCommand_ready_only_if_answered "ready" "failed" 300 None None
            env (idle None 0) _).
  find_in_trace.
Defined.

Lemma downCommand_dismissed_witness :
  let env := {| world := empty_workspace_world; cancellation := None |} in
  let r := downCommand env (idle None 0) in
  outcome_of r = Return tt /\
  session_of r = idle None 0 /\
  count is_load (trace_of r) = 0 /\
  count is_teardown (trace_of r) = 0 /\
  last (trace_of r) = Some (reporter_track events.manifestDismissed).
Proof.
  intros env.
  refine (downCommand_dismissed env (idle None 0) _ _ _).
  - reflexivity.
  - left. reflexivity.
  - left. reflexivity.
Defined.

Lemma upCommand_dismissed_witness :
  let env := {| world := empty_workspace_world; cancellation := None |} in
  let r := upCommand "ready" "failed" 300 None (Some "frontend/okteto.yml") env
             (idle None 0) in
  outcome_of r = Return tt /\
  Forall (fun e => before_load e = true) (trace_of r) /\
  last (trace_of r) = Some (reporter_track events.manifestDismissed).
Proof.
  intros env.
  refine (upCommand_dismissed "ready" "failed" 300 None (Some "frontend/okteto.yml") env
            (idle None 0) _ _ _).
  - right. reflexivity.
  - left. reflexivity.
  - left. reflexivity.
Defined.
